(** * Province-wide base data: city extraction and year-over-year growth

    A shallow embedding of the data pipeline of [modified_code.py]:
    [extract_indicators_from_template], [process_excel_file],
    [extract_indicators_and_counties], [select_negative_indicators],
    the sign inversion of [run_processing], [calculate_growth_rates] and
    [generate_output_table], with the properties the specification states
    about them.

    Modelling conventions.
    - Numbers are IEEE 754 binary64 values, as pandas and numpy hold them:
      Rocq's primitive [float].  A missing cell is the float NaN.  A cell
      that Excel stores as an integer is read as the binary64 of the same
      value.
    - Text is a [string] of UTF-8 bytes; Python works on code points, and the
      operations used here (strip, replace, split, substring test) agree
      on both views for well-formed UTF-8.
    - A dictionary whose iteration order is observed is an association list
      in insertion order; one that is only read by key is a [gmap].
    - An exception is a [None] result (or the error event the [except]
      clause emits).
    - The Tk widgets and the progress window are left out; the messages
      shown to the operator are kept as events.  The checks of
      [run_processing] on the form and [format_excel_with_style] are
      modelled on their own, beside the run. *)

From Stdlib Require Import Floats ZArith Ascii String DecimalString.
From stdpp Require Import base option list strings gmap sorting.

(** ** Python and numpy scalars *)

Module Py.

(** [pd.notna] / [pd.isna] on a float scalar. *)
Definition notna (x : float) : bool := negb (PrimFloat.is_nan x).
Definition isna (x : float) : bool := PrimFloat.is_nan x.

(** [x == 0], [x != 0], [x == np.inf] on floats (IEEE comparison). *)
Definition is_zero (x : float) : bool := PrimFloat.eqb x 0%float.
Definition np_inf : float := infinity.
Definition np_nan : float := nan.

Definition bytes (l : list nat) : string :=
  fold_right (fun n s => String (ascii_of_nat n) s) EmptyString l.

(** The line feed, ["\n"]. *)
Definition LF : ascii := ascii_of_nat 10.

(** The code points Python's [str.strip()] removes, in UTF-8:
    U+0009..U+000D, U+001C..U+0020, U+0085, U+00A0, U+1680,
    U+2000..U+200A, U+2028, U+2029, U+202F, U+205F, U+3000. *)
Definition whitespace : list string :=
  bytes <$>
    [ [9]; [10]; [11]; [12]; [13]; [28]; [29]; [30]; [31]; [32];
      [194; 133]; [194; 160]; [225; 154; 128];
      [226; 128; 128]; [226; 128; 129]; [226; 128; 130]; [226; 128; 131];
      [226; 128; 132]; [226; 128; 133]; [226; 128; 134]; [226; 128; 135];
      [226; 128; 136]; [226; 128; 137]; [226; 128; 138];
      [226; 128; 168]; [226; 128; 169]; [226; 128; 175];
      [226; 129; 159]; [227; 128; 128] ].

Fixpoint str_rev (s : string) : string :=
  match s with
  | EmptyString => EmptyString
  | String c s' => str_rev s' +:+ String c EmptyString
  end.

(** Drop leading members of [ws]; every step removes at least one byte,
    so [String.length s] rounds are enough. *)
Fixpoint lstrip_with (ws : list string) (fuel : nat) (s : string) : string :=
  match fuel with
  | O => s
  | S fuel' =>
      match List.find (fun w => String.prefix w s) ws with
      | Some w =>
          lstrip_with ws fuel'
            (String.substring (String.length w)
               (String.length s - String.length w) s)
      | None => s
      end
  end.

Definition lstrip (s : string) : string :=
  lstrip_with whitespace (String.length s) s.

Definition rstrip (s : string) : string :=
  str_rev (lstrip_with (str_rev <$> whitespace) (String.length s) (str_rev s)).

(** [s.strip()] *)
Definition strip (s : string) : string := rstrip (lstrip s).

(** [s.replace(c, '')] for a one-character [c]. *)
Fixpoint remove_char (c : ascii) (s : string) : string :=
  match s with
  | EmptyString => EmptyString
  | String a s' =>
      if Ascii.eqb a c then remove_char c s' else String a (remove_char c s')
  end.

(** [sep in s] for a non-empty [sep]. *)
Fixpoint contains (sep s : string) : bool :=
  String.prefix sep s ||
  match s with
  | EmptyString => false
  | String _ s' => contains sep s'
  end.

(** [s.split(sep)[0]] for a non-empty [sep]: the text before the first
    occurrence of [sep], all of [s] when there is none. *)
Fixpoint split_head (sep s : string) : string :=
  if String.prefix sep s then EmptyString
  else match s with
       | EmptyString => EmptyString
       | String a s' => String a (split_head sep s')
       end.

(** [range(start, stop, step)] for a positive [step]. *)
Definition range (start stop step : nat) : list nat :=
  (fun k => start + k * step) <$> seq 0 ((stop - start + (step - 1)) / step).

End Py.

(** ** Number formatting: [f"{x:,.2f}"] *)

Module Fmt.

Local Open Scope Z_scope.

(** [m * 2^e * 100] rounded to the nearest integer, ties to even: the
    hundredths of a finite binary64 with mantissa [m] and exponent [e],
    as Python's correctly rounded conversion gives them. *)
Definition hundredths (m : positive) (e : Z) : Z :=
  if 0 <=? e then Z.pos m * 2 ^ e * 100
  else
    let d := 2 ^ (- e) in
    let n := Z.pos m * 100 in
    let q := n / d in
    let r := n mod d in
    if 2 * r <? d then q
    else if d <? 2 * r then q + 1
    else if Z.even q then q else q + 1.

Definition digits (n : Z) : string := NilZero.string_of_uint (N.to_uint (Z.to_N n)).

(** The thousands separator of the [,] option: a comma before every
    group of three digits, counted from the right. *)
Fixpoint group3 (s : string) : string :=
  match s with
  | EmptyString => EmptyString
  | String c s' =>
      let k := String.length s' in
      if (Nat.eqb (k mod 3) 0 && negb (Nat.eqb k 0))%nat
      then String c (String "," (group3 s'))
      else String c (group3 s')
  end.

Definition two_digits (n : Z) : string :=
  if n <? 10 then "0" +:+ digits n else digits n.

Definition fixed2 (h : Z) : string :=
  group3 (digits (h / 100)) +:+ "." +:+ two_digits (h mod 100).

Definition sign (s : bool) : string := if s then "-" else "".

(** [format(x, ',.2f')] *)
Definition format_2f (x : float) : string :=
  match Prim2SF x with
  | S754_nan => "nan"
  | S754_infinity s => sign s +:+ "inf"
  | S754_zero s => sign s +:+ fixed2 0
  | S754_finite s m e => sign s +:+ fixed2 (hundredths m e)
  end.

End Fmt.

(** ** Cells and tables *)

(** A cell of a sheet as [pd.read_excel(..., header=None)] delivers it: a
    number or a text.  An empty cell is the number NaN. *)
Inductive cell : Type :=
| CNum (x : float)
| CStr (s : string).

Definition blank : cell := CNum Py.np_nan.

(** A raw table: the rows of the sheet, top to bottom.  pandas frames are
    rectangular; a short row reads as padded with empty cells. *)
Definition RawTable : Type := list (list cell).

(** [df.shape[0]], [df.shape[1]], [df.iloc[r, c]] *)
Definition shape0 (df : RawTable) : nat := length df.
Definition shape1 (df : RawTable) : nat := max_list (length <$> df).
Definition iloc (df : RawTable) (r c : nat) : cell :=
  default blank (df !! r ≫= (.!! c)).

(** A frame with text column labels, as [pd.DataFrame(rows, columns=...)]
    builds it. *)
Record Frame : Type := { columns : list string; body : list (list cell) }.

(** The outcome of an operation on the file system. *)
Inductive io (A : Type) : Type :=
| Done (a : A)
| Raised (e : string).
Arguments Done {A} a.
Arguments Raised {A} e.

(** What the operator gets to see, and what reaches the disk. *)
Inductive event : Type :=
| SetStatus (msg : string)
| Log (level msg : string)
| ShowError (title msg : string)
| SaveExcel (path : string) (df : Frame).

Definition OUTPUT_CITY_COL_NAME : string := "地市".
Definition OUTPUT_COUNTY_COL_NAME : string := "县级市、区".

(** The truth value of a text: it is not empty. *)
Definition nonempty (s : string) : bool := negb (String.eqb s "").

(** [pd.DataFrame(data, columns=columns)] on a list of rows: the data
    has as many columns as its longest row, shorter rows are padded with
    missing cells, and the constructor raises unless there is one label
    per column of data.  Without rows there is nothing to compare. *)
Definition pad (n : nat) (row : list cell) : list cell :=
  row ++ replicate (n - length row) blank.

Definition make_frame (data : list (list cell)) (cols : list string) : option Frame :=
  match data with
  | [] => Some {| columns := cols; body := [] |}
  | _ :: _ =>
      if Nat.eqb (max_list (length <$> data)) (length cols)
      then Some {| columns := cols; body := pad (length cols) <$> data |}
      else None
  end.

(** ** Sample data *)

Module Sample.

(** A reading of texts as numbers that knows the unsigned decimal
    integers, a rendering of numbers, and POSIX-like paths: instances of
    the library functions, to run the pipeline on. *)
Definition digit_value (a : ascii) : option Z :=
  let n := Z.of_nat (nat_of_ascii a) in
  if ((48 <=? n) && (n <=? 57))%Z then Some (n - 48)%Z else None.

Fixpoint digits_value (acc : Z) (s : string) : option Z :=
  match s with
  | EmptyString => Some acc
  | String a s' => d ← digit_value a; digits_value (10 * acc + d)%Z s'
  end.

Definition parse_number (s : string) : option float :=
  match s with
  | EmptyString => None
  | _ => n ← digits_value 0 s; Some (PrimFloat.of_uint63 (Uint63.of_Z n))
  end.

Definition str_of_float (x : float) : string := Fmt.format_2f x.
Definition basename (p : string) : string := p.
Definition path_join (d f : string) : string := d +:+ "/" +:+ f.
Definition frame_error (n k : nat) : string :=
  Fmt.digits (Z.of_nat n) +:+ " columns passed, passed data had "
    +:+ Fmt.digits (Z.of_nat k) +:+ " columns".

(** Two sheets for one city: a title row, the header row with one
    indicator, two county rows (the city cell of the second is empty). *)
Definition header : list cell :=
  [blank; blank; blank; blank; CStr "销量（件）"; blank].

Definition sheet_last (city : string) : RawTable :=
  [ [CStr "基础数据"]; header;
    [CNum 1; blank; CStr city; CStr "甲县"; CNum 10; blank];
    [CNum 2; blank; blank; CStr "乙县"; CNum 20; blank] ].

Definition sheet_this (city : string) : RawTable :=
  [ [CStr "基础数据"]; header;
    [CNum 1; blank; CStr city; CStr "甲县"; CNum 15; blank];
    [CNum 2; blank; blank; CStr "乙县"; CNum 8; blank] ].

(** The frames extracted from them. *)
Definition frame_last : Frame :=
  {| columns := ["地市"; "县级市、区"; "销量（件）"];
     body := [ [CStr "X"; CStr "甲县"; CNum 10]; [CStr "X"; CStr "乙县"; CNum 20] ] |}.

Definition frame_this : Frame :=
  {| columns := ["地市"; "县级市、区"; "销量（件）"];
     body := [ [CStr "X"; CStr "甲县"; CNum 15]; [CStr "X"; CStr "乙县"; CNum 8] ] |}.

(** A current year in which the first county lost its value. *)
Definition frame_this_gap : Frame :=
  {| columns := ["地市"; "县级市、区"; "销量（件）"];
     body := [ [CStr "X"; CStr "甲县"; CNum Py.np_nan]; [CStr "X"; CStr "乙县"; CNum 8] ] |}.

(** A header row with empty cells among the names, a name with a line
    break, and a name in a column off the stride (index 7). *)
Definition sheet_header_gaps : RawTable :=
  [ [CStr "基础数据"];
    [blank; blank; blank; blank; CStr ("销量" +:+ String Py.LF "（件）"); blank;
     blank; CStr "备注"; CStr "产值"; blank] ].

(** Value cells that hold no number: a text, an empty cell, and a third
    indicator column that the second county row is too short for; the
    text "12" reads as a number. *)
Definition sheet_mixed : RawTable :=
  [ [CStr "基础数据"];
    [blank; blank; blank; blank; CStr "销量"; blank; CStr "产值"; blank; CStr "户数"];
    [CNum 1; blank; CStr "X"; CStr "甲县"; CStr "未报"; blank; blank; blank; CStr "12"];
    [CNum 2; blank; blank; CStr "乙县"; CNum 0; blank; CNum 7] ].

(** A sheet without a header row, and a sheet without rows of the city. *)
Definition sheet_no_header : RawTable := [ [CStr "基础数据"] ].

Definition sheet_other_city : RawTable :=
  [ [CStr "基础数据"]; header;
    [CNum 1; blank; CStr "Y"; CStr "丙县"; CNum 10; blank] ].

(** City cells A, empty, empty, B, empty. *)
Definition sheet_cities : RawTable :=
  [ [blank; blank; CStr "A"; CStr "c1"];
    [blank; blank; CStr ""; CStr "c2"];
    [blank; blank; blank; CStr "c3"];
    [blank; blank; CStr "B"; CStr "c4"];
    [blank; blank; CStr ""; CStr "c5"] ].

(** Python's [int] on the unsigned decimal integers, and a file system
    whose one directory is [out]. *)
Definition int_of_text (s : string) : option Z :=
  match s with
  | EmptyString => None
  | _ => digits_value 0 s
  end.

Definition isdir (p : string) : bool := String.eqb p "out".

(** A current year without the second county, and one whose indicator
    has another name. *)
Definition frame_this_short : Frame :=
  {| columns := ["地市"; "县级市、区"; "销量（件）"];
     body := [ [CStr "X"; CStr "甲县"; CNum 15] ] |}.

Definition frame_this_renamed : Frame :=
  {| columns := ["地市"; "县级市、区"; "产量（件）"];
     body := [ [CStr "X"; CStr "甲县"; CNum 15]; [CStr "X"; CStr "乙县"; CNum 8] ] |}.

Definition sheet_this_renamed (city : string) : RawTable :=
  [ [CStr "基础数据"];
    [blank; blank; blank; blank; CStr "产量（件）"; blank];
    [CNum 1; blank; CStr city; CStr "甲县"; CNum 15; blank];
    [CNum 2; blank; blank; CStr "乙县"; CNum 8; blank] ].

End Sample.

(** ** The pipeline *)

Section Pipeline.

(** Library functions the program relies on: pandas' reading of a text
    as a number ([None]: not a number), Python's [str] of a number,
    [os.path.basename], [os.path.join], and the text of the error that
    [pd.DataFrame] raises for [n] labels on data of [k] columns. *)
Variable parse_number : string -> option float.
Variable str_of_float : float -> string.
Variable basename : string -> string.
Variable path_join : string -> string -> string.
Variable frame_error : nat -> nat -> string.

(** [pd.notna(c)], [str(c)] and [pd.to_numeric(c, errors='coerce')] *)
Definition cell_notna (c : cell) : bool :=
  match c with
  | CNum x => Py.notna x
  | CStr _ => true
  end.

Definition str (c : cell) : string :=
  match c with
  | CNum x => str_of_float x
  | CStr s => s
  end.

Definition to_numeric (c : cell) : float :=
  match c with
  | CNum x => x
  | CStr s => default Py.np_nan (parse_number s)
  end.

(** *** [extract_indicators_from_template]

    [df] is the sheet as read with the rows to skip already dropped.  The
    loop body appends to the two lists in step. *)
Definition header_step (df : RawTable) (header_row_idx : nat)
    (acc : list string * list nat) (i : nat) : list string * list nat :=
  let '(indicators, value_columns) := acc in
  let indicator := iloc df header_row_idx i in
  if cell_notna indicator
  then (indicators ++ [Py.remove_char Py.LF (str indicator)], value_columns ++ [i])
  else (indicators, value_columns).

Definition extract_indicators_from_template (df : RawTable) (header_row_idx : nat)
    : list string * list nat :=
  if decide (shape0 df <= header_row_idx) then ([], [])
  else fold_left (header_step df header_row_idx) (Py.range 4 (shape1 df) 2) ([], []).

(** *** [process_excel_file] *)

(** The city and county names of a row (columns 2 and 3). *)
Definition city_name_of (df : RawTable) (row_idx : nat) : string :=
  let city_value := if decide (2 < shape1 df) then Some (iloc df row_idx 2) else None in
  match city_value with
  | Some v =>
      if cell_notna v && nonempty (Py.strip (str v)) then Py.strip (str v) else ""
  | None => ""
  end.

Definition county_name_of (df : RawTable) (row_idx : nat) : string :=
  let county_value := if decide (3 < shape1 df) then Some (iloc df row_idx 3) else None in
  match county_value with
  | Some v => if cell_notna v then Py.strip (str v) else ""
  | None => ""
  end.

(** The value of one indicator in a row. *)
Definition value_at (df : RawTable) (row_idx value_col : nat) : float :=
  if decide (value_col < shape1 df)
  then to_numeric (iloc df row_idx value_col)
  else Py.np_nan.

Definition row_data (df : RawTable) (city_filter county_name : string)
    (value_columns : list nat) (row_idx : nat) : list cell :=
  [CStr city_filter; CStr county_name]
    ++ ((fun value_col => CNum (value_at df row_idx value_col)) <$> value_columns).

(** The state of the row loop: [current_city] and [city_data]. *)
Definition scan_state : Type := option string * list (list cell).

Definition next_city (df : RawTable) (current_city : option string) (row_idx : nat)
    : option string :=
  let city_name := city_name_of df row_idx in
  if nonempty city_name then Some city_name else current_city.

Definition scan_row (df : RawTable) (city_filter : string) (value_columns : list nat)
    (st : scan_state) (row_idx : nat) : scan_state :=
  let '(current_city, city_data) := st in
  let current_city := next_city df current_city row_idx in
  if decide (current_city = Some city_filter) then
    let county_name := county_name_of df row_idx in
    if nonempty county_name
    then (current_city,
          city_data ++ [row_data df city_filter county_name value_columns row_idx])
    else (current_city, city_data)
  else (current_city, city_data).

Definition scan_rows (df : RawTable) (city_filter : string) (value_columns : list nat)
    (n : nat) : scan_state :=
  fold_left (scan_row df city_filter value_columns) (seq 0 n) (None, []).

(** The events that only inform: a status line or a log line. *)
Definition is_notice (e : event) : Prop :=
  match e with
  | SetStatus _ | Log _ _ => True
  | ShowError _ _ | SaveExcel _ _ => False
  end.

Definition set_status (status_var : bool) (msg : string) : list event :=
  if status_var then [SetStatus msg] else [].
Definition log (log_func : bool) (level msg : string) : list event :=
  if log_func then [Log level msg] else [].

(** The value [process_excel_file] hands back, and the events on the way. *)
Definition outcome : Type := (option Frame * list string) * list event.

(** The [except] clause. *)
Definition failed (input_path file_type_label : string) (status_var log_func : bool)
    (before : list event) (e : string) : outcome :=
  let error_msg := "错误: 处理" +:+ file_type_label +:+ "文件失败: " +:+ e in
  ((None, []),
   before ++ set_status status_var error_msg ++ log log_func "ERROR" error_msg
     ++ [ShowError "处理错误"
           ("处理文件 " +:+ input_path +:+ " 时发生错误:" +:+ String Py.LF e)]).

(** [sheet] is what [pd.read_excel(input_path, header=None,
    skiprows=rows_to_skip)] yields (both reads of the file yield it), and
    [save] what writing [output_path] does. *)
Definition process_excel_file (sheet : io RawTable) (save : io unit)
    (input_path output_path city_filter file_type_label : string)
    (status_var log_func : bool) : outcome :=
  let message :=
    "正在处理" +:+ file_type_label +:+ "文件: " +:+ basename input_path +:+ "..." in
  let ev0 := set_status status_var message ++ log log_func "INFO" message in
  match sheet with
  | Raised e => failed input_path file_type_label status_var log_func ev0 e
  | Done df_input =>
      let '(indicators, value_columns) := extract_indicators_from_template df_input 1 in
      match indicators with
      | [] =>
          let error_msg :=
            "错误: 在" +:+ file_type_label +:+ "文件中未找到有效指标" in
          ((None, []),
           ev0 ++ set_status status_var error_msg ++ log log_func "ERROR" error_msg
             ++ [ShowError "指标错误" ("在文件 " +:+ input_path +:+ " 中未找到有效指标")])
      | _ :: _ =>
          let message :=
            "正在提取" +:+ file_type_label +:+ "文件中的" +:+ city_filter +:+ "市数据..." in
          let ev1 :=
            ev0 ++ set_status status_var message ++ log log_func "INFO" message in
          let '(_, city_data) :=
            scan_rows df_input city_filter value_columns (shape0 df_input) in
          match city_data with
          | [] =>
              let error_msg :=
                "错误: 在" +:+ file_type_label +:+ "文件中未找到" +:+ city_filter
                  +:+ "市的数据" in
              ((None, []),
               ev1 ++ set_status status_var error_msg ++ log log_func "ERROR" error_msg
                 ++ [ShowError "数据错误"
                       ("在文件 " +:+ input_path +:+ " 中未找到" +:+ city_filter
                          +:+ "市的数据")])
          | _ :: _ =>
              let message := "正在生成" +:+ file_type_label +:+ "输出表格..." in
              let ev2 :=
                ev1 ++ set_status status_var message ++ log log_func "INFO" message in
              let cols := [OUTPUT_CITY_COL_NAME; OUTPUT_COUNTY_COL_NAME] ++ indicators in
              match make_frame city_data cols with
              | None =>
                  failed input_path file_type_label status_var log_func ev2
                    (frame_error (length cols) (max_list (length <$> city_data)))
              | Some df_output =>
                  match save with
                  | Raised e => failed input_path file_type_label status_var log_func ev2 e
                  | Done _ =>
                      let success_msg :=
                        "成功: " +:+ file_type_label +:+ "数据已保存到 "
                          +:+ basename output_path in
                      ((Some df_output, indicators),
                       ev2 ++ [SaveExcel output_path df_output]
                         ++ set_status status_var success_msg
                         ++ log log_func "SUCCESS" success_msg)
                  end
              end
          end
      end
  end.

(** *** Frames: access by label *)

(** Where a label occurs among the column labels. *)
Definition label_positions (df : Frame) (label : string) : list nat :=
  List.filter (fun j => bool_decide (columns df !! j = Some label))
    (seq 0 (length (columns df))).

(** The position of a label that names exactly one column.  [df[label]]
    is a series only then: a missing label raises [KeyError], and with a
    repeated label pandas yields a sub-frame, which the callers here do
    not handle (modelled as a failure as well). *)
Definition column_index (df : Frame) (label : string) : option nat :=
  match label_positions df label with
  | [j] => Some j
  | _ => None
  end.

Definition cell_at (row : list cell) (j : nat) : cell := default blank (row !! j).

(** [df[label]] and [df[label] = values] *)
Definition get_column (df : Frame) (label : string) : option (list cell) :=
  j ← column_index df label;
  Some ((fun row => cell_at row j) <$> body df).

Definition set_column (df : Frame) (label : string) (values : list cell) : option Frame :=
  j ← column_index df label;
  Some {| columns := columns df;
          body := zip_with (fun row v => <[j := v]> row) (body df) values |}.

(** *** [extract_indicators_and_counties] *)

Definition cell_text (c : cell) : option string :=
  match c with
  | CStr s => Some s
  | CNum _ => None
  end.

(** The county column holds texts in every frame [process_excel_file]
    builds; a frame with a number there is outside the model ([None]). *)
Definition extract_indicators_and_counties (df_last_year df_this_year : Frame)
    : option (list string * list string) :=
  let indicators :=
    filter (fun col => col ∉ [OUTPUT_CITY_COL_NAME; OUTPUT_COUNTY_COL_NAME])
      (columns df_last_year) in
  county_cells ← get_column df_last_year OUTPUT_COUNTY_COL_NAME;
  counties ← mapM cell_text county_cells;
  Some (indicators, counties).

(** *** Dictionaries in insertion order *)

(** [d[k] = v]: a new key goes to the end, an old key keeps its place. *)
Fixpoint dict_set {V : Type} (k : string) (v : V) (d : list (string * V))
    : list (string * V) :=
  match d with
  | [] => [(k, v)]
  | (k', v') :: d' =>
      if decide (k = k') then (k, v) :: d' else (k', v') :: dict_set k v d'
  end.

Fixpoint dict_get {V : Type} (k : string) (d : list (string * V)) : option V :=
  match d with
  | [] => None
  | (k', v') :: d' => if decide (k = k') then Some v' else dict_get k d'
  end.

(** A loop whose body may raise. *)
Fixpoint foldM {A B : Type} (f : B -> A -> option B) (b : B) (l : list A) : option B :=
  match l with
  | [] => Some b
  | a :: l' => b' ← f b a; foldM f b' l'
  end.

(** *** [select_negative_indicators] *)

(** What the operator does with the dialog: ticks boxes and confirms
    ([ticks] is the state of the boxes, in the order of the indicator
    list; a box without an entry is unticked), or closes the window. *)
Inductive dialog : Type :=
| Confirmed (ticks : list bool)
| Closed.

Definition indicator_vars (indicators : list string) (ticks : list bool)
    : list (string * bool) :=
  fold_left
    (fun vars '(i, indicator) => dict_set indicator (default false (ticks !! i)) vars)
    (imap pair indicators) [].

Definition on_confirm (vars : list (string * bool)) : list string :=
  fold_left
    (fun negative_indicators '(indicator, var) =>
       if var : bool then negative_indicators ++ [indicator] else negative_indicators)
    vars [].

Definition select_negative_indicators (indicators : list string) (d : dialog)
    : list string :=
  match d with
  | Confirmed ticks => on_confirm (indicator_vars indicators ticks)
  | Closed => []
  end.

(** *** The sign inversion of [run_processing] *)

(** [lambda x: x * -1 if pd.notna(x) else x]; on a text, [* -1] gives
    the empty text. *)
Definition negate (x : float) : float :=
  if Py.notna x then (x * -1)%float else x.

Definition negate_cell (c : cell) : cell :=
  match c with
  | CNum x => CNum (negate x)
  | CStr _ => CStr ""
  end.

Definition invert_column (df : Frame) (indicator : string) : option Frame :=
  if bool_decide (indicator ∈ columns df) then
    col ← get_column df indicator;
    df' ← set_column df indicator ((fun c => CNum (to_numeric c)) <$> col);
    col' ← get_column df' indicator;
    set_column df' indicator (negate_cell <$> col')
  else Some df.

(** The loop state is the pair (this year, last year), inverted in this
    order. *)
Definition invert_step (dfs : Frame * Frame) (indicator : string) : option (Frame * Frame) :=
  let '(df_this_year, df_last_year) := dfs in
  df_this_year' ← invert_column df_this_year indicator;
  df_last_year' ← invert_column df_last_year indicator;
  Some (df_this_year', df_last_year').

Definition invert_negative_indicators (negative_indicators : list string)
    (df_this_year df_last_year : Frame) : option (Frame * Frame) :=
  foldM invert_step (df_this_year, df_last_year) negative_indicators.

(** The inversion as the specification words it: every cell of a column
    whose label is selected is made a number and negated, once; the
    other cells stay. *)
Definition negate_selected (selected : list string) (df : Frame) : Frame :=
  {| columns := columns df;
     body :=
       (fun row =>
          imap (fun j c =>
                  match columns df !! j with
                  | Some label =>
                      if bool_decide (label ∈ selected)
                      then negate_cell (CNum (to_numeric c))
                      else c
                  | None => c
                  end) row) <$> body df |}.

(** *** [calculate_growth_rates] *)

Record indicator_data : Type := {
  name : string;
  current_values : gmap string float;
  previous_values : gmap string float;
  growth_rates : gmap string float
}.

Definition cell_is (county : string) (c : cell) : bool :=
  match c with
  | CStr s => bool_decide (s = county)
  | CNum _ => false
  end.

(** [df[df[OUTPUT_COUNTY_COL_NAME] == county]] *)
Definition rows_where (df : Frame) (county : string) : option (list (list cell)) :=
  j ← column_index df OUTPUT_COUNTY_COL_NAME;
  Some (List.filter (fun row => cell_is county (cell_at row j)) (body df)).

(** [pd.to_numeric(rows[label].values[0], errors='coerce')] *)
Definition first_value (df : Frame) (rows : list (list cell)) (label : string)
    : option float :=
  j ← column_index df label;
  row ← head rows;
  Some (to_numeric (cell_at row j)).

(** [x if pd.notna(x) else 0] *)
Definition or_zero (x : float) : float := if Py.notna x then x else 0%float.

(** The specification's "absent/zero". *)
Definition absent_or_zero (x : float) : bool := Py.isna x || Py.is_zero x.

(** The three-way branch on the two values. *)
Definition growth_rate (last_year_value this_year_value : float) : float :=
  if Py.notna last_year_value && negb (Py.is_zero last_year_value)
  then ((this_year_value - last_year_value) / last_year_value * 100)%float
  else if Py.notna this_year_value && negb (Py.is_zero this_year_value)
          && (Py.isna last_year_value || Py.is_zero last_year_value)
  then Py.np_inf
  else Py.np_nan.

(** The same branch with a division that refuses a divisor that is absent
    or zero ([None]), to tell whether the guard protects it. *)
Definition checked_div (x y : float) : option float :=
  if absent_or_zero y then None else Some (x / y)%float.

Definition growth_rate_checked (last_year_value this_year_value : float) : option float :=
  if Py.notna last_year_value && negb (Py.is_zero last_year_value)
  then q ← checked_div (this_year_value - last_year_value) last_year_value;
       Some (q * 100)%float
  else if Py.notna this_year_value && negb (Py.is_zero this_year_value)
          && (Py.isna last_year_value || Py.is_zero last_year_value)
  then Some Py.np_inf
  else Some Py.np_nan.

Definition county_step (df_last_year df_this_year : Frame) (indicator : string)
    (d : indicator_data) (county : string) : option indicator_data :=
  last_year_row ← rows_where df_last_year county;
  this_year_row ← rows_where df_this_year county;
  match last_year_row, this_year_row with
  | _ :: _, _ :: _ =>
      last_year_value ← first_value df_last_year last_year_row indicator;
      this_year_value ← first_value df_this_year this_year_row indicator;
      Some {| name := name d;
              current_values := <[county := or_zero this_year_value]> (current_values d);
              previous_values := <[county := or_zero last_year_value]> (previous_values d);
              growth_rates :=
                <[county := growth_rate last_year_value this_year_value]> (growth_rates d) |}
  | _, _ => Some d
  end.

Definition new_indicator_data (indicator : string) : indicator_data :=
  {| name := indicator; current_values := ∅; previous_values := ∅; growth_rates := ∅ |}.

Definition indicator_step (df_last_year df_this_year : Frame) (counties : list string)
    (result_data : list (string * indicator_data)) (indicator : string)
    : option (list (string * indicator_data)) :=
  d ← foldM (county_step df_last_year df_this_year indicator)
        (new_indicator_data indicator) counties;
  Some (dict_set indicator d result_data).

Definition calculate_growth_rates (df_last_year df_this_year : Frame)
    (indicators counties : list string) : option (list (string * indicator_data)) :=
  foldM (indicator_step df_last_year df_this_year counties) [] indicators.

(** What [calculate_growth_rates] is to record for a county of which
    both frames have a row: the three entries, from the values of the
    first such row of each frame. *)
Definition recorded (df_last_year df_this_year : Frame) (indicator : string)
    (d : indicator_data) (county : string) : Prop :=
  forall last_year_row this_year_row,
    rows_where df_last_year county = Some last_year_row ->
    rows_where df_this_year county = Some this_year_row ->
    last_year_row <> [] -> this_year_row <> [] ->
    exists previous current,
      first_value df_last_year last_year_row indicator = Some previous /\
      first_value df_this_year this_year_row indicator = Some current /\
      current_values d !! county = Some (or_zero current) /\
      previous_values d !! county = Some (or_zero previous) /\
      growth_rates d !! county = Some (growth_rate previous current).

(** *** [generate_output_table] *)

(** The cell of a value: [dict.get] gives [None] for a missing county. *)
Definition value_text (value : option float) : string :=
  match value with
  | Some x => if Py.notna x then Fmt.format_2f x else "N/A"
  | None => "N/A"
  end.

Definition growth_text (growth : option float) : string :=
  match growth with
  | Some x =>
      if Py.notna x
      then if PrimFloat.eqb x Py.np_inf then "无限增长" else Fmt.format_2f x +:+ "%"
      else "N/A"
  | None => "N/A"
  end.

(** The indicator name without its unit. *)
Definition row_label (indicator_name : string) : string :=
  if Py.contains "（" indicator_name
  then Py.split_head "（" indicator_name
  else indicator_name.

Definition current_row (counties : list string) (indicator_name : string)
    (d : indicator_data) : list string :=
  row_label indicator_name
    :: ((fun county => value_text (current_values d !! county)) <$> counties).

Definition previous_row (counties : list string) (d : indicator_data) : list string :=
  "同期" :: ((fun county => value_text (previous_values d !! county)) <$> counties).

Definition growth_row (counties : list string) (d : indicator_data) : list string :=
  "同比增幅%" :: ((fun county => growth_text (growth_rates d !! county)) <$> counties).

Definition output_rows (result_data : list (string * indicator_data))
    (counties : list string) : list (list string) :=
  fold_left
    (fun rows '(indicator_name, d) =>
       ((rows ++ [current_row counties indicator_name d])
          ++ [previous_row counties d]) ++ [growth_row counties d])
    result_data [].

Definition generate_output_table (result_data : list (string * indicator_data))
    (counties : list string) : option Frame :=
  make_frame ((fun row : list string => CStr <$> row) <$> output_rows result_data counties)
    ("指标名称" :: counties).

(** *** [run_processing], once the inputs of the form are validated *)

(** How a run ends: it returns early because a file could not be
    processed, an exception leaves it, or it writes the comparison. *)
Inductive run_result : Type :=
| Aborted
| Crashed
| Completed (result_data : list (string * indicator_data)) (df_output : Frame).

(** [sep.join(l)] *)
Fixpoint join (sep : string) (l : list string) : string :=
  match l with
  | [] => ""
  | [x] => x
  | x :: l' => x +:+ sep +:+ join sep l'
  end.

(** [update_progress]: the progress bar is not modelled, the log line is. *)
Definition update_progress (message : string) : list event := [Log "INFO" message].

Definition CITY : string := "忻州".

Definition run_processing (last_sheet this_sheet : io RawTable)
    (save_last save_this save_comparison : io unit)
    (last_year_path current_year_path output_dir_path : string) (d : dialog)
    : run_result * list event :=
  let ev := update_progress ("正在处理去年的文件: " +:+ basename last_year_path +:+ "...") in
  let last_year_output_file := path_join output_dir_path "忻州_指标数据_去年.xlsx" in
  let '((df_last_year, _), ev_last) :=
    process_excel_file last_sheet save_last last_year_path last_year_output_file
      CITY "去年" true true in
  let ev := ev ++ ev_last in
  match df_last_year with
  | None => (Aborted, ev)
  | Some df_last_year =>
      let ev := ev ++ update_progress
                  ("正在处理今年的文件: " +:+ basename current_year_path +:+ "...") in
      let current_year_output_file := path_join output_dir_path "忻州_指标数据_今年.xlsx" in
      let '((df_this_year, _), ev_this) :=
        process_excel_file this_sheet save_this current_year_path current_year_output_file
          CITY "今年" true true in
      let ev := ev ++ ev_this in
      match df_this_year with
      | None => (Aborted, ev)
      | Some df_this_year =>
          let ev := ev ++ update_progress "正在提取指标和县级市名称..." in
          match extract_indicators_and_counties df_last_year df_this_year with
          | None => (Crashed, ev)
          | Some (indicators, counties) =>
              let ev := ev ++ update_progress "请选择负指标..." in
              let negative_indicators := select_negative_indicators indicators d in
              let ev := ev ++ [Log "INFO"
                                 ("用户已选择负指标：" +:+
                                  match negative_indicators with
                                  | [] => "无"
                                  | _ :: _ => join ", " negative_indicators
                                  end)] in
              let ev := ev ++ update_progress "正在处理负指标..." in
              match invert_negative_indicators negative_indicators
                      df_this_year df_last_year with
              | None => (Crashed, ev)
              | Some (df_this_year, df_last_year) =>
                  let ev := ev ++ [Log "INFO" "负指标处理完成。"] in
                  let ev := ev ++ update_progress "正在计算同比增幅..." in
                  match calculate_growth_rates df_last_year df_this_year
                          indicators counties with
                  | None => (Crashed, ev)
                  | Some result_data =>
                      let ev := ev ++ update_progress "正在生成对比表格..." in
                      let comparison_output_file :=
                        path_join output_dir_path "县级局分层分类基础数据.xlsx" in
                      match generate_output_table result_data counties, save_comparison with
                      | Some df_output, Done _ =>
                          (Completed result_data df_output,
                           ev ++ [SaveExcel comparison_output_file df_output]
                              ++ update_progress "正在为表格添加样式..."
                              ++ update_progress "处理完成！")
                      | _, _ => (Crashed, ev)
                      end
                  end
              end
          end
      end
  end.

(** The city that applies after the first [n] rows: the last city name
    that is not empty, [None] before the first one. *)
Definition forward_fill (df : RawTable) (n : nat) : option string :=
  fold_left (next_city df) (seq 0 n) None.

(** The rows [process_excel_file] collects: under the wanted city and
    with a county. *)
Definition collected (df : RawTable) (city_filter : string) (row_idx : nat) : bool :=
  bool_decide (forward_fill df (S row_idx) = Some city_filter)
  && nonempty (county_name_of df row_idx).

(** *** Growth rates up to the sign of zero *)

(** Two growth rates that are the same but for the sign of a zero, and
    two cells of the comparison table that read the same but for it. *)
Definition same_rate (g g' : float) : Prop :=
  g' = g \/ (Py.is_zero g = true /\ Py.is_zero g' = true).

Definition same_rates (d d' : indicator_data) : Prop :=
  forall county,
    match growth_rates d !! county, growth_rates d' !! county with
    | Some g, Some g' => same_rate g g'
    | None, None => True
    | _, _ => False
    end.

Definition zero_text (text : string) : Prop := text = "0.00%" \/ text = "-0.00%".

Definition same_text (text text' : string) : Prop :=
  text' = text \/ (zero_text text /\ zero_text text').

(** The growth data of two computations, indicator by indicator. *)
Definition same_growth (result_data result_data' : list (string * indicator_data)) : Prop :=
  Forall2 (fun item item' => item.1 = item'.1 /\ same_rates item.2 item'.2)
    result_data result_data'.


(** *** [run_processing]: the checks on the form *)

(** Python's [int] of a text ([None]: it raises [ValueError]) and
    [os.path.isdir]. *)
Variable int_of_text : string -> option Z.
Variable isdir : string -> bool.

(** The checks on the four entries of the form, in the order of the
    code: the number of rows to skip when every check passes, and what
    the operator gets to see. *)
Definition check_form (last_year_path current_year_path output_dir_path skip_rows : string)
    : option Z * list event :=
  match int_of_text skip_rows with
  | None => (None, [ShowError "输入错误" "跳过行数必须是一个有效的数字。"])
  | Some rows_to_skip_val =>
      if (rows_to_skip_val <? 0)%Z
      then (None, [ShowError "输入错误" "跳过行数不能为负。"])
      else if negb (nonempty output_dir_path)
      then (None, [ShowError "输入错误" "请选择输出目录。";
                   SetStatus "错误: 请选择输出目录。"])
      else if negb (isdir output_dir_path)
      then (None, [ShowError "路径错误" "选择的输出目录无效或不存在。";
                   SetStatus "错误: 输出目录无效。"])
      else if negb (nonempty last_year_path) && negb (nonempty current_year_path)
      then (None, [ShowError "输入错误" "请至少选择一个输入文件（去年或今年的数据）。";
                   SetStatus "错误: 请至少选择一个输入文件。"])
      else if negb (nonempty last_year_path) || negb (nonempty current_year_path)
      then (None, [ShowError "输入错误" "需要同时选择去年和今年的数据文件才能计算增幅。";
                   SetStatus "错误: 请同时选择去年和今年的数据文件。"])
      else (Some rows_to_skip_val, [])
  end.

(** [run_processing] from the entries of the form.  [read_excel path n]
    is what [pd.read_excel(path, header=None, skiprows=n)] yields; a run
    that the checks reject has no result. *)
Definition run_from_form (read_excel : string -> Z -> io RawTable)
    (save_last save_this save_comparison : io unit)
    (last_year_path current_year_path output_dir_path skip_rows : string) (d : dialog)
    : option run_result * list event :=
  match check_form last_year_path current_year_path output_dir_path skip_rows with
  | (None, ev) => (None, ev)
  | (Some rows_to_skip_val, ev) =>
      let '(result, ev_run) :=
        run_processing (read_excel last_year_path rows_to_skip_val)
          (read_excel current_year_path rows_to_skip_val)
          save_last save_this save_comparison
          last_year_path current_year_path output_dir_path d in
      (Some result, ev ++ ev_run)
  end.

(** *** [format_excel_with_style] *)

(** The style objects of openpyxl, with the attributes the code sets. *)
Record Alignment : Type := { horizontal : option string; vertical : option string }.
Record Side : Type := { side_style : option string }.
Record Border : Type := {
  border_left : Side; border_right : Side; border_top : Side; border_bottom : Side
}.
Record PatternFill : Type := {
  start_color : string; end_color : string; fill_type : option string
}.
Record Font : Type := { bold : bool }.

Record CellStyle : Type := {
  alignment : Alignment; border : Border; fill : PatternFill; font : Font
}.

Definition yellow_fill : PatternFill :=
  {| start_color := "FFFF00"; end_color := "FFFF00"; fill_type := Some "solid" |}.
Definition bold_font : Font := {| bold := true |}.
Definition center_alignment : Alignment :=
  {| horizontal := Some "center"; vertical := Some "center" |}.
Definition thin_border : Border :=
  {| border_left := {| side_style := Some "thin" |};
     border_right := {| side_style := Some "thin" |};
     border_top := {| side_style := Some "thin" |};
     border_bottom := {| side_style := Some "thin" |} |}.

(** The style of a cell that the sheet does not hold yet. *)
Definition default_style : CellStyle :=
  {| alignment := {| horizontal := None; vertical := None |};
     border := {| border_left := {| side_style := None |};
                  border_right := {| side_style := None |};
                  border_top := {| side_style := None |};
                  border_bottom := {| side_style := None |} |};
     fill := {| start_color := "00000000"; end_color := "00000000"; fill_type := None |};
     font := {| bold := false |} |}.

(** A worksheet: the styles of its cells by row and column, both counted
    from 1, the widths of its columns by column number (the letter A is
    column 1), and the last row and column that hold a cell. *)
Record Worksheet : Type := {
  max_row : nat;
  max_column : nat;
  cells : gmap (nat * nat) CellStyle;
  column_widths : gmap nat nat
}.

(** [ws.cell(row=row, column=col)]: its style, and the sheet once the
    cell is there with a style. *)
Definition cell_style (ws : Worksheet) (row col : nat) : CellStyle :=
  default default_style (cells ws !! (row, col)).

Definition set_cell_style (ws : Worksheet) (row col : nat) (s : CellStyle) : Worksheet :=
  {| max_row := Nat.max (max_row ws) row;
     max_column := Nat.max (max_column ws) col;
     cells := <[(row, col) := s]> (cells ws);
     column_widths := column_widths ws |}.

Definition set_column_width (ws : Worksheet) (col width : nat) : Worksheet :=
  {| max_row := max_row ws;
     max_column := max_column ws;
     cells := cells ws;
     column_widths := <[col := width]> (column_widths ws) |}.

(** The body of the two nested loops, for a cell of row [row]. *)
Definition restyle (row : nat) (s : CellStyle) : CellStyle :=
  let s := {| alignment := center_alignment; border := border s;
              fill := fill s; font := font s |} in
  let s := {| alignment := alignment s; border := thin_border;
              fill := fill s; font := font s |} in
  let s := if Nat.eqb (row mod 3) 1 || Nat.eqb (row mod 3) 0
           then {| alignment := alignment s; border := border s;
                   fill := yellow_fill; font := font s |}
           else s in
  if Nat.eqb row 1
  then {| alignment := alignment s; border := border s; fill := fill s; font := bold_font |}
  else s.

Definition style_sheet (ws : Worksheet) : Worksheet :=
  let ws := set_column_width ws 1 15 in
  let ws :=
    fold_left
      (fun ws col => set_column_width (set_cell_style ws 1 col (cell_style ws 1 col)) col 10)
      (Py.range 2 (max_column ws + 1) 1) ws in
  fold_left
    (fun ws row =>
       fold_left
         (fun ws col => set_cell_style ws row col (restyle row (cell_style ws row col)))
         (Py.range 1 (max_column ws + 1) 1) ws)
    (Py.range 1 (max_row ws + 1) 1) ws.

(** [loaded] is what [load_workbook(output_file).active] yields and
    [save] what [wb.save(output_file)] does; an exception is caught and
    printed.  The result is the sheet the file holds afterwards, when the
    call has changed it. *)
Definition format_excel_with_style (loaded : io Worksheet) (save : io unit)
    : option Worksheet :=
  match loaded with
  | Raised _ => None
  | Done ws =>
      let ws := style_sheet ws in
      match save with
      | Raised _ => None
      | Done _ => Some ws
      end
  end.

(** [df.to_excel(output_file, index=False)] puts the labels in row 1 of
    the sheet and row [i] of the frame, counted from 0, in row [i + 2]. *)
Definition sheet_row (i : nat) : nat := i + 2.

(** * Properties *)

Set Default Proof Using "Type".

(** ** The models of the library functions at work *)

Example strip_text : Py.strip "  ab c  " = "ab c".
Proof. reflexivity. Qed.

Example strip_wide_space :
  Py.strip (Py.bytes [227; 128; 128; 32; 65; 32; 66; 9; 194; 160]) = "A B".
Proof. reflexivity. Qed.

Example range_stride : Py.range 4 9 2 = [4; 6; 8].
Proof. reflexivity. Qed.

Example split_unit : Py.split_head "（" "销量（件）" = "销量".
Proof. reflexivity. Qed.

Example format_thousands : Fmt.format_2f 100000%float = "100,000.00".
Proof. reflexivity. Qed.

Example format_ties_to_even :
  Fmt.format_2f 0.125%float = "0.12" /\ Fmt.format_2f 0.375%float = "0.38".
Proof. split; reflexivity. Qed.

Example format_negative_zero : Fmt.format_2f (-0)%float = "-0.00".
Proof. reflexivity. Qed.

Example format_infinities :
  Fmt.format_2f infinity = "inf" /\ Fmt.format_2f neg_infinity = "-inf".
Proof. split; reflexivity. Qed.

(** ** Facts about binary64 values *)

(** The last case of [Prim2SF], for a value that is not NaN, zero or
    infinite: the sign, the mantissa and the exponent. *)
Ltac destruct_finite x :=
  destruct (Z.frexp x) as [? ?];
  match goal with
  | |- context [shr_fexp ?a ?b ?c ?d ?l] =>
      let shr := fresh "shr" in
      destruct (shr_fexp a b c d l) as [shr ?]; destruct (shr_m shr)
  end.

Lemma isna_Prim2SF (x : float) : Py.isna x = true -> Prim2SF x = S754_nan.
Proof.
  unfold Py.isna, Prim2SF. intros ->. reflexivity.
Qed.

Lemma Prim2SF_isna (x : float) : Prim2SF x = S754_nan -> Py.isna x = true.
Proof.
  unfold Py.isna, Prim2SF.
  destruct (PrimFloat.is_nan x); [reflexivity|].
  destruct (PrimFloat.is_zero x); [discriminate|].
  destruct (PrimFloat.is_infinity x); [discriminate|].
  destruct_finite x; discriminate.
Qed.

Lemma notna_isna (x : float) : Py.notna x = negb (Py.isna x).
Proof. reflexivity. Qed.

(** NaN is not zero. *)
Lemma isna_not_zero (x : float) : Py.isna x = true -> Py.is_zero x = false.
Proof.
  intros H. unfold Py.is_zero. rewrite FloatAxioms.eqb_spec, (isna_Prim2SF x H).
  reflexivity.
Qed.

(** NaN in the minuend reaches the end of the growth formula. *)
Lemma isna_formula (last this : float) :
  Py.isna this = true -> Py.isna ((this - last) / last * 100)%float = true.
Proof.
  intros H. apply Prim2SF_isna.
  rewrite FloatAxioms.mul_spec, FloatAxioms.div_spec, FloatAxioms.sub_spec.
  rewrite (isna_Prim2SF this H). reflexivity.
Qed.


Lemma not_isna_Prim2SF (x : float) : Py.isna x = false -> Prim2SF x <> S754_nan.
Proof. intros H E. apply Prim2SF_isna in E. congruence. Qed.

Lemma is_infinity_Prim2SF (x : float) :
  PrimFloat.is_infinity x = true -> exists s, Prim2SF x = S754_infinity s.
Proof.
  unfold PrimFloat.is_infinity. rewrite FloatAxioms.eqb_spec, FloatAxioms.abs_spec.
  change (Prim2SF infinity) with (S754_infinity false).
  destruct (Prim2SF x) as [s|s| |s m e]; try done. by exists s.
Qed.

(** A value that is neither NaN, zero nor infinite has a mantissa. *)
Lemma Prim2SF_finite (x : float) :
  Py.isna x = false -> Py.is_zero x = false -> PrimFloat.is_infinity x = false ->
  exists s m e, Prim2SF x = S754_finite s m e.
Proof.
  intros Hn Hz Hi.
  destruct (Prim2SF x) as [s|s| |s m e] eqn:E.
  - unfold Py.is_zero in Hz. rewrite FloatAxioms.eqb_spec, E in Hz.
    change (Prim2SF 0) with (S754_zero false) in Hz. by destruct s.
  - unfold PrimFloat.is_infinity in Hi.
    rewrite FloatAxioms.eqb_spec, FloatAxioms.abs_spec, E in Hi.
    change (Prim2SF infinity) with (S754_infinity false) in Hi. done.
  - by apply Prim2SF_isna in E; congruence.
  - by exists s, m, e.
Qed.

(** Rounding a mantissa that is not negative never gives NaN. *)
Lemma shr_1_nonneg (mrs : shr_record) : (0 <= shr_m mrs -> 0 <= shr_m (shr_1 mrs))%Z.
Proof. destruct mrs as [[|[p|p|]|p] r s]; simpl; lia. Qed.

Lemma iter_shr_1_nonneg (p : positive) :
  forall mrs, (0 <= shr_m mrs -> 0 <= shr_m (SpecFloat.iter_pos shr_1 p mrs))%Z.
Proof.
  induction p as [p IH|p IH|]; intros mrs H; simpl.
  - apply IH, IH, shr_1_nonneg, H.
  - apply IH, IH, H.
  - apply shr_1_nonneg, H.
Qed.

Lemma shr_fexp_nonneg (m e : Z) (l : location) :
  (0 <= m -> 0 <= shr_m (shr_fexp prec emax m e l).1)%Z.
Proof.
  intros H. unfold shr_fexp, shr.
  assert (0 <= shr_m (shr_record_of_loc m l))%Z as H' by (by destruct l as [|[]]).
  destruct (_ - e)%Z; simpl; [done | by apply iter_shr_1_nonneg | done].
Qed.

Lemma round_nearest_even_nonneg (m : Z) (l : location) :
  (0 <= m -> 0 <= round_nearest_even m l)%Z.
Proof.
  intros H. destruct l as [|[]]; simpl; [done| |done|lia]. destruct (Z.even m); lia.
Qed.

Lemma binary_round_aux_not_nan (sx : bool) (mx ex : Z) (lx : location) :
  (0 <= mx)%Z -> binary_round_aux prec emax sx mx ex lx <> S754_nan.
Proof.
  intros H. unfold binary_round_aux.
  pose proof (shr_fexp_nonneg mx ex lx H) as H1.
  destruct (shr_fexp prec emax mx ex lx) as [mrs' e']. simpl in H1.
  pose proof (shr_fexp_nonneg _ e' loc_Exact
                (round_nearest_even_nonneg _ (loc_of_shr_record mrs') H1)) as H2.
  destruct (shr_fexp prec emax _ e' loc_Exact) as [mrs'' e'']. simpl in H2.
  destruct (shr_m mrs''); [done| |lia]. by destruct (_ <=? _)%Z.
Qed.

Lemma binary_normalize_not_nan (m e : Z) (szero : bool) :
  binary_normalize prec emax m e szero <> S754_nan.
Proof.
  unfold binary_normalize, binary_round.
  destruct m as [|p|p]; [done| |];
    destruct (shl_align _ _ _) as [mz ez]; by apply binary_round_aux_not_nan.
Qed.

(** Subtracting, dividing by and multiplying with a finite value that is
    not zero keeps a value that is not NaN so. *)
Lemma SF64sub_not_nan (x : spec_float) (s : bool) (m : positive) (e : Z) :
  x <> S754_nan -> SF64sub x (S754_finite s m e) <> S754_nan.
Proof.
  intros Hx. unfold SF64sub, SFsub.
  destruct x as [sx|sx| |sx mx ex]; try done. apply binary_normalize_not_nan.
Qed.

Lemma SF64div_not_nan (x : spec_float) (s : bool) (m : positive) (e : Z) :
  x <> S754_nan -> SF64div x (S754_finite s m e) <> S754_nan.
Proof.
  intros Hx. unfold SF64div, SFdiv.
  destruct x as [sx|sx| |sx mx ex]; try done.
  unfold SFdiv_core_binary.
  match goal with |- context [Z.div_eucl ?a ?b] =>
    pose proof (Z.div_pos a b) as Hq; unfold Z.div in Hq;
    destruct (Z.div_eucl a b) as [q r] eqn:Hd
  end.
  apply binary_round_aux_not_nan, Hq; [|done].
  match goal with |- (0 <= match ?s with _ => _ end)%Z => destruct s end; try done.
  by apply Z.shiftl_nonneg.
Qed.

Lemma SF64mul_not_nan (x : spec_float) (s : bool) (m : positive) (e : Z) :
  x <> S754_nan -> SF64mul x (S754_finite s m e) <> S754_nan.
Proof.
  intros Hx. unfold SF64mul, SFmul.
  destruct x as [sx|sx| |sx mx ex]; try done. by apply binary_round_aux_not_nan.
Qed.

(** On a previous value that is finite and not zero and a current value
    that is present, the growth formula gives a number. *)
Lemma formula_not_nan (last this : float) :
  Py.isna last = false -> Py.is_zero last = false -> PrimFloat.is_infinity last = false ->
  Py.isna this = false ->
  Py.isna ((this - last) / last * 100)%float = false.
Proof.
  intros Hn Hz Hi Hc.
  destruct (Prim2SF_finite last Hn Hz Hi) as (s & m & e & Hlast).
  destruct (Py.isna ((this - last) / last * 100)) eqn:E; [|done]. apply isna_Prim2SF in E.
  rewrite FloatAxioms.mul_spec, FloatAxioms.div_spec, FloatAxioms.sub_spec, Hlast in E.
  destruct (Prim2SF 100) as [| | |s' m' e'] eqn:E100; try (vm_compute in E100; discriminate).
  exfalso. revert E.
  by apply SF64mul_not_nan, SF64div_not_nan, SF64sub_not_nan, not_isna_Prim2SF.
Qed.

(** An infinite previous value gives NaN. *)
Lemma formula_infinite_previous (last this : float) :
  PrimFloat.is_infinity last = true ->
  Py.isna ((this - last) / last * 100)%float = true.
Proof.
  intros Hi. destruct (is_infinity_Prim2SF last Hi) as [s Hlast].
  apply Prim2SF_isna.
  rewrite FloatAxioms.mul_spec, FloatAxioms.div_spec, FloatAxioms.sub_spec, Hlast.
  by destruct (Prim2SF this) as [sx|[|]| |sx mx ex], s.
Qed.

(** ** Facts about lists, texts and dictionaries *)

Lemma range_elem (start stop i : nat) :
  i ∈ Py.range start stop 2 <-> start <= i < stop /\ (i - start) mod 2 = 0.
Proof.
  unfold Py.range. change (2 - 1) with 1.
  rewrite list_elem_of_fmap. setoid_rewrite elem_of_seq. split.
  - intros (k & -> & _ & Hk).
    assert (2 * k + 2 <= stop - start + 1) by
      (pose proof (Nat.Div0.mul_div_le (stop - start + 1) 2); lia).
    split; [lia|]. replace (start + k * 2 - start) with (k * 2) by lia.
    apply Nat.Div0.mod_mul.
  - intros ([H1 H2] & Hm). exists ((i - start) / 2).
    pose proof (Nat.div_mod_eq (i - start) 2) as Hd. rewrite Hm in Hd.
    split; [lia|]. split; [lia|]. rewrite Nat.add_0_l.
    apply Nat.Div0.div_lt_upper_bound.
    pose proof (Nat.div_mod_eq (stop - start + 1) 2).
    pose proof (Nat.mod_upper_bound (stop - start + 1) 2). lia.
Qed.

Lemma range_sorted (start stop : nat) : StronglySorted lt (Py.range start stop 2).
Proof.
  unfold Py.range. generalize ((stop - start + (2 - 1)) / 2). intros n.
  assert (forall b, StronglySorted lt ((fun k => start + k * 2) <$> seq b n)) as H; [|apply H].
  induction n as [|n IH]; intros b; simpl; constructor.
  - apply IH.
  - apply Forall_forall. intros x Hx.
    apply list_elem_of_fmap in Hx as (k & -> & Hk). apply elem_of_seq in Hk. lia.
Qed.

Lemma filter_sorted {A : Type} (R : relation A) (P : A -> Prop) `{!forall x, Decision (P x)}
    (l : list A) :
  StronglySorted R l -> StronglySorted R (filter P l).
Proof.
  induction l as [|x l IH]; [done|].
  rewrite StronglySorted_cons, filter_cons. intros [Hx Hl].
  destruct (decide (P x)); [|by apply IH].
  apply StronglySorted_cons. split; [|by apply IH].
  apply Forall_forall. intros y Hy. apply list_elem_of_filter in Hy as [_ Hy].
  rewrite Forall_forall in Hx. by apply Hx.
Qed.

Lemma fmap_same {A : Type} (f : A -> A) (l : list A) :
  (forall x, f x = x) -> f <$> l = l.
Proof. intros H. induction l as [|x l IH]; [done|]. by rewrite fmap_cons, H, IH. Qed.

Lemma zip_with_fmap_same {A B C : Type} (f : A -> B -> C) (g : A -> B) (l : list A) :
  zip_with f l (g <$> l) = (fun x => f x (g x)) <$> l.
Proof. by rewrite zip_with_fmap_r, zip_with_diag. Qed.

Lemma fmap_same_on {A : Type} (f : A -> A) (l : list A) :
  Forall (fun x => f x = x) l -> f <$> l = l.
Proof. induction 1 as [|x l Hx _ IH]; [done|]. by rewrite fmap_cons, Hx, IH. Qed.

Lemma max_list_same (n : nat) (l : list nat) :
  l <> [] -> Forall (fun k => k = n) l -> max_list l = n.
Proof.
  intros Hne Hall. destruct l as [|k l]; [done|]. clear Hne.
  apply Forall_cons in Hall as [-> Hall]. simpl.
  induction Hall as [|k l -> _ IH]; simpl; lia.
Qed.

(** Rows of the width of the labels make a frame as they are. *)
Lemma make_frame_full (data : list (list cell)) (cols : list string) (n : nat) :
  Forall (fun row => length row = n) data -> n = length cols ->
  make_frame data cols = Some {| columns := cols; body := data |}.
Proof.
  intros Hall ->. unfold make_frame. destruct data as [|row data]; [done|].
  rewrite (max_list_same (length cols)); [|done | by apply Forall_fmap].
  rewrite Nat.eqb_refl. do 2 f_equal. apply fmap_same_on.
  eapply Forall_impl; [exact Hall|]. intros r Hr. unfold pad.
  by rewrite Hr, Nat.sub_diag, app_nil_r.
Qed.

Lemma remove_char_absent (c : ascii) (s : string) :
  ~ In c (list_ascii_of_string (Py.remove_char c s)).
Proof.
  induction s as [|a s IH]; simpl; [by intros []|].
  destruct (Ascii.eqb a c) eqn:E; [exact IH|]. simpl. intros [->|H]; [|by apply IH].
  by rewrite Ascii.eqb_refl in E.
Qed.


Lemma foldM_total {A B : Type} (f : B -> A -> option B) (l : list A) :
  (forall b a, a ∈ l -> is_Some (f b a)) -> forall b, is_Some (foldM f b l).
Proof.
  induction l as [|a l IH]; intros H b; simpl; [by eexists|].
  destruct (H b a) as [b' ->]; [apply list_elem_of_here|]. simpl.
  apply IH. intros b'' a' Ha'. apply H. by apply list_elem_of_further.
Qed.

Lemma dict_get_set_eq {V : Type} (k : string) (v : V) (d : list (string * V)) :
  dict_get k (dict_set k v d) = Some v.
Proof.
  induction d as [|[k' v'] d IH]; simpl.
  - by rewrite decide_True.
  - destruct (decide (k = k')) as [->|Hne]; simpl.
    + by rewrite decide_True.
    + by rewrite decide_False.
Qed.

Lemma dict_get_set_ne {V : Type} (k k' : string) (v : V) (d : list (string * V)) :
  k <> k' -> dict_get k' (dict_set k v d) = dict_get k' d.
Proof.
  intros Hne. induction d as [|[k'' v''] d IH]; simpl.
  - by rewrite decide_False.
  - destruct (decide (k = k'')) as [->|Hne']; simpl.
    + by rewrite !decide_False.
    + destruct (decide (k' = k'')); [done | apply IH].
Qed.

Lemma dict_set_keys {V : Type} (k : string) (v : V) (d : list (string * V)) :
  (dict_set k v d).*1 = if decide (k ∈ d.*1) then d.*1 else d.*1 ++ [k].
Proof.
  induction d as [|[k' v'] d IH]; cbn [dict_set fmap list_fmap fst].
  - rewrite decide_False; [done | apply not_elem_of_nil].
  - destruct (decide (k = k')) as [->|Hne]; cbn [fmap list_fmap fst].
    + rewrite decide_True; [done | apply list_elem_of_here].
    + rewrite IH. destruct (decide (k ∈ d.*1)) as [Hin|Hout].
      * rewrite decide_True; [done | by apply list_elem_of_further].
      * rewrite decide_False; [done|]. rewrite elem_of_cons. by intros [?|?].
Qed.

Lemma dict_set_NoDup {V : Type} (k : string) (v : V) (d : list (string * V)) :
  NoDup d.*1 -> NoDup (dict_set k v d).*1.
Proof.
  intros H. rewrite dict_set_keys. destruct (decide _); [done|].
  apply NoDup_app. split; [done|]. split; [|apply NoDup_singleton].
  intros x Hx Hx'. apply list_elem_of_singleton in Hx'. by subst.
Qed.

Lemma dict_get_Some_elem {V : Type} (k : string) (v : V) (d : list (string * V)) :
  dict_get k d = Some v -> (k, v) ∈ d.
Proof.
  induction d as [|[k' v'] d IH]; simpl; [done|].
  destruct (decide (k = k')) as [->|Hne].
  - intros [= ->]. apply list_elem_of_here.
  - intros H. apply list_elem_of_further. by apply IH.
Qed.

(** ** The indicator extractor *)

Lemma header_loop (df : RawTable) (h : nat) (cols : list nat) :
  forall indicators value_columns,
    fold_left (header_step df h) cols (indicators, value_columns)
    = (indicators ++
         ((fun i => Py.remove_char Py.LF (str (iloc df h i)))
            <$> filter (fun i => cell_notna (iloc df h i) = true) cols),
       value_columns ++ filter (fun i => cell_notna (iloc df h i) = true) cols).
Proof.
  induction cols as [|i cols IH]; intros indicators value_columns; simpl.
  - by rewrite !app_nil_r.
  - rewrite filter_cons. destruct (cell_notna (iloc df h i)) eqn:E.
    + rewrite decide_True by done. rewrite IH, fmap_cons, <- !app_assoc. done.
    + rewrite decide_False by done. apply IH.
Qed.

(** The two lists the extractor returns: the value columns are the cells
    of the header row kept by the stride and the test for a value, and the
    names are read off them. *)
Lemma extract_indicators_spec (df : RawTable) (header_row_idx : nat) :
  header_row_idx < shape0 df ->
  (extract_indicators_from_template df header_row_idx).2
  = filter (fun i => cell_notna (iloc df header_row_idx i) = true)
      (Py.range 4 (shape1 df) 2) /\
  (extract_indicators_from_template df header_row_idx).1
  = (fun i => Py.remove_char Py.LF (str (iloc df header_row_idx i)))
      <$> (extract_indicators_from_template df header_row_idx).2.
Proof.
  intros Hh. unfold extract_indicators_from_template.
  rewrite decide_False by lia. by rewrite header_loop.
Qed.

Lemma extract_lengths (df : RawTable) (header_row_idx : nat) :
  length (extract_indicators_from_template df header_row_idx).1
  = length (extract_indicators_from_template df header_row_idx).2.
Proof.
  destruct (decide (shape0 df <= header_row_idx)) as [Hle|Hgt].
  - unfold extract_indicators_from_template. by rewrite decide_True.
  - destruct (extract_indicators_spec df header_row_idx) as [_ ->]; [lia|].
    by rewrite length_fmap.
Qed.

(** C4: for a header row inside the table, the extractor keeps exactly the
    columns 4, 6, 8, ... below the table width whose header cell is not
    empty, in increasing order; the names are the texts of these cells, in
    the same order and one per column, with the line feeds removed. *)
Theorem header_indicators (df : RawTable) (header_row_idx : nat) :
  header_row_idx < shape0 df ->
  let indicators := (extract_indicators_from_template df header_row_idx).1 in
  let value_columns := (extract_indicators_from_template df header_row_idx).2 in
  (forall i, i ∈ value_columns <->
     4 <= i < shape1 df /\ (i - 4) mod 2 = 0 /\ cell_notna (iloc df header_row_idx i) = true) /\
  StronglySorted lt value_columns /\
  indicators = (fun i => Py.remove_char Py.LF (str (iloc df header_row_idx i))) <$> value_columns /\
  length indicators = length value_columns /\
  (forall name, name ∈ indicators -> ~ In Py.LF (list_ascii_of_string name)).
Proof.
  intros Hh. cbv zeta.
  destruct (extract_indicators_spec df header_row_idx Hh) as [Hcols Hnames].
  split; [|split; [|split; [done|split]]].
  - intros i. rewrite Hcols, list_elem_of_filter, range_elem.
    split; [intros (? & ? & ?) | intros (? & ? & ?)]; auto.
  - rewrite Hcols. apply filter_sorted, range_sorted.
  - apply extract_lengths.
  - intros name Hn. rewrite Hnames in Hn. apply list_elem_of_fmap in Hn as (i & -> & _).
    apply remove_char_absent.
Qed.

(** ** The row scan *)

Lemma scan_rows_S (df : RawTable) (city_filter : string) (value_columns : list nat) (n : nat) :
  scan_rows df city_filter value_columns (S n)
  = scan_row df city_filter value_columns (scan_rows df city_filter value_columns n) n.
Proof. unfold scan_rows. by rewrite seq_S, fold_left_app. Qed.

Lemma scan_row_city (df : RawTable) (city_filter : string) (value_columns : list nat)
    (st : scan_state) (i : nat) :
  (scan_row df city_filter value_columns st i).1 = next_city df st.1 i.
Proof.
  destruct st as [current_city city_data]. unfold scan_row. simpl.
  destruct (decide _); [destruct (nonempty _)|]; reflexivity.
Qed.

Lemma scan_row_data (df : RawTable) (city_filter : string) (value_columns : list nat)
    (st : scan_state) (i : nat) :
  (scan_row df city_filter value_columns st i).2
  = st.2 ++
    (if bool_decide (next_city df st.1 i = Some city_filter)
        && nonempty (county_name_of df i)
     then [row_data df city_filter (county_name_of df i) value_columns i]
     else []).
Proof.
  destruct st as [current_city city_data]. unfold scan_row. simpl.
  destruct (decide _) as [E|E].
  - rewrite bool_decide_eq_true_2 by done. simpl.
    destruct (nonempty _); simpl; [done | by rewrite app_nil_r].
  - rewrite bool_decide_eq_false_2 by done. simpl. by rewrite app_nil_r.
Qed.

(** C3: forward fill of the city column.  If the city cell (column 2) of
    row [j] is not blank and the city cells of the rows after [j] up to
    [i] are blank, the current city at row [i] is the city of row [j];
    row [i] is collected exactly when that city is the wanted one and the
    county cell is not blank. *)
Theorem city_forward_fill (df : RawTable) (city_filter : string) (value_columns : list nat)
    (j i : nat) :
  j <= i ->
  nonempty (city_name_of df j) = true ->
  (forall k, j < k <= i -> city_name_of df k = "") ->
  let before := scan_rows df city_filter value_columns i in
  let after := scan_rows df city_filter value_columns (S i) in
  after.1 = Some (city_name_of df j) /\
  after.2 = before.2 ++
            (if bool_decide (city_name_of df j = city_filter) && nonempty (county_name_of df i)
             then [row_data df city_filter (county_name_of df i) value_columns i]
             else []).
Proof.
  intros Hji Hj Hblank. simpl.
  assert (Hcity : forall i', j <= i' <= i ->
            (scan_rows df city_filter value_columns (S i')).1 = Some (city_name_of df j)).
  { intros i' [H1 H2]. induction H1 as [|i' H1 IH].
    - rewrite scan_rows_S, scan_row_city. unfold next_city. by rewrite Hj.
    - rewrite scan_rows_S, scan_row_city. unfold next_city.
      rewrite (Hblank (S i')) by lia. simpl. apply IH. lia. }
  split; [apply Hcity; lia|].
  rewrite scan_rows_S, scan_row_data. f_equal.
  rewrite <- (scan_row_city df city_filter value_columns), <- scan_rows_S, Hcity by lia.
  destruct (decide (city_name_of df j = city_filter)) as [E|E].
  - by rewrite !bool_decide_eq_true_2 by congruence.
  - by rewrite !bool_decide_eq_false_2 by congruence.
Qed.

(** Every collected row comes from a row of the wanted city with a county. *)
Lemma scan_rows_rows (df : RawTable) (city_filter : string) (value_columns : list nat) (n : nat) :
  forall row, row ∈ (scan_rows df city_filter value_columns n).2 ->
    exists row_idx, row_idx < n /\
      (scan_rows df city_filter value_columns (S row_idx)).1 = Some city_filter /\
      nonempty (county_name_of df row_idx) = true /\
      row = row_data df city_filter (county_name_of df row_idx) value_columns row_idx.
Proof.
  induction n as [|n IH]; intros row Hrow.
  - by apply elem_of_nil in Hrow.
  - rewrite scan_rows_S, scan_row_data in Hrow. apply elem_of_app in Hrow as [Hrow|Hrow].
    + destruct (IH row Hrow) as (i & ? & ?). exists i. split; [lia | done].
    + destruct (bool_decide _) eqn:Ec; simpl in Hrow; [|by apply elem_of_nil in Hrow].
      destruct (nonempty _) eqn:En; simpl in Hrow; [|by apply elem_of_nil in Hrow].
      apply list_elem_of_singleton in Hrow. exists n. split; [lia|].
      apply bool_decide_eq_true in Ec.
      by rewrite scan_rows_S, scan_row_city.
Qed.

(** ** [process_excel_file] *)

Lemma failed_value (input_path file_type_label : string) (status_var log_func : bool)
    (before : list event) (e : string) :
  (failed input_path file_type_label status_var log_func before e).1 = (None, []).
Proof. reflexivity. Qed.

Lemma row_data_length (df : RawTable) (city_filter county : string) (value_columns : list nat)
    (i : nat) :
  length (row_data df city_filter county value_columns i) = 2 + length value_columns.
Proof. unfold row_data. simpl. by rewrite length_fmap. Qed.

Lemma scan_rows_width (df : RawTable) (city_filter : string) (value_columns : list nat)
    (n : nat) :
  Forall (fun row => length row = 2 + length value_columns)
    (scan_rows df city_filter value_columns n).2.
Proof.
  apply Forall_forall. intros row Hrow.
  apply scan_rows_rows in Hrow as (i & _ & _ & _ & ->). apply row_data_length.
Qed.

(** What a successful call has done. *)
Lemma process_excel_file_success (sheet : io RawTable) (save : io unit)
    (input_path output_path city_filter file_type_label : string) (status_var log_func : bool)
    (df_output : Frame) (indicators : list string) (ev : list event) :
  process_excel_file sheet save input_path output_path city_filter file_type_label
    status_var log_func = ((Some df_output, indicators), ev) ->
  exists df_input,
    sheet = Done df_input /\
    indicators = (extract_indicators_from_template df_input 1).1 /\
    columns df_output = [OUTPUT_CITY_COL_NAME; OUTPUT_COUNTY_COL_NAME] ++ indicators /\
    body df_output
    = (scan_rows df_input city_filter (extract_indicators_from_template df_input 1).2
         (shape0 df_input)).2 /\
    SaveExcel output_path df_output ∈ ev.
Proof.
  unfold process_excel_file. intros H.
  destruct sheet as [df_input|e]; [|by inversion H].
  exists df_input.
  pose proof (extract_lengths df_input 1) as Hlen.
  destruct (extract_indicators_from_template df_input 1) as [inds vcs] eqn:Hex.
  destruct inds as [|ind inds]; [by inversion H|].
  pose proof (scan_rows_width df_input city_filter vcs (shape0 df_input)) as Hwidth.
  destruct (scan_rows df_input city_filter vcs (shape0 df_input)) as [cc city_data] eqn:Hscan.
  destruct city_data as [|row0 city_data]; [by inversion H|].
  cbn [fst snd] in Hlen, Hwidth.
  rewrite (make_frame_full _ _ _ Hwidth) in H by (cbn [length app] in *; lia).
  destruct save as [[]|e]; [|by inversion H].
  inversion H; subst. clear H.
  split; [done|]. split; [done|]. split; [done|].
  split; [cbn [fst snd]; by rewrite Hscan|].
  apply elem_of_app. right. apply list_elem_of_here.
Qed.

(** A source cell without a number: no such column, an empty cell, or a
    text that is not a number. *)
Lemma value_at_absent (df : RawTable) (row_idx value_col : nat) :
  shape1 df <= value_col \/
  cell_notna (iloc df row_idx value_col) = false \/
  (exists s, iloc df row_idx value_col = CStr s /\ parse_number s = None) ->
  Py.isna (value_at df row_idx value_col) = true /\
  Py.is_zero (value_at df row_idx value_col) = false.
Proof.
  intros H.
  assert (Py.isna (value_at df row_idx value_col) = true) as Hna.
  { unfold value_at. destruct (decide _) as [Hlt|]; [|reflexivity].
    destruct H as [H|[H|(s & -> & Hs)]]; [lia| |].
    - destruct (iloc df row_idx value_col) as [x|s]; [|discriminate].
      simpl in *. unfold Py.notna in H. apply negb_false_iff in H. exact H.
    - simpl. rewrite Hs. reflexivity. }
  split; [exact Hna | by apply isna_not_zero].
Qed.

(** C6: every row of the frame [process_excel_file] returns is the city,
    a county and one value per discovered indicator, the value of the
    indicator's column in one source row; a source cell that is missing,
    empty or a text that is no number gives NaN, which is not zero. *)
Theorem extracted_row_invariant (df_input : RawTable) (save : io unit)
    (input_path output_path city_filter file_type_label : string) (status_var log_func : bool)
    (df_output : Frame) (indicators : list string) (ev : list event) :
  process_excel_file (Done df_input) save input_path output_path city_filter file_type_label
    status_var log_func = ((Some df_output, indicators), ev) ->
  let value_columns := (extract_indicators_from_template df_input 1).2 in
  indicators = (extract_indicators_from_template df_input 1).1 /\
  columns df_output = OUTPUT_CITY_COL_NAME :: OUTPUT_COUNTY_COL_NAME :: indicators /\
  forall row, row ∈ body df_output ->
    exists row_idx county values,
      row_idx < shape0 df_input /\
      county = county_name_of df_input row_idx /\
      row = CStr city_filter :: CStr county :: (CNum <$> values) /\
      length values = length indicators /\
      forall k value_col, value_columns !! k = Some value_col ->
        values !! k = Some (value_at df_input row_idx value_col) /\
        (shape1 df_input <= value_col \/
         cell_notna (iloc df_input row_idx value_col) = false \/
         (exists s, iloc df_input row_idx value_col = CStr s /\ parse_number s = None) ->
         Py.isna (value_at df_input row_idx value_col) = true /\
         Py.is_zero (value_at df_input row_idx value_col) = false).
Proof.
  intros H. apply process_excel_file_success in H
    as (df & Hdf & Hinds & Hcols & Hbody & _).
  injection Hdf as <-. simpl. split; [done|]. split; [done|].
  intros row Hrow. rewrite Hbody in Hrow.
  apply scan_rows_rows in Hrow as (row_idx & Hlt & _ & _ & ->).
  exists row_idx, (county_name_of df_input row_idx),
    (value_at df_input row_idx <$> (extract_indicators_from_template df_input 1).2).
  split; [done|]. split; [done|]. split.
  { unfold row_data. simpl. by rewrite <- list_fmap_compose. }
  split.
  { by rewrite length_fmap, Hinds, extract_lengths. }
  intros k value_col Hk. split.
  - by rewrite list_lookup_fmap, Hk.
  - apply value_at_absent.
Qed.

Lemma set_status_notice (status_var : bool) (msg : string) :
  Forall is_notice (set_status status_var msg).
Proof. destruct status_var; repeat constructor. Qed.

Lemma log_notice (log_func : bool) (level msg : string) :
  Forall is_notice (log log_func level msg).
Proof. destruct log_func; repeat constructor. Qed.

(** The two early exits. *)
Lemma process_excel_file_no_indicators (df_input : RawTable) (save : io unit)
    (input_path output_path city_filter file_type_label : string) (status_var log_func : bool) :
  (extract_indicators_from_template df_input 1).1 = [] ->
  exists before,
    process_excel_file (Done df_input) save input_path output_path city_filter
      file_type_label status_var log_func
    = ((None, []),
       before ++ [ShowError "指标错误" ("在文件 " +:+ input_path +:+ " 中未找到有效指标")]) /\
    Forall is_notice before.
Proof.
  intros H. unfold process_excel_file.
  destruct (extract_indicators_from_template df_input 1) as [inds vcs]. simpl in H. subst inds.
  eexists. split.
  - rewrite !app_assoc. reflexivity.
  - repeat apply Forall_app_2; auto using set_status_notice, log_notice.
Qed.

Lemma process_excel_file_no_city (df_input : RawTable) (save : io unit)
    (input_path output_path city_filter file_type_label : string) (status_var log_func : bool) :
  (extract_indicators_from_template df_input 1).1 <> [] ->
  (scan_rows df_input city_filter (extract_indicators_from_template df_input 1).2
     (shape0 df_input)).2 = [] ->
  exists before,
    process_excel_file (Done df_input) save input_path output_path city_filter
      file_type_label status_var log_func
    = ((None, []),
       before ++ [ShowError "数据错误"
                    ("在文件 " +:+ input_path +:+ " 中未找到" +:+ city_filter +:+ "市的数据")]) /\
    Forall is_notice before.
Proof.
  intros H1 H2. unfold process_excel_file.
  destruct (extract_indicators_from_template df_input 1) as [inds vcs]. simpl in H1, H2.
  destruct inds as [|ind inds]; [done|].
  destruct (scan_rows df_input city_filter vcs (shape0 df_input)) as [cc city_data].
  simpl in H2. subst city_data.
  eexists. split.
  - rewrite !app_assoc. reflexivity.
  - repeat apply Forall_app_2; auto using set_status_notice, log_notice.
Qed.

(** C2 (as the code has it): a sheet without indicators and a sheet with
    indicators but without rows of the city both make [process_excel_file]
    return [(None, [])]; what differs is the error dialog shown last,
    titled 指标错误 in the first case and 数据错误 in the second. *)
Theorem failures_told_apart_by_message_only (df1 df2 : RawTable) (save1 save2 : io unit)
    (input_path output_path city_filter file_type_label : string) (status_var log_func : bool) :
  (extract_indicators_from_template df1 1).1 = [] ->
  (extract_indicators_from_template df2 1).1 <> [] ->
  (scan_rows df2 city_filter (extract_indicators_from_template df2 1).2 (shape0 df2)).2 = [] ->
  let r1 := process_excel_file (Done df1) save1 input_path output_path city_filter
              file_type_label status_var log_func in
  let r2 := process_excel_file (Done df2) save2 input_path output_path city_filter
              file_type_label status_var log_func in
  r1.1 = (None, []) /\ r2.1 = (None, []) /\
  last r1.2 = Some (ShowError "指标错误" ("在文件 " +:+ input_path +:+ " 中未找到有效指标")) /\
  last r2.2 = Some (ShowError "数据错误"
                      ("在文件 " +:+ input_path +:+ " 中未找到" +:+ city_filter +:+ "市的数据")) /\
  last r1.2 <> last r2.2.
Proof.
  intros H1 H2 H3. cbv zeta.
  destruct (process_excel_file_no_indicators df1 save1 input_path output_path city_filter
              file_type_label status_var log_func H1) as (b1 & -> & _).
  destruct (process_excel_file_no_city df2 save2 input_path output_path city_filter
              file_type_label status_var log_func H2 H3) as (b2 & -> & _).
  simpl. rewrite !last_snoc. repeat split; try done.
Qed.

(** C8: a header row index at or past the row count gives two empty lists;
    with an empty indicator list [process_excel_file] returns [(None, [])],
    shows the error dialog 指标错误 and saves nothing, and [run_processing]
    returns early, whichever of the two files is the one concerned. *)
Theorem missing_header_row_is_fatal :
  (forall (df : RawTable) (header_row_idx : nat),
     shape0 df <= header_row_idx ->
     extract_indicators_from_template df header_row_idx = ([], [])) /\
  (forall (df : RawTable) (save : io unit)
     (input_path output_path city_filter file_type_label : string) (status_var log_func : bool),
     (extract_indicators_from_template df 1).1 = [] ->
     let r := process_excel_file (Done df) save input_path output_path city_filter
                file_type_label status_var log_func in
     r.1 = (None, []) /\
     ShowError "指标错误" ("在文件 " +:+ input_path +:+ " 中未找到有效指标") ∈ r.2 /\
     (forall path df_output, SaveExcel path df_output ∉ r.2)) /\
  (forall (df : RawTable) (other : io RawTable) (save_last save_this save_comparison : io unit)
     (last_year_path current_year_path output_dir_path : string) (d : dialog),
     (extract_indicators_from_template df 1).1 = [] ->
     (run_processing (Done df) other save_last save_this save_comparison
        last_year_path current_year_path output_dir_path d).1 = Aborted /\
     (run_processing other (Done df) save_last save_this save_comparison
        last_year_path current_year_path output_dir_path d).1 = Aborted).
Proof.
  split; [|split].
  - intros df h Hh. unfold extract_indicators_from_template.
    by rewrite decide_True.
  - intros df save input_path output_path city_filter file_type_label status_var log_func H.
    destruct (process_excel_file_no_indicators df save input_path output_path city_filter
                file_type_label status_var log_func H) as (before & -> & Hb).
    cbn [fst snd]. split; [done|]. split.
    + apply elem_of_app. right. apply list_elem_of_here.
    + intros path df_output Hin. apply elem_of_app in Hin as [Hin|Hin].
      * rewrite Forall_forall in Hb. apply (Hb _ Hin).
      * apply list_elem_of_singleton in Hin. discriminate.
  - intros df other save_last save_this save_comparison last_year_path current_year_path
      output_dir_path d H.
    split; unfold run_processing.
    + destruct (process_excel_file_no_indicators df save_last last_year_path
                  (path_join output_dir_path "忻州_指标数据_去年.xlsx") CITY "去年" true true H)
        as (before & -> & _).
      reflexivity.
    + destruct (process_excel_file other save_last _ _ _ _ _ _) as [[[df_last|] inds] ev];
        [|reflexivity].
      destruct (process_excel_file_no_indicators df save_this current_year_path
                  (path_join output_dir_path "忻州_指标数据_今年.xlsx") CITY "今年" true true H)
        as (before & -> & _).
      reflexivity.
Qed.

(** ** The selection of the negative indicators *)

Lemma indicator_vars_snoc (indicators : list string) (a : string) (ticks : list bool) :
  indicator_vars (indicators ++ [a]) ticks
  = dict_set a (default false (ticks !! length indicators)) (indicator_vars indicators ticks).
Proof.
  unfold indicator_vars. rewrite imap_app, fold_left_app. simpl.
  by rewrite Nat.add_0_r.
Qed.

Lemma indicator_vars_NoDup (indicators : list string) (ticks : list bool) :
  NoDup (indicator_vars indicators ticks).*1.
Proof.
  induction indicators as [|a indicators IH] using rev_ind.
  - apply NoDup_nil_2.
  - rewrite indicator_vars_snoc. by apply dict_set_NoDup.
Qed.


Lemma on_confirm_loop (vars : list (string * bool)) :
  forall acc,
    fold_left
      (fun negative_indicators '(indicator, var) =>
         if var : bool then negative_indicators ++ [indicator] else negative_indicators)
      vars acc
    = acc ++ (filter (fun p => p.2 = true) vars).*1.
Proof.
  induction vars as [|[k v] vars IH]; intros acc; cbn [fold_left].
  - by rewrite app_nil_r.
  - rewrite IH, filter_cons. destruct v; case_decide; try done.
    by rewrite fmap_cons, <- app_assoc.
Qed.

Lemma on_confirm_spec (vars : list (string * bool)) :
  on_confirm vars = (filter (fun p => p.2 = true) vars).*1.
Proof. unfold on_confirm. by rewrite on_confirm_loop. Qed.

Lemma filter_keys_NoDup {V : Type} (P : string * V -> Prop) `{!forall p, Decision (P p)}
    (d : list (string * V)) :
  NoDup d.*1 -> NoDup (filter P d).*1.
Proof.
  induction d as [|[k v] d IH]; [done|].
  rewrite fmap_cons, NoDup_cons, filter_cons. intros [Hk Hd].
  destruct (decide (P (k, v))); [|by apply IH].
  rewrite fmap_cons. apply NoDup_cons. split; [|by apply IH].
  intros Hin. apply Hk. apply list_elem_of_fmap in Hin as ([k' v'] & -> & Hin).
  apply list_elem_of_filter in Hin as [_ Hin]. apply list_elem_of_fmap. by exists (k', v').
Qed.

Lemma select_NoDup (indicators : list string) (d : dialog) :
  NoDup (select_negative_indicators indicators d).
Proof.
  destruct d as [ticks|]; simpl; [|apply NoDup_nil_2].
  rewrite on_confirm_spec. apply filter_keys_NoDup, indicator_vars_NoDup.
Qed.


(** ** The sign inversion *)

Lemma label_positions_elem (df : Frame) (label : string) (k : nat) :
  k ∈ label_positions df label <-> columns df !! k = Some label.
Proof.
  unfold label_positions. rewrite list_elem_of_In, List.filter_In, List.in_seq.
  rewrite bool_decide_eq_true. split; [by intros [_ ?]|].
  intros H. split; [|done]. apply lookup_lt_Some in H. lia.
Qed.

Lemma column_index_Some (df : Frame) (label : string) (j : nat) :
  column_index df label = Some j ->
  forall k, columns df !! k = Some label <-> k = j.
Proof.
  unfold column_index. intros H k. rewrite <- label_positions_elem.
  destruct (label_positions df label) as [|j' [|]]; try discriminate.
  injection H as ->. apply list_elem_of_singleton.
Qed.

Lemma column_index_columns (df df' : Frame) (label : string) :
  columns df' = columns df -> column_index df' label = column_index df label.
Proof. unfold column_index, label_positions. by intros ->. Qed.

Lemma negate_selected_nil (df : Frame) : negate_selected [] df = df.
Proof.
  destruct df as [cols rows]. unfold negate_selected. simpl. f_equal.
  apply fmap_same. intros row.
  apply list_eq. intros k. rewrite list_lookup_imap.
  destruct (row !! k) as [c|]; simpl; [|done].
  by destruct (cols !! k).
Qed.

Lemma negate_selected_absent (df : Frame) (indicator : string) :
  indicator ∉ columns df -> negate_selected [indicator] df = df.
Proof.
  intros Hout. destruct df as [cols rows]. unfold negate_selected. simpl in *. f_equal.
  apply fmap_same. intros row.
  apply list_eq. intros k. rewrite list_lookup_imap.
  destruct (row !! k) as [c|]; simpl; [|done].
  destruct (cols !! k) as [label|] eqn:E; [|done].
  rewrite bool_decide_eq_false_2; [done|]. rewrite list_elem_of_singleton. intros ->.
  apply Hout. by eapply list_elem_of_lookup_2.
Qed.

Lemma invert_column_spec (df df' : Frame) (indicator : string) :
  invert_column df indicator = Some df' -> df' = negate_selected [indicator] df.
Proof.
  unfold invert_column. destruct (bool_decide _) eqn:Hin.
  2:{ intros [= <-]. symmetry. apply negate_selected_absent. by apply bool_decide_eq_false in Hin. }
  unfold get_column, set_column.
  destruct (column_index df indicator) as [j|] eqn:Hj; [|discriminate].
  cbn [mbind option_bind].
  rewrite (column_index_columns df) by done. rewrite Hj.
  cbn [mbind option_bind columns body].
  intros [= <-]. unfold negate_selected. f_equal.
  rewrite <- !list_fmap_compose, !zip_with_fmap_same, <- list_fmap_compose.
  apply list_fmap_ext. intros _ row _. simpl.
  apply list_eq. intros k. rewrite list_lookup_imap.
  destruct (decide (k = j)) as [->|Hne].
  - destruct (row !! j) as [c|] eqn:Hc.
    + assert (j < length row) by by eapply lookup_lt_Some.
      rewrite list_lookup_insert_eq by by rewrite length_insert.
      unfold cell_at. rewrite list_lookup_insert_eq by done. simpl. rewrite Hc. simpl.
      rewrite (proj2 (column_index_Some df indicator j Hj j) eq_refl).
      rewrite bool_decide_eq_true_2; [done | apply list_elem_of_here].
    + assert (length row <= j) by by apply lookup_ge_None.
      rewrite !list_insert_ge by (rewrite ?list_insert_ge; done). by rewrite Hc.
  - rewrite !list_lookup_insert_ne by done.
    destruct (row !! k) as [c|]; simpl; [|done].
    destruct (columns df !! k) as [label|] eqn:E; [|done].
    rewrite bool_decide_eq_false_2; [done|]. rewrite list_elem_of_singleton. intros ->.
    apply Hne. by apply (column_index_Some df indicator j Hj).
Qed.

Lemma negate_selected_cons (df : Frame) (indicator : string) (selected : list string) :
  indicator ∉ selected ->
  negate_selected selected (negate_selected [indicator] df)
  = negate_selected (indicator :: selected) df.
Proof.
  intros Hout. destruct df as [cols rows]. unfold negate_selected. simpl. f_equal.
  rewrite <- list_fmap_compose. apply list_fmap_ext. intros _ row _. simpl.
  apply list_eq. intros k. rewrite !list_lookup_imap.
  destruct (row !! k) as [c|]; simpl; [|done].
  destruct (cols !! k) as [label|]; [|done]. f_equal.
  destruct (decide (label = indicator)) as [->|Hne].
  - rewrite (bool_decide_eq_true_2 (indicator ∈ [indicator])) by apply list_elem_of_here.
    rewrite (bool_decide_eq_false_2 (indicator ∈ selected)) by done.
    rewrite bool_decide_eq_true_2; [done | apply list_elem_of_here].
  - rewrite (bool_decide_eq_false_2 (label ∈ [indicator]))
      by (rewrite list_elem_of_singleton; done).
    destruct (decide (label ∈ selected)) as [Hin|Hnin].
    + rewrite !bool_decide_eq_true_2; [done | by apply list_elem_of_further | done].
    + rewrite !bool_decide_eq_false_2; [done | | done]. rewrite elem_of_cons. by intros [?|?].
Qed.

Lemma invert_loop_spec (selected : list string) :
  NoDup selected ->
  forall df_this_year df_last_year df_this_year' df_last_year',
    invert_negative_indicators selected df_this_year df_last_year
    = Some (df_this_year', df_last_year') ->
    df_this_year' = negate_selected selected df_this_year /\
    df_last_year' = negate_selected selected df_last_year.
Proof.
  unfold invert_negative_indicators.
  induction 1 as [|a selected Ha Hnd IH]; intros T L T' L'; simpl.
  - intros [= <- <-]. by rewrite !negate_selected_nil.
  - destruct (invert_column T a) as [T1|] eqn:HT; [|discriminate]. simpl.
    destruct (invert_column L a) as [L1|] eqn:HL; [|discriminate]. simpl.
    intros H. apply IH in H as [-> ->].
    apply invert_column_spec in HT as ->. apply invert_column_spec in HL as ->.
    by rewrite !negate_selected_cons.
Qed.

(** The steps a completed run has gone through. *)
Lemma run_processing_completed (last_sheet this_sheet : io RawTable)
    (save_last save_this save_comparison : io unit)
    (last_year_path current_year_path output_dir_path : string) (d : dialog)
    (result_data : list (string * indicator_data)) (df_output : Frame) (ev : list event) :
  run_processing last_sheet this_sheet save_last save_this save_comparison
    last_year_path current_year_path output_dir_path d
  = (Completed result_data df_output, ev) ->
  exists df_last_year df_this_year inds_last inds_this ev_last ev_this
         indicators counties df_this_year' df_last_year',
    process_excel_file last_sheet save_last last_year_path
      (path_join output_dir_path "忻州_指标数据_去年.xlsx") CITY "去年" true true
    = ((Some df_last_year, inds_last), ev_last) /\
    process_excel_file this_sheet save_this current_year_path
      (path_join output_dir_path "忻州_指标数据_今年.xlsx") CITY "今年" true true
    = ((Some df_this_year, inds_this), ev_this) /\
    extract_indicators_and_counties df_last_year df_this_year = Some (indicators, counties) /\
    invert_negative_indicators (select_negative_indicators indicators d)
      df_this_year df_last_year = Some (df_this_year', df_last_year') /\
    calculate_growth_rates df_last_year' df_this_year' indicators counties = Some result_data /\
    generate_output_table result_data counties = Some df_output.
Proof.
  unfold run_processing. intros H.
  destruct (process_excel_file last_sheet _ _ _ _ _ _ _) as [[[df_last|] i1] e1] eqn:H1;
    [|discriminate].
  destruct (process_excel_file this_sheet _ _ _ _ _ _ _) as [[[df_this|] i2] e2] eqn:H2;
    [|discriminate].
  destruct (extract_indicators_and_counties df_last df_this) as [[inds counties]|] eqn:H3;
    [|discriminate].
  destruct (invert_negative_indicators _ df_this df_last) as [[df_this' df_last']|] eqn:H4;
    [|discriminate].
  destruct (calculate_growth_rates df_last' df_this' inds counties) as [r|] eqn:H5;
    [|discriminate].
  destruct (generate_output_table r counties) as [out|] eqn:H6; [|discriminate].
  destruct save_comparison as [[]|e]; [|discriminate].
  injection H as <- <- _.
  by exists df_last, df_this, i1, i2, e1, e2, inds, counties, df_this', df_last'.
Qed.


(** ** The growth rates *)

Lemma growth_rate_cases (previous current : float) :
  (absent_or_zero previous = true -> absent_or_zero current = true ->
   Py.isna (growth_rate previous current) = true) /\
  (absent_or_zero previous = true -> absent_or_zero current = false ->
   growth_rate previous current = Py.np_inf) /\
  (absent_or_zero previous = false ->
   growth_rate previous current = ((current - previous) / previous * 100)%float) /\
  (absent_or_zero previous = false -> Py.isna current = true ->
   Py.isna (growth_rate previous current) = true).
Proof.
  unfold absent_or_zero, growth_rate. rewrite !notna_isna.
  destruct (Py.isna previous) eqn:Hp, (Py.is_zero previous) eqn:Hpz,
    (Py.isna current) eqn:Hc, (Py.is_zero current) eqn:Hcz; simpl;
    repeat split; intros; try discriminate; try reflexivity;
    by apply isna_formula.
Qed.

(** When the growth rate is NaN. *)
Lemma growth_rate_undefined_iff (previous current : float) :
  Py.isna (growth_rate previous current) = true <->
  (absent_or_zero previous = true /\ absent_or_zero current = true) \/
  (absent_or_zero previous = false /\
   (Py.isna current = true \/ PrimFloat.is_infinity previous = true)).
Proof.
  destruct (growth_rate_cases previous current) as (H1 & H2 & H3 & H4).
  destruct (absent_or_zero previous) eqn:Hp.
  - destruct (absent_or_zero current) eqn:Hc.
    + split; [by left | intros _; by apply H1].
    + rewrite H2 by done. split; [done | by intros [[_ ?]|[? _]]].
  - rewrite H3 by done. unfold absent_or_zero in Hp. apply orb_false_iff in Hp as [Hn Hz].
    destruct (Py.isna current) eqn:Hc.
    + split; [right; auto | intros _; by apply isna_formula].
    + destruct (PrimFloat.is_infinity previous) eqn:Hi.
      * split; [right; auto | intros _; by apply formula_infinite_previous].
      * rewrite formula_not_nan by done. split; [done | by intros [[? _]|[_ [?|?]]]].
Qed.

Lemma county_step_records (L T : Frame) (indicator county : string) (d d' : indicator_data) :
  county_step L T indicator d county = Some d' ->
  recorded L T indicator d' county /\
  (forall c, c <> county -> recorded L T indicator d c -> recorded L T indicator d' c).
Proof.
  unfold county_step. intros H.
  destruct (rows_where L county) as [lrows|] eqn:HL; [|discriminate].
  destruct (rows_where T county) as [trows|] eqn:HT; [|discriminate].
  simpl in H.
  destruct lrows as [|lrow lrows].
  { injection H as <-. split; [|done]. intros ?? E1 E2 Hn _. congruence. }
  destruct trows as [|trow trows].
  { injection H as <-. split; [|done]. intros ?? E1 E2 _ Hn. congruence. }
  destruct (first_value L (lrow :: lrows) indicator) as [lv|] eqn:HlV; [|discriminate].
  destruct (first_value T (trow :: trows) indicator) as [tv|] eqn:HtV; [|discriminate].
  simpl in H. injection H as <-. split.
  - intros ?? E1 E2 _ _. exists lv, tv. simpl. rewrite !lookup_insert_eq.
    assert (last_year_row = lrow :: lrows) as -> by congruence.
    assert (this_year_row = trow :: trows) as -> by congruence. done.
  - intros c Hne Hc ?? E1 E2 N1 N2.
    destruct (Hc _ _ E1 E2 N1 N2) as (p & q & ? & ? & ? & ? & ?).
    exists p, q. simpl. by rewrite !lookup_insert_ne.
Qed.

Lemma county_loop_records (L T : Frame) (indicator : string) (counties : list string) :
  forall (d0 d : indicator_data) (seen : string -> Prop),
    foldM (county_step L T indicator) d0 counties = Some d ->
    (forall c, seen c -> recorded L T indicator d0 c) ->
    forall c, seen c \/ c ∈ counties -> recorded L T indicator d c.
Proof.
  induction counties as [|a counties IH]; simpl; intros d0 d seen H Hseen c Hc.
  - injection H as <-. destruct Hc as [Hc|Hc]; [by apply Hseen | by apply elem_of_nil in Hc].
  - destruct (county_step L T indicator d0 a) as [d1|] eqn:Hstep; [|discriminate].
    simpl in H. destruct (county_step_records _ _ _ _ _ _ Hstep) as [Ha Hkeep].
    apply (IH d1 d (fun c => seen c \/ c = a) H).
    + intros c' [Hs| ->]; [|done].
      destruct (decide (c' = a)) as [->|Hne]; [done|]. apply Hkeep; auto.
    + rewrite elem_of_cons in Hc. destruct Hc as [?|[?|?]]; auto.
Qed.

Lemma indicator_loop_get (L T : Frame) (counties indicators : list string) :
  forall (acc result : list (string * indicator_data)) (seen : string -> Prop),
    foldM (indicator_step L T counties) acc indicators = Some result ->
    (forall i, seen i -> exists d, dict_get i acc = Some d /\
       foldM (county_step L T i) (new_indicator_data i) counties = Some d) ->
    forall i, seen i \/ i ∈ indicators ->
      exists d, dict_get i result = Some d /\
        foldM (county_step L T i) (new_indicator_data i) counties = Some d.
Proof.
  induction indicators as [|a indicators IH]; simpl; intros acc result seen H Hseen i Hi.
  - injection H as <-. destruct Hi as [Hi|Hi]; [by apply Hseen | by apply elem_of_nil in Hi].
  - destruct (indicator_step L T counties acc a) as [acc1|] eqn:Hstep; [|discriminate].
    simpl in H. unfold indicator_step in Hstep.
    destruct (foldM (county_step L T a) (new_indicator_data a) counties) as [d|] eqn:Hd;
      [|discriminate].
    simpl in Hstep. injection Hstep as <-.
    apply (IH _ result (fun i => seen i \/ i = a) H).
    + intros i' [Hs| ->].
      * destruct (decide (i' = a)) as [->|Hne].
        -- exists d. by rewrite dict_get_set_eq.
        -- rewrite dict_get_set_ne by done. by apply Hseen.
      * exists d. by rewrite dict_get_set_eq.
    + rewrite elem_of_cons in Hi. destruct Hi as [?|[?|?]]; auto.
Qed.

Lemma county_step_total (L T : Frame) (indicator : string) (d : indicator_data) (county : string) :
  is_Some (column_index L OUTPUT_COUNTY_COL_NAME) ->
  is_Some (column_index T OUTPUT_COUNTY_COL_NAME) ->
  is_Some (column_index L indicator) -> is_Some (column_index T indicator) ->
  is_Some (county_step L T indicator d county).
Proof.
  intros [jl Hjl] [jt Hjt] [il Hil] [it Hit].
  unfold county_step, rows_where, first_value. rewrite Hjl, Hjt, Hil, Hit.
  cbn [mbind option_bind].
  destruct (List.filter _ (body L)) as [|lrow lrows]; [by eexists|].
  destruct (List.filter _ (body T)) as [|trow trows]; by eexists.
Qed.

Lemma calculate_growth_rates_total (L T : Frame) (indicators counties : list string) :
  is_Some (column_index L OUTPUT_COUNTY_COL_NAME) ->
  is_Some (column_index T OUTPUT_COUNTY_COL_NAME) ->
  (forall i, i ∈ indicators -> is_Some (column_index L i) /\ is_Some (column_index T i)) ->
  is_Some (calculate_growth_rates L T indicators counties).
Proof.
  intros HL HT Hi. unfold calculate_growth_rates. apply foldM_total.
  intros acc i Hin. unfold indicator_step.
  destruct (foldM_total (county_step L T i) counties) with (b := new_indicator_data i)
    as [d ->]; [|by eexists].
  intros d c _. destruct (Hi i Hin). by apply county_step_total.
Qed.

Lemma indicator_loop_keys (L T : Frame) (counties indicators : list string) :
  forall acc result,
    foldM (indicator_step L T counties) acc indicators = Some result ->
    forall key, key ∈ result.*1 -> key ∈ acc.*1 \/ key ∈ indicators.
Proof.
  induction indicators as [|a indicators IH]; intros acc result H key Hkey.
  - injection H as <-. by left.
  - cbn [foldM] in H.
    destruct (indicator_step L T counties acc a) as [acc1|] eqn:Hstep; [|discriminate].
    cbn [mbind option_bind] in H. unfold indicator_step in Hstep.
    destruct (foldM _ _ counties) as [d|]; [|discriminate].
    cbn [mbind option_bind] in Hstep. injection Hstep as <-.
    destruct (IH _ _ H key Hkey) as [Hacc|Hin].
    + rewrite dict_set_keys in Hacc. destruct (decide _); [by left|].
      apply elem_of_app in Hacc as [?|Ha]; [by left|].
      apply list_elem_of_singleton in Ha as ->. right. apply list_elem_of_here.
    + right. by apply list_elem_of_further.
Qed.

(** C1 (as the code has it).  [calculate_growth_rates] returns a result
    when the county label and every indicator name one column in both
    frames.  In a result, for every indicator and county of which both
    frames have a row, the recorded growth rate follows from the previous
    and the current value of the first such rows.  It is NaN (undefined)
    exactly when both values are absent or zero, or when the previous value
    is present and not zero and either the current value is absent or the
    previous value is infinite.  It is infinite when the previous value is
    absent or zero and the current one is present and not zero.  When the
    previous value is present and not zero it is
    (current - previous) / previous * 100.  So 100 and 150 give 50, 0 and
    50 give infinity, and two values that are each 0 or absent give NaN. *)
Theorem growth_rate_of_pair :
  (forall (df_last_year df_this_year : Frame) (indicators counties : list string),
     is_Some (column_index df_last_year OUTPUT_COUNTY_COL_NAME) ->
     is_Some (column_index df_this_year OUTPUT_COUNTY_COL_NAME) ->
     (forall i, i ∈ indicators ->
        is_Some (column_index df_last_year i) /\ is_Some (column_index df_this_year i)) ->
     is_Some (calculate_growth_rates df_last_year df_this_year indicators counties)) /\
  (forall (df_last_year df_this_year : Frame) (indicators counties : list string)
     (result_data : list (string * indicator_data)) (indicator county : string)
     (last_year_row this_year_row : list (list cell)),
     calculate_growth_rates df_last_year df_this_year indicators counties = Some result_data ->
     indicator ∈ indicators -> county ∈ counties ->
     rows_where df_last_year county = Some last_year_row -> last_year_row <> [] ->
     rows_where df_this_year county = Some this_year_row -> this_year_row <> [] ->
     exists d previous current growth,
       dict_get indicator result_data = Some d /\
       first_value df_last_year last_year_row indicator = Some previous /\
       first_value df_this_year this_year_row indicator = Some current /\
       growth_rates d !! county = Some growth /\
       (Py.isna growth = true <->
        (absent_or_zero previous = true /\ absent_or_zero current = true) \/
        (absent_or_zero previous = false /\
         (Py.isna current = true \/ PrimFloat.is_infinity previous = true))) /\
       (absent_or_zero previous = true -> absent_or_zero current = false ->
        growth = Py.np_inf) /\
       (absent_or_zero previous = false ->
        growth = ((current - previous) / previous * 100)%float)) /\
  growth_rate 100 150 = 50%float /\
  growth_rate 0 50 = Py.np_inf /\
  Py.isna (growth_rate 0 0) = true /\
  Py.isna (growth_rate Py.np_nan Py.np_nan) = true /\
  Py.isna (growth_rate 0 Py.np_nan) = true /\
  Py.isna (growth_rate Py.np_nan 0) = true.
Proof.
  split; [exact calculate_growth_rates_total|]. split; [|by repeat split].
  intros L T indicators counties result_data indicator county lrows trows
    Hcalc Hi Hc HL HLn HT HTn.
  destruct (indicator_loop_get L T counties indicators [] result_data (fun _ => False) Hcalc
              ltac:(done) indicator (or_intror Hi)) as (d & Hget & Hd).
  pose proof (county_loop_records L T indicator counties _ d (fun _ => False) Hd
                ltac:(done) county (or_intror Hc)) as Hrec.
  destruct (Hrec _ _ HL HT HLn HTn) as (previous & current & Hp & Hq & _ & _ & Hg).
  exists d, previous, current, (growth_rate previous current).
  split; [done|]. split; [done|]. split; [done|]. split; [done|].
  split; [apply growth_rate_undefined_iff|]. split; apply growth_rate_cases.
Qed.

(** C10: with a division that refuses a divisor that is absent or zero,
    the growth branch is never refused and computes what the plain one
    computes: the division is only reached with a previous value that is
    present and not zero, so it never divides by zero. *)
Theorem growth_division_is_guarded :
  (forall last_year_value this_year_value : float,
     growth_rate_checked last_year_value this_year_value
     = Some (growth_rate last_year_value this_year_value)) /\
  (forall x : float,
     checked_div x 0 = None /\ checked_div x (-0) = None /\ checked_div x Py.np_nan = None).
Proof.
  split.
  - intros p c.
    unfold growth_rate_checked, growth_rate, checked_div, absent_or_zero, Py.notna, Py.isna.
    destruct (PrimFloat.is_nan p), (Py.is_zero p); simpl; try reflexivity;
      by destruct (_ && _).
  - intros x. repeat split; reflexivity.
Qed.

(** ** The comparison table *)

Lemma output_rows_loop (counties : list string) (result_data : list (string * indicator_data)) :
  forall rows,
    fold_left
      (fun rows '(indicator_name, d) =>
         ((rows ++ [current_row counties indicator_name d])
            ++ [previous_row counties d]) ++ [growth_row counties d])
      result_data rows
    = rows ++ concat ((fun item : string * indicator_data =>
                         [current_row counties item.1 item.2;
                          previous_row counties item.2;
                          growth_row counties item.2]) <$> result_data).
Proof.
  induction result_data as [|[n d] result_data IH]; intros rows; cbn [fold_left].
  - by rewrite app_nil_r.
  - rewrite IH, fmap_cons. cbn [concat fst snd]. by rewrite <- !app_assoc.
Qed.

Lemma output_rows_spec (counties : list string) (result_data : list (string * indicator_data)) :
  output_rows result_data counties
  = concat ((fun item : string * indicator_data =>
               [current_row counties item.1 item.2;
                previous_row counties item.2;
                growth_row counties item.2]) <$> result_data).
Proof. unfold output_rows. by rewrite output_rows_loop. Qed.

Lemma output_rows_lookup (counties : list string) (result_data : list (string * indicator_data))
    (k : nat) (indicator_name : string) (d : indicator_data) :
  result_data !! k = Some (indicator_name, d) ->
  output_rows result_data counties !! (3 * k) = Some (current_row counties indicator_name d) /\
  output_rows result_data counties !! (3 * k + 1) = Some (previous_row counties d) /\
  output_rows result_data counties !! (3 * k + 2) = Some (growth_row counties d).
Proof.
  rewrite output_rows_spec. revert k.
  induction result_data as [|item result_data IH]; intros k Hk; [done|].
  rewrite fmap_cons. cbn [concat]. destruct k as [|k].
  - injection Hk as ->. done.
  - replace (3 * S k) with (3 + 3 * k) by lia.
    replace (3 + 3 * k + 1) with (3 + (3 * k + 1)) by lia.
    replace (3 + 3 * k + 2) with (3 + (3 * k + 2)) by lia.
    apply (IH k Hk).
Qed.

Lemma output_rows_length (counties : list string) (result_data : list (string * indicator_data)) :
  length (output_rows result_data counties) = 3 * length result_data.
Proof.
  rewrite output_rows_spec.
  induction result_data as [|item result_data IH]; [done|].
  rewrite fmap_cons. cbn [concat]. rewrite length_app, IH. simpl. lia.
Qed.

Lemma output_rows_width (counties : list string) (result_data : list (string * indicator_data)) :
  Forall (fun row => length row = 1 + length counties) (output_rows result_data counties).
Proof.
  rewrite output_rows_spec.
  induction result_data as [|item result_data IH]; [constructor|].
  rewrite fmap_cons. cbn [concat]. apply Forall_app. split; [|done].
  unfold current_row, previous_row, growth_row.
  repeat constructor; simpl; by rewrite length_fmap.
Qed.

Lemma generate_output_table_spec (counties : list string)
    (result_data : list (string * indicator_data)) :
  generate_output_table result_data counties
  = Some {| columns := "指标名称" :: counties;
            body := (fun row : list string => CStr <$> row)
                      <$> output_rows result_data counties |}.
Proof.
  unfold generate_output_table.
  apply make_frame_full with (n := 1 + length counties); [|done].
  apply Forall_fmap. eapply Forall_impl; [apply output_rows_width|].
  intros row Hrow. simpl. by rewrite length_fmap.
Qed.






(** ** Where the comparison takes its indicators and counties from *)

Lemma mapM_cell_text (cells : list cell) (texts : list string) :
  mapM cell_text cells = Some texts -> cells = CStr <$> texts.
Proof.
  rewrite mapM_Some. induction 1 as [|c s cells texts Hc _ IH]; [done|].
  rewrite fmap_cons, <- IH. f_equal. by destruct c; inversion Hc.
Qed.

Lemma extract_indicators_and_counties_spec (df_last_year df_this_year : Frame)
    (indicators counties : list string) :
  extract_indicators_and_counties df_last_year df_this_year = Some (indicators, counties) ->
  indicators
  = filter (fun col => col ∉ [OUTPUT_CITY_COL_NAME; OUTPUT_COUNTY_COL_NAME])
      (columns df_last_year) /\
  exists j,
    column_index df_last_year OUTPUT_COUNTY_COL_NAME = Some j /\
    (fun row => cell_at row j) <$> body df_last_year = CStr <$> counties.
Proof.
  unfold extract_indicators_and_counties, get_column. intros H.
  destruct (column_index df_last_year OUTPUT_COUNTY_COL_NAME) as [j|]; [|discriminate].
  cbn [mbind option_bind] in H.
  destruct (mapM cell_text _) as [texts|] eqn:Hm; [|discriminate].
  cbn [mbind option_bind] in H. injection H as <- <-.
  split; [done|]. exists j. split; [done|]. by apply mapM_cell_text.
Qed.

(** C9: [extract_indicators_and_counties] does not depend on the
    current-year frame; its indicators are column labels and its counties
    are county cells of the prior-year frame; and in a completed run every
    key of the growth data and every county column of the comparison
    table comes from the prior-year frame. *)
Theorem comparison_built_from_prior_year :
  (forall df_last_year df_this_year df_this_year' : Frame,
     extract_indicators_and_counties df_last_year df_this_year
     = extract_indicators_and_counties df_last_year df_this_year') /\
  (forall (df_last_year df_this_year : Frame) (indicators counties : list string),
     extract_indicators_and_counties df_last_year df_this_year = Some (indicators, counties) ->
     (forall i, i ∈ indicators -> i ∈ columns df_last_year) /\
     (forall c, c ∈ counties ->
        exists j row,
          column_index df_last_year OUTPUT_COUNTY_COL_NAME = Some j /\
          row ∈ body df_last_year /\ cell_at row j = CStr c)) /\
  (forall (last_sheet this_sheet : io RawTable) (save_last save_this save_comparison : io unit)
     (last_year_path current_year_path output_dir_path : string) (d : dialog)
     (result_data : list (string * indicator_data)) (df_output : Frame) (ev : list event),
     run_processing last_sheet this_sheet save_last save_this save_comparison
       last_year_path current_year_path output_dir_path d
     = (Completed result_data df_output, ev) ->
     exists df_last_year inds_last ev_last,
       process_excel_file last_sheet save_last last_year_path
         (path_join output_dir_path "忻州_指标数据_去年.xlsx") CITY "去年" true true
       = ((Some df_last_year, inds_last), ev_last) /\
       (forall key, key ∈ result_data.*1 -> key ∈ columns df_last_year) /\
       (forall label, label ∈ columns df_output ->
          label = "指标名称" \/
          exists j row,
            column_index df_last_year OUTPUT_COUNTY_COL_NAME = Some j /\
            row ∈ body df_last_year /\ cell_at row j = CStr label)).
Proof.
  assert (Hfrom : forall (L T : Frame) (indicators counties : list string),
            extract_indicators_and_counties L T = Some (indicators, counties) ->
            (forall i, i ∈ indicators -> i ∈ columns L) /\
            (forall c, c ∈ counties ->
               exists j row,
                 column_index L OUTPUT_COUNTY_COL_NAME = Some j /\
                 row ∈ body L /\ cell_at row j = CStr c)).
  { intros L T indicators counties H.
    apply extract_indicators_and_counties_spec in H as (-> & j & Hj & Hcol). split.
    - intros i Hi. by apply list_elem_of_filter in Hi as [_ Hi].
    - intros c Hc. exists j.
      assert (CStr c ∈ (fun row => cell_at row j) <$> body L) as Hin
        by (rewrite Hcol; apply list_elem_of_fmap; by exists c).
      apply list_elem_of_fmap in Hin as (row & Hrow & Hin). by exists row. }
  split; [done|]. split; [exact Hfrom|].
  intros ????????? result_data df_output ev H.
  apply run_processing_completed in H
    as (L & T & i1 & i2 & e1 & e2 & inds & counties & T' & L' & H1 & H2 & H3 & H4 & H5 & H6).
  exists L, i1, e1. split; [done|].
  destruct (Hfrom L T inds counties H3) as [Hinds Hcounties]. split.
  - intros key Hkey. apply Hinds.
    destruct (indicator_loop_keys _ _ _ _ _ _ H5 key Hkey) as [Hnil|Hin]; [|done].
    by apply elem_of_nil in Hnil.
  - intros label Hlabel. rewrite generate_output_table_spec in H6. injection H6 as <-.
    cbn [columns] in Hlabel. apply elem_of_cons in Hlabel as [->|Hc]; [by left|].
    right. by apply Hcounties.
Qed.

(** ** Inversion and growth *)

(** The sign of a rounded value is the sign handed to the rounding. *)
Lemma SFopp_involutive (x : spec_float) : SFopp (SFopp x) = x.
Proof. destruct x as [s|s| |s m e]; simpl; by rewrite ?negb_involutive. Qed.

Lemma binary_round_aux_opp (s : bool) (m e : Z) (l : location) :
  binary_round_aux prec emax (negb s) m e l = SFopp (binary_round_aux prec emax s m e l).
Proof.
  unfold binary_round_aux.
  destruct (shr_fexp prec emax m e l) as [mrs' e'].
  destruct (shr_fexp prec emax _ e' loc_Exact) as [mrs'' e''].
  destruct (shr_m mrs''); [done| |done]. by destruct (_ <=? _)%Z.
Qed.

Lemma binary_normalize_opp (m e : Z) :
  m <> 0%Z ->
  binary_normalize prec emax (- m) e false = SFopp (binary_normalize prec emax m e false).
Proof.
  intros Hm. unfold binary_normalize, binary_round.
  destruct m as [|p|p]; [done| |]; simpl;
    destruct (shl_align _ _ _) as [mz ez].
  - apply (binary_round_aux_opp false).
  - by rewrite (binary_round_aux_opp false), SFopp_involutive.
Qed.

(** Subtraction commutes with the change of sign, but for a difference
    that is exactly zero: it is +0 on both sides. *)
Lemma SF64sub_opp (x y : spec_float) :
  SF64sub (SFopp x) (SFopp y) = SFopp (SF64sub x y) \/
  (SF64sub (SFopp x) (SFopp y) = S754_zero false /\ SF64sub x y = S754_zero false).
Proof.
  unfold SF64sub, SFsub.
  destruct x as [sx|sx| |sx mx ex], y as [sy|sy| |sy my ey]; simpl;
    try (left; reflexivity);
    try (destruct sx, sy; simpl; (left; reflexivity) || (right; split; reflexivity)).
  set (a := Z.pos (shl_align mx ex (Z.min ex ey)).1).
  set (b := Z.pos (shl_align my ey (Z.min ex ey)).1).
  replace (cond_Zopp (negb sx) a - cond_Zopp (negb sy) b)%Z
    with (- (cond_Zopp sx a - cond_Zopp sy b))%Z by (destruct sx, sy; simpl; lia).
  destruct (Z.eq_dec (cond_Zopp sx a - cond_Zopp sy b)%Z 0%Z) as [->|Hne].
  - right. split; reflexivity.
  - left. by apply binary_normalize_opp.
Qed.

Lemma SF64div_opp (x y : spec_float) : SF64div (SFopp x) (SFopp y) = SF64div x y.
Proof.
  unfold SF64div, SFdiv.
  destruct x as [sx|sx| |sx mx ex], y as [sy|sy| |sy my ey]; simpl; try reflexivity;
    try (by destruct sx, sy).
Qed.

(** Multiplying by -1 is exact: it changes the sign and nothing else. *)
Lemma SF64mul_minus_one (x : spec_float) :
  valid_binary x = true ->
  SF64mul x (Prim2SF (-1)) = SFopp x.
Proof.
  intros Hv. change (Prim2SF (-1)) with (S754_finite true 4503599627370496 (-52)).
  unfold SF64mul, SFmul.
  destruct x as [s|s| |s m e]; simpl; try reflexivity; try (by destruct s).
  simpl in Hv. unfold bounded, canonical_mantissa in Hv.
  apply andb_true_iff in Hv as [Hc Hb]. apply Z.eqb_eq in Hc. apply Z.leb_le in Hb.
  rewrite Pos.mul_comm. unfold binary_round_aux.
  assert (shr_fexp prec emax (Z.pos (4503599627370496 * m)) (e + -52) loc_Exact
          = ({| shr_m := Z.pos m; shr_r := false; shr_s := false |}, e)) as ->.
  { unfold shr_fexp.
    assert (Zdigits2 (Z.pos (4503599627370496 * m)) + (e + -52)
            = Z.pos (digits2_pos m) + e)%Z as ->.
    { unfold Zdigits2. simpl (digits2_pos _). rewrite !Pos2Z.inj_succ, Pos.mul_1_l. lia. }
    rewrite Hc. replace (e - (e + -52))%Z with 52%Z by lia.
    unfold shr. replace (e + -52 + 52)%Z with e by lia. reflexivity. }
  cbn [shr_m loc_of_shr_record round_nearest_even].
  assert (shr_fexp prec emax (Z.pos m) e loc_Exact
          = ({| shr_m := Z.pos m; shr_r := false; shr_s := false |}, e)) as ->.
  { unfold shr_fexp. cbn [Zdigits2]. rewrite Hc, Z.sub_diag. reflexivity. }
  cbn [shr_m]. apply Z.leb_le in Hb. rewrite Hb. by destruct s.
Qed.

Lemma negate_Prim2SF (x : float) : Prim2SF (negate x) = SFopp (Prim2SF x).
Proof.
  unfold negate, Py.notna. destruct (PrimFloat.is_nan x) eqn:E; simpl.
  - by rewrite (isna_Prim2SF x E).
  - rewrite FloatAxioms.mul_spec. apply SF64mul_minus_one, Prim2SF_valid.
Qed.

Lemma isna_iff_Prim2SF (x : float) : Py.isna x = true <-> Prim2SF x = S754_nan.
Proof. split; [apply isna_Prim2SF | apply Prim2SF_isna]. Qed.

Lemma isna_negate (x : float) : Py.isna (negate x) = Py.isna x.
Proof.
  apply eq_true_iff_eq. rewrite !isna_iff_Prim2SF, negate_Prim2SF.
  by destruct (Prim2SF x).
Qed.

Lemma is_zero_negate (x : float) : Py.is_zero (negate x) = Py.is_zero x.
Proof.
  unfold Py.is_zero. rewrite !FloatAxioms.eqb_spec, negate_Prim2SF.
  change (Prim2SF 0) with (S754_zero false).
  by destruct (Prim2SF x) as [[]|[]| |[] m e].
Qed.

Lemma is_zero_Prim2SF (x : float) :
  Py.is_zero x = true <-> exists s, Prim2SF x = S754_zero s.
Proof.
  unfold Py.is_zero. rewrite FloatAxioms.eqb_spec.
  change (Prim2SF 0) with (S754_zero false).
  destruct (Prim2SF x) as [s|s| |s m e]; simpl.
  - split; [by exists s | by destruct s].
  - split; [by destruct s | by intros [? ?]].
  - split; [done | by intros [? ?]].
  - split; [by destruct s | by intros [? ?]].
Qed.

(** Inverting both values leaves the growth rate as it is, but for the
    sign of a rate of zero. *)
Lemma growth_rate_negate (last this : float) :
  growth_rate (negate last) (negate this) = growth_rate last this \/
  (Py.is_zero (growth_rate last this) = true /\
   growth_rate (negate last) (negate this) = (- growth_rate last this)%float).
Proof.
  unfold growth_rate. rewrite !notna_isna, !isna_negate, !is_zero_negate.
  destruct (negb (Py.isna last) && negb (Py.is_zero last)) eqn:Hb; [|by left].
  apply andb_true_iff in Hb as [Hn Hz].
  apply negb_true_iff in Hn, Hz.
  assert (Prim2SF last <> S754_nan) as Hn' by (intros E; apply Prim2SF_isna in E; congruence).
  assert (forall s, Prim2SF last <> S754_zero s) as Hz'.
  { intros s E. assert (Py.is_zero last = true) by (apply is_zero_Prim2SF; by exists s).
    congruence. }
  destruct (SF64sub_opp (Prim2SF this) (Prim2SF last)) as [E|[E1 E2]].
  - left. apply Prim2SF_inj.
    rewrite !FloatAxioms.mul_spec, !FloatAxioms.div_spec, !FloatAxioms.sub_spec.
    by rewrite !negate_Prim2SF, E, SF64div_opp.
  - right.
    assert (exists s,
              Prim2SF ((this - last) / last * 100) = S754_zero s /\
              Prim2SF ((negate this - negate last) / negate last * 100)
              = S754_zero (negb s)) as (s & G & G').
    { rewrite !FloatAxioms.mul_spec, !FloatAxioms.div_spec, !FloatAxioms.sub_spec.
      rewrite !negate_Prim2SF, E1, E2.
      change (Prim2SF 100) with (S754_finite false 7036874417766400 (-46)).
      destruct (Prim2SF last) as [s|s| |s m e]; [by destruct (Hz' s)| |done|];
        exists s; simpl; by destruct s. }
    split.
    + apply is_zero_Prim2SF. by exists s.
    + apply Prim2SF_inj. by rewrite FloatAxioms.opp_spec, G, G'.
Qed.

Lemma same_rate_refl (g : float) : same_rate g g.
Proof. by left. Qed.

Lemma same_rate_sym (g g' : float) : same_rate g g' -> same_rate g' g.
Proof. intros [->|[? ?]]; [by left | by right]. Qed.

Lemma same_rate_trans (g1 g2 g3 : float) :
  same_rate g1 g2 -> same_rate g2 g3 -> same_rate g1 g3.
Proof.
  intros [->|[H1 H2]] [->|[H3 H4]]; [by left | by right | by right | by right].
Qed.

Lemma same_rates_refl (d : indicator_data) : same_rates d d.
Proof. intros c. destruct (growth_rates d !! c); [apply same_rate_refl | done]. Qed.

Lemma same_rates_sym (d d' : indicator_data) : same_rates d d' -> same_rates d' d.
Proof.
  intros H c. specialize (H c).
  destruct (growth_rates d !! c), (growth_rates d' !! c); try done. by apply same_rate_sym.
Qed.

Lemma same_rates_trans (d1 d2 d3 : indicator_data) :
  same_rates d1 d2 -> same_rates d2 d3 -> same_rates d1 d3.
Proof.
  intros H1 H2 c. specialize (H1 c). specialize (H2 c).
  destruct (growth_rates d1 !! c), (growth_rates d2 !! c), (growth_rates d3 !! c); try done.
  by eapply same_rate_trans.
Qed.

Lemma growth_rate_negate_same (last this : float) :
  same_rate (growth_rate last this) (growth_rate (negate last) (negate this)).
Proof.
  destruct (growth_rate_negate last this) as [->|[Hz ->]]; [by left|].
  right. split; [done|]. apply is_zero_Prim2SF in Hz as [s Hs].
  apply is_zero_Prim2SF. exists (negb s). by rewrite FloatAxioms.opp_spec, Hs.
Qed.

(** A rate of zero reads 0.00% or -0.00%. *)
Lemma growth_text_zero (g : float) :
  Py.is_zero g = true -> zero_text (growth_text (Some g)).
Proof.
  intros Hz. apply is_zero_Prim2SF in Hz as [s Hs].
  assert (Py.isna g = false) as Hn.
  { destruct (Py.isna g) eqn:E; [|done]. apply isna_Prim2SF in E. congruence. }
  unfold growth_text. rewrite notna_isna, Hn. simpl.
  rewrite FloatAxioms.eqb_spec, Hs. change (Prim2SF Py.np_inf) with (S754_infinity false).
  unfold Fmt.format_2f. rewrite Hs. destruct s; [by right | by left].
Qed.

Lemma growth_text_same (o o' : option float) :
  match o, o' with
  | Some g, Some g' => same_rate g g'
  | None, None => True
  | _, _ => False
  end ->
  same_text (growth_text o) (growth_text o').
Proof.
  destruct o as [g|], o' as [g'|]; try done; [|by left].
  intros [->|[H1 H2]]; [by left|]. right. split; by apply growth_text_zero.
Qed.

(** *** The frames after the inversion *)

Lemma filter_fmap {A B : Type} (P : B -> bool) (f : A -> B) (l : list A) :
  List.filter P (f <$> l) = f <$> List.filter (fun a => P (f a)) l.
Proof.
  induction l as [|a l IH]; [done|]. rewrite fmap_cons. cbn [List.filter].
  destruct (P (f a)); by rewrite ?fmap_cons, IH.
Qed.

(** A cell of an inverted row. *)
Lemma negate_selected_cell (selected : list string) (df : Frame) (row : list cell) (j : nat) :
  cell_at (imap (fun j c =>
                   match columns df !! j with
                   | Some label =>
                       if bool_decide (label ∈ selected)
                       then negate_cell (CNum (to_numeric c))
                       else c
                   | None => c
                   end) row) j
  = match columns df !! j with
    | Some label =>
        if bool_decide (label ∈ selected)
        then CNum (negate (to_numeric (cell_at row j)))
        else cell_at row j
    | None => cell_at row j
    end.
Proof.
  unfold cell_at. rewrite list_lookup_imap.
  destruct (row !! j) as [c|]; simpl.
  - destruct (columns df !! j) as [label|]; [|done]. by destruct (bool_decide _).
  - destruct (columns df !! j) as [label|]; [|done]. by destruct (bool_decide _).
Qed.

Lemma column_index_label (df : Frame) (label : string) (j : nat) :
  column_index df label = Some j -> columns df !! j = Some label.
Proof. intros H. by apply (column_index_Some df label j H). Qed.

Lemma rows_where_negate_selected (selected : list string) (df : Frame) (county : string) :
  OUTPUT_COUNTY_COL_NAME ∉ selected ->
  rows_where (negate_selected selected df) county
  = fmap (M := list)
      (fun row =>
         imap (fun j c =>
                 match columns df !! j with
                 | Some label =>
                     if bool_decide (label ∈ selected)
                     then negate_cell (CNum (to_numeric c))
                     else c
                 | None => c
                 end) row) <$> rows_where df county.
Proof.
  intros Hout. unfold rows_where.
  rewrite (column_index_columns df (negate_selected selected df)) by done.
  destruct (column_index df OUTPUT_COUNTY_COL_NAME) as [j|] eqn:Hj; [|done].
  cbn [mbind option_bind fmap option_fmap option_map negate_selected body]. f_equal.
  rewrite filter_fmap. f_equal. apply List.filter_ext. intros row.
  rewrite negate_selected_cell, (column_index_label df _ j Hj).
  by rewrite bool_decide_eq_false_2.
Qed.

Lemma first_value_negate_selected (selected : list string) (df : Frame)
    (rows : list (list cell)) (label : string) :
  first_value (negate_selected selected df)
    ((fun row =>
        imap (fun j c =>
                match columns df !! j with
                | Some label =>
                    if bool_decide (label ∈ selected)
                    then negate_cell (CNum (to_numeric c))
                    else c
                | None => c
                end) row) <$> rows) label
  = (if bool_decide (label ∈ selected) then negate else id) <$> first_value df rows label.
Proof.
  unfold first_value.
  rewrite (column_index_columns df (negate_selected selected df)) by done.
  destruct (column_index df label) as [j|] eqn:Hj; [|done].
  cbn [mbind option_bind]. destruct rows as [|row rows]; [done|].
  cbn [fmap list_fmap head mbind option_bind option_fmap option_map]. f_equal.
  rewrite negate_selected_cell, (column_index_label df _ j Hj).
  by destruct (bool_decide _).
Qed.

(** One county, in the frames as they are and in the inverted frames. *)
Lemma county_step_inverted (selected : list string) (L T : Frame) (indicator county : string)
    (d d' : indicator_data) :
  OUTPUT_COUNTY_COL_NAME ∉ selected ->
  same_rates d d' ->
  match county_step L T indicator d county,
        county_step (negate_selected selected L) (negate_selected selected T)
          indicator d' county with
  | Some d1, Some d1' => same_rates d1 d1'
  | None, None => True
  | _, _ => False
  end.
Proof.
  intros Hout Hd. unfold county_step.
  rewrite !rows_where_negate_selected by done.
  destruct (rows_where L county) as [lrows|]; [|done].
  destruct (rows_where T county) as [trows|]; [|done].
  cbn [mbind option_bind fmap option_fmap option_map].
  destruct lrows as [|lrow lrows]; [done|].
  destruct trows as [|trow trows]; [done|].
  rewrite !first_value_negate_selected, !fmap_cons. cbv iota.
  destruct (first_value L (lrow :: lrows) indicator) as [lv|]; [|done].
  destruct (first_value T (trow :: trows) indicator) as [tv|];
    cbn [mbind option_bind fmap option_fmap option_map]; [|done].
  intros c. cbn [growth_rates].
  destruct (decide (c = county)) as [->|Hne].
  - rewrite !lookup_insert_eq. destruct (bool_decide _); [|by left].
    apply growth_rate_negate_same.
  - rewrite !lookup_insert_ne by done. apply Hd.
Qed.

Lemma county_loop_inverted (selected : list string) (L T : Frame) (indicator : string)
    (counties : list string) :
  OUTPUT_COUNTY_COL_NAME ∉ selected ->
  forall d d', same_rates d d' ->
    match foldM (county_step L T indicator) d counties,
          foldM (county_step (negate_selected selected L) (negate_selected selected T)
                   indicator) d' counties with
    | Some d1, Some d1' => same_rates d1 d1'
    | None, None => True
    | _, _ => False
    end.
Proof.
  intros Hout. induction counties as [|c counties IH]; intros d d' Hd; [done|].
  cbn [foldM]. pose proof (county_step_inverted selected L T indicator c d d' Hout Hd) as H.
  destruct (county_step L T indicator d c) as [d1|],
    (county_step (negate_selected selected L) _ indicator d' c) as [d1'|]; try done.
  cbn [mbind option_bind]. by apply IH.
Qed.

Lemma dict_set_same_growth (indicator : string) (d d' : indicator_data)
    (result_data result_data' : list (string * indicator_data)) :
  same_rates d d' -> same_growth result_data result_data' ->
  same_growth (dict_set indicator d result_data) (dict_set indicator d' result_data').
Proof.
  intros Hd. induction 1 as [|[k v] [k' v'] r r' [Hk Hv] Hr IH]; simpl in *.
  - by repeat constructor.
  - subst k'. destruct (decide (indicator = k)); constructor; try done.
Qed.

Lemma indicator_step_inverted (selected : list string) (L T : Frame)
    (counties : list string) (indicator : string)
    (acc acc' : list (string * indicator_data)) :
  OUTPUT_COUNTY_COL_NAME ∉ selected ->
  same_growth acc acc' ->
  match indicator_step L T counties acc indicator,
        indicator_step (negate_selected selected L) (negate_selected selected T)
          counties acc' indicator with
  | Some r, Some r' => same_growth r r'
  | None, None => True
  | _, _ => False
  end.
Proof.
  intros Hout Hacc. unfold indicator_step.
  pose proof (county_loop_inverted selected L T indicator counties Hout
                (new_indicator_data indicator) (new_indicator_data indicator)
                (same_rates_refl _)) as H.
  destruct (foldM (county_step L T indicator) _ counties) as [d|],
    (foldM (county_step (negate_selected selected L) _ indicator) _ counties) as [d'|];
    try done.
  cbn [mbind option_bind]. by apply dict_set_same_growth.
Qed.

Lemma indicator_loop_inverted (selected : list string) (L T : Frame)
    (indicators counties : list string) :
  OUTPUT_COUNTY_COL_NAME ∉ selected ->
  forall acc acc', same_growth acc acc' ->
    match foldM (indicator_step L T counties) acc indicators,
          foldM (indicator_step (negate_selected selected L) (negate_selected selected T)
                   counties) acc' indicators with
    | Some r, Some r' => same_growth r r'
    | None, None => True
    | _, _ => False
    end.
Proof.
  intros Hout. induction indicators as [|i indicators IH]; intros acc acc' Hacc; [done|].
  cbn [foldM].
  pose proof (indicator_step_inverted selected L T counties i acc acc' Hout Hacc) as H.
  destruct (indicator_step L T counties acc i) as [r|],
    (indicator_step (negate_selected selected L) _ counties acc' i) as [r'|]; try done.
  cbn [mbind option_bind]. by apply IH.
Qed.

Lemma calculate_growth_rates_inverted (selected : list string) (L T : Frame)
    (indicators counties : list string) :
  OUTPUT_COUNTY_COL_NAME ∉ selected ->
  match calculate_growth_rates L T indicators counties,
        calculate_growth_rates (negate_selected selected L) (negate_selected selected T)
          indicators counties with
  | Some r, Some r' => same_growth r r'
  | None, None => True
  | _, _ => False
  end.
Proof.
  intros Hout. apply indicator_loop_inverted; [done | constructor].
Qed.

Lemma same_growth_sym (r r' : list (string * indicator_data)) :
  same_growth r r' -> same_growth r' r.
Proof.
  induction 1 as [|x y r r' [Hk Hd] _ IH]; constructor; [|done].
  split; [done | by apply same_rates_sym].
Qed.

Lemma same_growth_trans (r1 r2 r3 : list (string * indicator_data)) :
  same_growth r1 r2 -> same_growth r2 r3 -> same_growth r1 r3.
Proof.
  intros H. revert r3. induction H as [|x y r r' [Hk Hd] _ IH]; intros r3 H3.
  - inversion H3. constructor.
  - inversion H3 as [|y' z r2' r3' [Hk' Hd'] H3']; subst. constructor; [|by apply IH].
    split; [congruence | by eapply same_rates_trans].
Qed.

Lemma indicator_vars_keys (indicators : list string) (ticks : list bool) (x : string) :
  x ∈ (indicator_vars indicators ticks).*1 -> x ∈ indicators.
Proof.
  induction indicators as [|a indicators IH] using rev_ind; [done|].
  rewrite indicator_vars_snoc, dict_set_keys, elem_of_app.
  destruct (decide _); [by left; apply IH|].
  rewrite elem_of_app. intros [H|H]; [by left; apply IH | by right].
Qed.

(** Only indicators of the list can be selected. *)
Lemma select_subset (indicators : list string) (d : dialog) (x : string) :
  x ∈ select_negative_indicators indicators d -> x ∈ indicators.
Proof.
  destruct d as [ticks|]; simpl; [|by intros ?%elem_of_nil].
  rewrite on_confirm_spec. intros H. apply (indicator_vars_keys indicators ticks).
  apply list_elem_of_fmap in H as (p & -> & Hp). apply list_elem_of_filter in Hp as [_ Hp].
  apply list_elem_of_fmap. by exists p.
Qed.

Lemma growth_row_same (counties : list string) (d d' : indicator_data) :
  same_rates d d' -> Forall2 same_text (growth_row counties d) (growth_row counties d').
Proof.
  intros H. unfold growth_row. constructor; [by left|].
  induction counties as [|c counties IH]; [constructor|].
  rewrite !fmap_cons. constructor; [|done]. apply growth_text_same, H.
Qed.

Lemma same_growth_rows (counties : list string) (r r' : list (string * indicator_data))
    (k : nat) (texts texts' : list string) :
  same_growth r r' ->
  output_rows r counties !! (3 * k + 2) = Some texts ->
  output_rows r' counties !! (3 * k + 2) = Some texts' ->
  Forall2 same_text texts texts'.
Proof.
  intros Hr H1 H2.
  assert (k < length r) as Hk.
  { apply lookup_lt_Some in H1. rewrite output_rows_length in H1. lia. }
  destruct (lookup_lt_is_Some_2 r k Hk) as [[n d] Hd].
  destruct (Forall2_lookup_l _ _ _ _ _ Hr Hd) as ([n' d'] & Hd' & _ & Hrates).
  destruct (output_rows_lookup counties r k n d Hd) as (_ & _ & E1).
  destruct (output_rows_lookup counties r' k n' d' Hd') as (_ & _ & E2).
  rewrite E1 in H1. rewrite E2 in H2. injection H1 as <-. injection H2 as <-.
  by apply growth_row_same.
Qed.

(** X1: inverting both values of a pair leaves the growth rate as it is,
    but for the sign of a rate of zero, so the growth cell reads the same
    but for 0.00% against -0.00%, as happens for two equal values. *)
Theorem inverted_pair_keeps_growth_rate :
  (forall last_year_value this_year_value : float,
     growth_rate (negate last_year_value) (negate this_year_value)
     = growth_rate last_year_value this_year_value \/
     (Py.is_zero (growth_rate last_year_value this_year_value) = true /\
      growth_rate (negate last_year_value) (negate this_year_value)
      = (- growth_rate last_year_value this_year_value)%float)) /\
  (forall last_year_value this_year_value : float,
     same_text (growth_text (Some (growth_rate last_year_value this_year_value)))
       (growth_text (Some (growth_rate (negate last_year_value) (negate this_year_value))))) /\
  growth_text (Some (growth_rate 10 15)) = "50.00%" /\
  growth_text (Some (growth_rate (negate 10) (negate 15))) = "50.00%" /\
  growth_text (Some (growth_rate 5 5)) = "0.00%" /\
  growth_text (Some (growth_rate (negate 5) (negate 5))) = "-0.00%".
Proof.
  split; [exact growth_rate_negate|]. split; [|by repeat split].
  intros last this. apply (growth_text_same (Some _) (Some _)), growth_rate_negate_same.
Qed.

(** X2: the growth rows of the comparison table do not depend on what the
    operator ticks.  Two completed runs on the same files have tables
    with the same labels and as many rows, and their growth rows (rows
    2, 5, 8, ...) read the same, but for 0.00% against -0.00%. *)
Theorem growth_rows_independent_of_selection (last_sheet this_sheet : io RawTable)
    (save_last save_this save_comparison : io unit)
    (last_year_path current_year_path output_dir_path : string) (d d' : dialog)
    (result_data result_data' : list (string * indicator_data)) (df_output df_output' : Frame)
    (ev ev' : list event) :
  run_processing last_sheet this_sheet save_last save_this save_comparison
    last_year_path current_year_path output_dir_path d
  = (Completed result_data df_output, ev) ->
  run_processing last_sheet this_sheet save_last save_this save_comparison
    last_year_path current_year_path output_dir_path d'
  = (Completed result_data' df_output', ev') ->
  columns df_output' = columns df_output /\
  length (body df_output') = length (body df_output) /\
  forall k row row',
    body df_output !! (3 * k + 2) = Some row ->
    body df_output' !! (3 * k + 2) = Some row' ->
    exists texts texts',
      row = CStr <$> texts /\ row' = CStr <$> texts' /\ Forall2 same_text texts texts'.
Proof.
  intros H H'.
  apply run_processing_completed in H
    as (L & T & i1 & i2 & e1 & e2 & inds & counties & T1 & L1 & P1 & P2 & E & I & C & G).
  apply run_processing_completed in H'
    as (L' & T' & i1' & i2' & e1' & e2' & inds' & counties' & T2 & L2
        & P1' & P2' & E' & I' & C' & G').
  rewrite P1 in P1'. injection P1' as <- <- <-.
  rewrite P2 in P2'. injection P2' as <- <- <-.
  rewrite E in E'. injection E' as <- <-.
  apply (invert_loop_spec _ (select_NoDup inds d)) in I as [-> ->].
  apply (invert_loop_spec _ (select_NoDup inds d')) in I' as [-> ->].
  assert (forall dlg, OUTPUT_COUNTY_COL_NAME ∉ select_negative_indicators inds dlg) as Hout.
  { intros dlg Hin. apply select_subset in Hin.
    apply extract_indicators_and_counties_spec in E as [-> _].
    apply list_elem_of_filter in Hin as [Hin _]. apply Hin.
    apply list_elem_of_further, list_elem_of_here. }
  assert (same_growth result_data result_data') as Hsame.
  { pose proof (calculate_growth_rates_inverted _ L T inds counties (Hout d)) as R.
    pose proof (calculate_growth_rates_inverted _ L T inds counties (Hout d')) as R'.
    rewrite C in R. rewrite C' in R'.
    destruct (calculate_growth_rates L T inds counties) as [r0|]; [|done].
    eapply same_growth_trans; [apply same_growth_sym, R | exact R']. }
  rewrite generate_output_table_spec in G, G'. injection G as <-. injection G' as <-.
  cbn [columns body]. split; [done|]. split.
  { rewrite !length_fmap, !output_rows_length. by rewrite (Forall2_length _ _ _ Hsame). }
  intros k row row'. rewrite !list_lookup_fmap.
  destruct (output_rows result_data counties !! (3 * k + 2)) as [texts|] eqn:H1; [|done].
  destruct (output_rows result_data' counties !! (3 * k + 2)) as [texts'|] eqn:H2; [|done].
  intros [= <-] [= <-]. exists texts, texts'. split; [done|]. split; [done|].
  by eapply same_growth_rows.
Qed.

(** ** More on the row scan *)

Lemma forward_fill_S (df : RawTable) (n : nat) :
  forward_fill df (S n) = next_city df (forward_fill df n) n.
Proof. unfold forward_fill. by rewrite seq_S, fold_left_app. Qed.

Lemma scan_rows_city (df : RawTable) (city_filter : string) (value_columns : list nat) (n : nat) :
  (scan_rows df city_filter value_columns n).1 = forward_fill df n.
Proof.
  induction n as [|n IH]; [done|].
  by rewrite scan_rows_S, scan_row_city, forward_fill_S, IH.
Qed.

Lemma filter_seq_S (P : nat -> bool) (n : nat) :
  List.filter P (seq 0 (S n)) = List.filter P (seq 0 n) ++ (if P n then [n] else []).
Proof. rewrite seq_S, List.filter_app. simpl. by destruct (P n). Qed.

(** The current city is a city cell of an earlier row, stripped and not
    empty, with nothing but empty city cells since. *)
Lemma forward_fill_Some (df : RawTable) (n : nat) (city : string) :
  forward_fill df n = Some city <->
  exists j, j < n /\ city_name_of df j = city /\ nonempty city = true /\
    forall k, j < k < n -> city_name_of df k = "".
Proof.
  revert city. induction n as [|n IH]; intros city.
  - split; [done | intros (j & ? & _); lia].
  - rewrite forward_fill_S. unfold next_city.
    destruct (nonempty (city_name_of df n)) eqn:En.
    + split.
      * intros [= <-]. exists n. split; [lia|]. split; [done|]. split; [done|]. intros k ?; lia.
      * intros (j & Hj & <- & Hne & Hblank).
        destruct (decide (j = n)) as [->|Hjn]; [done|].
        rewrite (Hblank n) in En by lia. done.
    + assert (city_name_of df n = "") as E0.
      { unfold nonempty in En. apply negb_false_iff, String.eqb_eq in En. exact En. }
      rewrite IH. split.
      * intros (j & Hj & Hc & Hne & Hblank). exists j. split; [lia|]. split; [done|].
        split; [done|]. intros k Hk. destruct (decide (k = n)) as [->|?]; [done|].
        apply Hblank. lia.
      * intros (j & Hj & Hc & Hne & Hblank).
        assert (j <> n) by (intros ->; rewrite E0 in Hc; subst city; done).
        exists j. split; [lia|]. split; [done|]. split; [done|].
        intros k Hk. apply Hblank. lia.
Qed.

(** X3: the rows collected from a sheet are the rows under the wanted
    city that have a county, one output row for each, in the order of the
    sheet; and the city that applies to a row is the last city cell at or
    above it that is not empty. *)
Theorem extracted_rows_in_sheet_order :
  (forall (df : RawTable) (city_filter : string) (value_columns : list nat) (n : nat),
     (scan_rows df city_filter value_columns n).2
     = (fun row_idx =>
          row_data df city_filter (county_name_of df row_idx) value_columns row_idx)
         <$> List.filter (collected df city_filter) (seq 0 n)) /\
  (forall (df : RawTable) (n : nat) (city : string),
     forward_fill df n = Some city <->
     exists j, j < n /\ city_name_of df j = city /\ nonempty city = true /\
       forall k, j < k < n -> city_name_of df k = "") /\
  (forall (df : RawTable) (city_filter : string) (value_columns : list nat),
     (scan_rows df city_filter value_columns (shape0 df)).2 = [] <->
     forall row_idx, row_idx < shape0 df -> collected df city_filter row_idx = false).
Proof.
  assert (Hrows : forall (df : RawTable) (city_filter : string) (value_columns : list nat)
                    (n : nat),
             (scan_rows df city_filter value_columns n).2
             = (fun row_idx =>
                  row_data df city_filter (county_name_of df row_idx) value_columns row_idx)
                 <$> List.filter (collected df city_filter) (seq 0 n)).
  { intros df city_filter value_columns n. induction n as [|n IH]; [done|].
    rewrite scan_rows_S, scan_row_data, IH, filter_seq_S, fmap_app. f_equal.
    rewrite scan_rows_city, <- forward_fill_S. unfold collected.
    by destruct (bool_decide _ && nonempty _). }
  split; [exact Hrows|]. split; [exact forward_fill_Some|].
  intros df city_filter value_columns. rewrite Hrows. split.
  - intros H i Hi. apply fmap_nil_inv in H.
    destruct (collected df city_filter i) eqn:E; [|done].
    assert (In i (List.filter (collected df city_filter) (seq 0 (shape0 df)))) as Hin.
    { apply List.filter_In. split; [apply List.in_seq; lia | done]. }
    rewrite H in Hin. destruct Hin.
  - intros H.
    assert (List.filter (collected df city_filter) (seq 0 (shape0 df)) = []) as ->; [|done].
    destruct (List.filter _ _) as [|i l] eqn:E; [done|].
    assert (In i (List.filter (collected df city_filter) (seq 0 (shape0 df)))) as Hin
      by (rewrite E; by left).
    apply List.filter_In in Hin as [Hin Hc]. apply List.in_seq in Hin.
    rewrite H in Hc by lia. done.
Qed.

Lemma scan_rows_collected (df : RawTable) (city_filter : string) (value_columns : list nat)
    (n : nat) :
  (scan_rows df city_filter value_columns n).2
  = (fun row_idx =>
       row_data df city_filter (county_name_of df row_idx) value_columns row_idx)
      <$> List.filter (collected df city_filter) (seq 0 n).
Proof.
  induction n as [|n IH]; [done|].
  rewrite scan_rows_S, scan_row_data, IH, filter_seq_S, fmap_app. f_equal.
  rewrite scan_rows_city, <- forward_fill_S. unfold collected.
  by destruct (bool_decide _ && nonempty _).
Qed.

Lemma filter_nil_false {A : Type} (P : A -> bool) (l : list A) :
  (forall x, In x l -> P x = false) -> List.filter P l = [].
Proof.
  induction l as [|x l IH]; intros H; [done|]. simpl.
  rewrite (H x) by (by left). apply IH. intros y Hy. apply H. by right.
Qed.

(** X4: the value columns the extractor returns lie inside the sheet, so
    for them [process_excel_file] always reads the cell: the branch that
    appends NaN for a column past the width is never taken. *)
Theorem value_columns_inside_sheet (df : RawTable) (header_row_idx row_idx value_col : nat) :
  value_col ∈ (extract_indicators_from_template df header_row_idx).2 ->
  4 <= value_col < shape1 df /\
  value_at df row_idx value_col = to_numeric (iloc df row_idx value_col).
Proof.
  intros Hin.
  assert (4 <= value_col < shape1 df) as Hlt.
  { destruct (decide (shape0 df <= header_row_idx)) as [Hle|Hgt].
    - unfold extract_indicators_from_template in Hin. rewrite decide_True in Hin by done.
      by apply elem_of_nil in Hin.
    - destruct (extract_indicators_spec df header_row_idx) as [E _]; [lia|].
      rewrite E in Hin. apply list_elem_of_filter in Hin as [_ Hin].
      by apply range_elem in Hin as [? _]. }
  split; [done|]. unfold value_at. rewrite decide_True; [done | lia].
Qed.

(** X5: a frame is returned only if some city cell, stripped, is exactly
    the wanted city: without such a cell, or with an empty city to look
    for, the call returns [(None, [])] after the error dialog 指标错误 or
    数据错误. *)
Theorem unmatched_city_gives_no_frame (df : RawTable) (save : io unit)
    (input_path output_path city_filter file_type_label : string) (status_var log_func : bool) :
  (forall j, j < shape0 df -> city_name_of df j <> city_filter) \/ city_filter = "" ->
  let r := process_excel_file (Done df) save input_path output_path city_filter
             file_type_label status_var log_func in
  r.1 = (None, []) /\
  exists title msg,
    last r.2 = Some (ShowError title msg) /\ (title = "指标错误" \/ title = "数据错误").
Proof.
  intros H. cbv zeta.
  assert (forall vcs, (scan_rows df city_filter vcs (shape0 df)).2 = []) as Hnone.
  { intros vcs. rewrite scan_rows_collected, filter_nil_false; [done|].
    intros i Hi. apply List.in_seq in Hi. unfold collected.
    rewrite bool_decide_eq_false_2; [done|]. intros E.
    apply forward_fill_Some in E as (j & Hj & Hc & Hne & _).
    destruct H as [H| ->]; [|done]. apply (H j); [lia | done]. }
  destruct (extract_indicators_from_template df 1).1 as [|ind inds] eqn:E.
  - destruct (process_excel_file_no_indicators df save input_path output_path city_filter
                file_type_label status_var log_func E) as (before & -> & _).
    cbn [fst snd]. rewrite last_snoc. split; [done|]. eexists _, _. split; [done | by left].
  - destruct (process_excel_file_no_city df save input_path output_path city_filter
                file_type_label status_var log_func) as (before & -> & _);
      [by rewrite E | apply Hnone|].
    cbn [fst snd]. rewrite last_snoc. split; [done|]. eexists _, _. split; [done | by right].
Qed.

Lemma failed_events (input_path file_type_label : string) (status_var log_func : bool)
    (before : list event) (e : string) :
  Forall is_notice before ->
  exists before' title msg,
    (failed input_path file_type_label status_var log_func before e).2
    = before' ++ [ShowError title msg] /\
    Forall is_notice before' /\
    (status_var = false -> log_func = false -> before' = before).
Proof.
  intros Hb. unfold failed. cbn [snd].
  eexists (before ++ set_status status_var _ ++ log log_func "ERROR" _), _, _.
  split; [by rewrite <- !app_assoc|]. split.
  - repeat apply Forall_app_2; auto using set_status_notice, log_notice.
  - intros -> ->. simpl. by rewrite app_nil_r.
Qed.

(** The events of a call: status and log lines around one event that is
    the error dialog or the saving of the frame. *)
Lemma process_excel_file_events (sheet : io RawTable) (save : io unit)
    (input_path output_path city_filter file_type_label : string) (status_var log_func : bool) :
  let r := process_excel_file sheet save input_path output_path city_filter
             file_type_label status_var log_func in
  exists before e after,
    r.2 = before ++ e :: after /\ Forall is_notice before /\ Forall is_notice after /\
    match r.1.1 with
    | Some df_output => e = SaveExcel output_path df_output
    | None => (exists title msg, e = ShowError title msg) /\ after = [] /\ r.1.2 = []
    end /\
    (status_var = false -> log_func = false -> before = [] /\ after = []).
Proof.
  cbv zeta.
  assert (Hfail : forall before e,
            Forall is_notice before ->
            (status_var = false -> log_func = false -> before = []) ->
            let r := failed input_path file_type_label status_var log_func before e in
            exists before' e' after,
              r.2 = before' ++ e' :: after /\ Forall is_notice before' /\
              Forall is_notice after /\
              match r.1.1 with
              | Some df_output => e' = SaveExcel output_path df_output
              | None => (exists title msg, e' = ShowError title msg) /\ after = [] /\ r.1.2 = []
              end /\
              (status_var = false -> log_func = false -> before' = [] /\ after = [])).
  { intros before e Hb Hs. cbv zeta.
    destruct (failed_events input_path file_type_label status_var log_func before e Hb)
      as (b' & title & msg & -> & Hb' & Hs').
    exists b', (ShowError title msg), []. split; [done|]. split; [done|].
    split; [constructor|]. split; [split; [by eexists _, _ | done]|].
    intros S1 S2. rewrite (Hs' S1 S2). split; [by apply Hs | done]. }
  assert (Hn : forall msg level,
            Forall is_notice (set_status status_var msg ++ log log_func level msg))
    by (intros; apply Forall_app_2; auto using set_status_notice, log_notice).
  unfold process_excel_file.
  destruct sheet as [df_input|e].
  2:{ apply Hfail; [apply Hn | by intros -> ->]. }
  destruct (extract_indicators_from_template df_input 1) as [[|ind inds] vcs].
  { cbn [fst snd].
    match goal with
    | |- exists before e after, ?a ++ ?b ++ ?c ++ [?x] = _ /\ _ =>
        exists (a ++ b ++ c), x, []
    end.
    split; [by rewrite <- !app_assoc|]. split.
    - repeat apply Forall_app_2; auto using set_status_notice, log_notice.
    - split; [constructor|]. split; [split; [by eexists _, _ | done]|].
      by intros -> ->. }
  destruct (scan_rows df_input city_filter vcs (shape0 df_input)) as [cc [|row0 city_data]].
  { cbn [fst snd].
    match goal with
    | |- exists before e after, ?a ++ ?b ++ ?c ++ [?x] = _ /\ _ =>
        exists (a ++ b ++ c), x, []
    end.
    split; [by rewrite <- !app_assoc|]. split.
    - repeat apply Forall_app_2; auto using set_status_notice, log_notice.
    - split; [constructor|]. split; [split; [by eexists _, _ | done]|].
      by intros -> ->. }
  destruct (make_frame _ _) as [df_output|].
  2:{ apply Hfail.
      - repeat apply Forall_app_2; auto using set_status_notice, log_notice.
      - by intros -> ->. }
  destruct save as [[]|e].
  2:{ apply Hfail.
      - repeat apply Forall_app_2; auto using set_status_notice, log_notice.
      - by intros -> ->. }
  cbn [fst snd].
  match goal with
  | |- exists before e after, ?a ++ [?x] ++ ?b = _ /\ _ => exists a, x, b
  end.
  split; [done|]. split.
  - repeat apply Forall_app_2; auto using set_status_notice, log_notice.
  - split; [apply Hn|]. split; [done|]. by intros -> ->.
Qed.

(** X6: every call shows the operator exactly one thing that is not a
    status or log line: the error dialog, as the last event, when it
    returns no frame (and then no indicators either), and the saving of the
    returned frame to the output path when it returns one.  Without a
    status bar and a log function nothing else happens. *)
Theorem process_excel_file_one_outcome (sheet : io RawTable) (save : io unit)
    (input_path output_path city_filter file_type_label : string) (status_var log_func : bool) :
  let r := process_excel_file sheet save input_path output_path city_filter
             file_type_label status_var log_func in
  exists before e after,
    r.2 = before ++ e :: after /\ Forall is_notice before /\ Forall is_notice after /\
    match r.1.1 with
    | Some df_output => e = SaveExcel output_path df_output
    | None => (exists title msg, e = ShowError title msg) /\ after = [] /\ r.1.2 = []
    end /\
    (status_var = false -> log_func = false -> before = [] /\ after = []).
Proof. apply process_excel_file_events. Qed.


(** ** When there are no indicators *)

Lemma extract_indicators_nil (df : RawTable) (header_row_idx : nat) :
  (extract_indicators_from_template df header_row_idx).1 = [] <->
  shape0 df <= header_row_idx \/
  forall i, 4 <= i < shape1 df -> (i - 4) mod 2 = 0 ->
    cell_notna (iloc df header_row_idx i) = false.
Proof.
  destruct (decide (shape0 df <= header_row_idx)) as [Hle|Hgt].
  { unfold extract_indicators_from_template. rewrite decide_True by done.
    split; [by left | done]. }
  destruct (extract_indicators_spec df header_row_idx) as [Hcols Hnames]; [lia|].
  rewrite Hnames, Hcols. split.
  - intros H. right. intros i Hi Hm. apply fmap_nil_inv in H.
    destruct (cell_notna (iloc df header_row_idx i)) eqn:E; [|done].
    assert (i ∈ filter (fun i => cell_notna (iloc df header_row_idx i) = true)
                  (Py.range 4 (shape1 df) 2)) as Hin.
    { apply list_elem_of_filter. split; [done|]. by apply range_elem. }
    rewrite H in Hin. by apply elem_of_nil in Hin.
  - intros [H|H]; [lia|].
    destruct (filter _ _) as [|i l] eqn:E; [done|]. exfalso.
    assert (i ∈ filter (fun i => cell_notna (iloc df header_row_idx i) = true)
                  (Py.range 4 (shape1 df) 2)) as Hin by (rewrite E; apply list_elem_of_here).
    apply list_elem_of_filter in Hin as [Hi Hin]. apply range_elem in Hin as [? ?].
    rewrite H in Hi; done.
Qed.

(** X7: the extractor finds no indicator exactly when the header row lies
    past the end of the sheet or every cell of it at the columns 4, 6, 8,
    ... is empty, as in every sheet of at most four columns; and exactly
    then [process_excel_file] ends with the error dialog 指标错误. *)
Theorem no_indicators_iff_blank_header (df : RawTable) (save : io unit)
    (input_path output_path city_filter file_type_label : string) (status_var log_func : bool) :
  let blank_header :=
    shape0 df <= 1 \/
    forall i, 4 <= i < shape1 df -> (i - 4) mod 2 = 0 -> cell_notna (iloc df 1 i) = false in
  ((extract_indicators_from_template df 1).1 = [] <-> blank_header) /\
  (shape1 df <= 4 -> extract_indicators_from_template df 1 = ([], [])) /\
  (last (process_excel_file (Done df) save input_path output_path city_filter
           file_type_label status_var log_func).2
   = Some (ShowError "指标错误" ("在文件 " +:+ input_path +:+ " 中未找到有效指标"))
   <-> blank_header).
Proof.
  cbv zeta. split; [apply extract_indicators_nil|]. split.
  { intros Hw.
    assert ((extract_indicators_from_template df 1).1 = []) as H1
      by (apply extract_indicators_nil; right; intros; lia).
    pose proof (extract_lengths df 1) as Hl. rewrite H1 in Hl.
    destruct (extract_indicators_from_template df 1) as [a b]. simpl in *. subst a.
    by destruct b. }
  rewrite <- extract_indicators_nil. split.
  - intros Hlast.
    destruct (extract_indicators_from_template df 1).1 as [|ind inds] eqn:E; [done|].
    exfalso. revert Hlast. unfold process_excel_file, failed.
    destruct (extract_indicators_from_template df 1) as [a vcs]. simpl in E. subst a.
    destruct (scan_rows df city_filter vcs (shape0 df)) as [cc [|row0 city_data]].
    { cbn [snd]. rewrite !app_assoc, last_snoc. intros [= H]. }
    destruct (make_frame _ _) as [df_output|].
    2:{ cbn [snd]. rewrite !app_assoc, last_snoc. intros [= H]. }
    destruct save as [[]|e].
    2:{ cbn [snd]. rewrite !app_assoc, last_snoc. intros [= H]. }
    cbn [snd]. destruct status_var, log_func; cbn [set_status log app];
      rewrite ?app_nil_r, ?app_assoc, ?last_snoc; intros [= H].
  - intros E.
    destruct (process_excel_file_no_indicators df save input_path output_path city_filter
                file_type_label status_var log_func E) as (before & -> & _).
    cbn [snd]. by rewrite last_snoc.
Qed.

(** ** Runs that do not complete *)

Lemma process_excel_file_saves (sheet : io RawTable) (save : io unit)
    (input_path output_path city_filter file_type_label : string) (status_var log_func : bool)
    (path : string) (df : Frame) :
  let r := process_excel_file sheet save input_path output_path city_filter
             file_type_label status_var log_func in
  SaveExcel path df ∈ r.2 <-> path = output_path /\ r.1.1 = Some df.
Proof.
  cbv zeta.
  destruct (process_excel_file_events sheet save input_path output_path city_filter
              file_type_label status_var log_func) as (before & e & after & -> & Hb & Ha & He & _).
  assert (forall l, Forall is_notice l -> SaveExcel path df ∉ l) as Hno.
  { intros l Hl Hin. rewrite Forall_forall in Hl. apply (Hl _ Hin). }
  rewrite elem_of_app, elem_of_cons.
  destruct (process_excel_file _ _ _ _ _ _ _ _).1.1 as [df_output|].
  - subst e. split.
    + intros [H|[[= -> ->]|H]]; [by apply Hno in H | done | by apply Hno in H].
    + intros [-> [= ->]]. right. by left.
  - destruct He as ((title & msg & ->) & -> & _). split.
    + intros [H|[[=]|H]]; [by apply Hno in H | by apply elem_of_nil in H].
    + by intros [_ ?].
Qed.

(** X8: when the prior-year file gives a frame and the current-year file
    does not, the run stops after the error dialog of the second file; the
    prior-year output file has been written by then and stays, and nothing
    else is written. *)
Theorem aborted_run_keeps_prior_year_output (last_sheet this_sheet : io RawTable)
    (save_last save_this save_comparison : io unit)
    (last_year_path current_year_path output_dir_path : string) (d : dialog)
    (df_last_year : Frame) (inds_last inds_this : list string) (ev_last ev_this : list event) :
  process_excel_file last_sheet save_last last_year_path
    (path_join output_dir_path "忻州_指标数据_去年.xlsx") CITY "去年" true true
  = ((Some df_last_year, inds_last), ev_last) ->
  process_excel_file this_sheet save_this current_year_path
    (path_join output_dir_path "忻州_指标数据_今年.xlsx") CITY "今年" true true
  = ((None, inds_this), ev_this) ->
  let r := run_processing last_sheet this_sheet save_last save_this save_comparison
             last_year_path current_year_path output_dir_path d in
  r.1 = Aborted /\
  (forall path df,
     SaveExcel path df ∈ r.2 <->
     path = path_join output_dir_path "忻州_指标数据_去年.xlsx" /\ df = df_last_year) /\
  exists title msg, last r.2 = Some (ShowError title msg).
Proof.
  intros P1 P2. cbv zeta. unfold run_processing. rewrite P1, P2. cbn [fst snd].
  split; [done|]. split.
  - intros path df.
    pose proof (process_excel_file_saves last_sheet save_last last_year_path
                  (path_join output_dir_path "忻州_指标数据_去年.xlsx") CITY "去年" true true
                  path df) as S1.
    pose proof (process_excel_file_saves this_sheet save_this current_year_path
                  (path_join output_dir_path "忻州_指标数据_今年.xlsx") CITY "今年" true true
                  path df) as S2.
    cbv zeta in S1, S2. rewrite P1 in S1. rewrite P2 in S2. cbn [fst snd] in S1, S2.
    unfold update_progress. rewrite !elem_of_app, !list_elem_of_singleton, S1, S2.
    split.
    + intros [[[[=]|[-> [= ->]]]|[=]]|[_ [=]]]. done.
    + intros [-> ->]. left. left. by right.
  - destruct (process_excel_file_events this_sheet save_this current_year_path
                (path_join output_dir_path "忻州_指标数据_今年.xlsx") CITY "今年" true true)
      as (before & e & after & E & _ & _ & He & _).
    rewrite P2 in E, He. cbn [fst snd] in E, He.
    destruct He as ((title & msg & ->) & -> & _). exists title, msg.
    rewrite E, !app_assoc. apply last_snoc.
Qed.

(** ** More on the growth data *)

Lemma foldM_None {A B : Type} (f : B -> A -> option B) (l : list A) (a : A) :
  a ∈ l -> (forall b, f b a = None) -> forall b, foldM f b l = None.
Proof.
  intros Ha Hf. induction l as [|x l IH]; intros b; [by apply elem_of_nil in Ha|].
  cbn [foldM]. destruct (f b x) as [b'|] eqn:E; [|done]. cbn [mbind option_bind].
  apply elem_of_cons in Ha as [->|Ha]; [by rewrite Hf in E | by apply IH].
Qed.

(** A county without a row in one of the frames leaves the data as they
    are, and so does every step for another county. *)
Lemma county_step_untouched (L T : Frame) (indicator county c : string)
    (d d' : indicator_data) :
  county_step L T indicator d county = Some d' ->
  c <> county \/ rows_where L county = Some [] \/ rows_where T county = Some [] ->
  current_values d' !! c = current_values d !! c /\
  previous_values d' !! c = previous_values d !! c /\
  growth_rates d' !! c = growth_rates d !! c.
Proof.
  unfold county_step. intros H Hc.
  destruct (rows_where L county) as [lrows|]; [|discriminate].
  destruct (rows_where T county) as [trows|]; [|discriminate].
  cbn [mbind option_bind] in H.
  destruct lrows as [|lrow lrows]; [by injection H as <-|].
  destruct trows as [|trow trows]; [by injection H as <-|].
  destruct Hc as [Hne|[?|?]]; [|done|done].
  destruct (first_value L _ indicator) as [lv|]; [|discriminate].
  destruct (first_value T _ indicator) as [tv|]; [|discriminate].
  cbn [mbind option_bind] in H. injection H as <-. cbn.
  by rewrite !lookup_insert_ne.
Qed.

Lemma county_loop_untouched (L T : Frame) (indicator c : string) (counties : list string) :
  c ∉ counties \/ rows_where L c = Some [] \/ rows_where T c = Some [] ->
  forall d d',
    foldM (county_step L T indicator) d counties = Some d' ->
    current_values d' !! c = current_values d !! c /\
    previous_values d' !! c = previous_values d !! c /\
    growth_rates d' !! c = growth_rates d !! c.
Proof.
  intros Hc. induction counties as [|a counties IH]; intros d d' H.
  - by injection H as <-.
  - cbn [foldM] in H. destruct (county_step L T indicator d a) as [d1|] eqn:E; [|discriminate].
    cbn [mbind option_bind] in H.
    destruct (county_step_untouched L T indicator a c d d1 E) as (E1 & E2 & E3).
    { destruct Hc as [Hc|[Hc|Hc]].
      - left. intros ->. apply Hc, list_elem_of_here.
      - destruct (decide (c = a)) as [->|]; [by right; left | by left].
      - destruct (decide (c = a)) as [->|]; [by right; right | by left]. }
    destruct (IH ltac:(destruct Hc as [Hc|[?|?]]; [left; intros ?; apply Hc; by apply list_elem_of_further | by right; left | by right; right]) d1 d' H) as (F1 & F2 & F3).
    by rewrite F1, F2, F3.
Qed.

Lemma dict_get_keys {V : Type} (k : string) (v : V) (d : list (string * V)) :
  dict_get k d = Some v -> k ∈ d.*1.
Proof.
  intros H. apply dict_get_Some_elem in H. apply list_elem_of_fmap. by exists (k, v).
Qed.

(** The data of one indicator in a result: the outcome of the county
    loop, started from empty data. *)
Lemma calculate_growth_rates_get (L T : Frame) (indicators counties : list string)
    (result_data : list (string * indicator_data)) (indicator : string) (d : indicator_data) :
  calculate_growth_rates L T indicators counties = Some result_data ->
  dict_get indicator result_data = Some d ->
  indicator ∈ indicators /\
  foldM (county_step L T indicator) (new_indicator_data indicator) counties = Some d.
Proof.
  intros Hcalc Hget.
  assert (indicator ∈ indicators) as Hin.
  { destruct (indicator_loop_keys L T counties indicators [] result_data Hcalc indicator)
      as [H|H]; [by eapply dict_get_keys | by apply elem_of_nil in H | done]. }
  split; [done|].
  destruct (indicator_loop_get L T counties indicators [] result_data (fun _ => False) Hcalc
              ltac:(done) indicator (or_intror Hin)) as (d' & Hget' & Hd).
  congruence.
Qed.

(** X9: a county that has no row in one of the two frames gets no entry:
    its cells in the three rows of every indicator read N/A, the cell of
    the year that does have its value included. *)
Theorem county_without_row_reads_NA (L T : Frame) (indicators counties : list string)
    (result_data : list (string * indicator_data)) (indicator county : string)
    (d : indicator_data) (j : nat) :
  calculate_growth_rates L T indicators counties = Some result_data ->
  dict_get indicator result_data = Some d ->
  counties !! j = Some county ->
  rows_where L county = Some [] \/ rows_where T county = Some [] ->
  current_values d !! county = None /\
  previous_values d !! county = None /\
  growth_rates d !! county = None /\
  current_row counties indicator d !! S j = Some "N/A" /\
  previous_row counties d !! S j = Some "N/A" /\
  growth_row counties d !! S j = Some "N/A".
Proof.
  intros Hcalc Hget Hj Hrow.
  destruct (calculate_growth_rates_get L T indicators counties result_data indicator d
              Hcalc Hget) as [_ Hd].
  destruct (county_loop_untouched L T indicator county counties (or_intror Hrow) _ _ Hd)
    as (E1 & E2 & E3).
  cbn in E1, E2, E3. rewrite lookup_empty in E1, E2, E3.
  split; [done|]. split; [done|]. split; [done|].
  unfold current_row, previous_row, growth_row.
  rewrite !lookup_cons, !list_lookup_fmap, Hj. cbn [fmap option_fmap option_map].
  by rewrite E1, E2, E3.
Qed.

Lemma or_zero_notna (x : float) : Py.notna (or_zero x) = true.
Proof. unfold or_zero. by destruct (Py.notna x) eqn:E. Qed.

(** X10: for a county with a row in both frames the two value cells never
    read N/A: an absent value is stored as 0 and reads 0.00, while the
    growth cell is computed from the values as they are. *)
Theorem absent_value_reads_zero (L T : Frame) (indicators counties : list string)
    (result_data : list (string * indicator_data)) (indicator county : string)
    (d : indicator_data) (j : nat) (last_year_row this_year_row : list (list cell)) :
  calculate_growth_rates L T indicators counties = Some result_data ->
  dict_get indicator result_data = Some d ->
  counties !! j = Some county ->
  rows_where L county = Some last_year_row -> last_year_row <> [] ->
  rows_where T county = Some this_year_row -> this_year_row <> [] ->
  exists previous current,
    first_value L last_year_row indicator = Some previous /\
    first_value T this_year_row indicator = Some current /\
    current_row counties indicator d !! S j = Some (Fmt.format_2f (or_zero current)) /\
    previous_row counties d !! S j = Some (Fmt.format_2f (or_zero previous)) /\
    growth_row counties d !! S j = Some (growth_text (Some (growth_rate previous current))) /\
    (Py.isna current = true -> current_row counties indicator d !! S j = Some "0.00") /\
    (Py.isna previous = true -> previous_row counties d !! S j = Some "0.00").
Proof.
  intros Hcalc Hget Hj HL HLn HT HTn.
  destruct (calculate_growth_rates_get L T indicators counties result_data indicator d
              Hcalc Hget) as [_ Hd].
  pose proof (county_loop_records L T indicator counties _ d (fun _ => False) Hd
                ltac:(done) county (or_intror (list_elem_of_lookup_2 _ _ _ Hj))) as Hrec.
  destruct (Hrec _ _ HL HT HLn HTn) as (previous & current & Hp & Hq & E1 & E2 & E3).
  exists previous, current. split; [done|]. split; [done|].
  unfold current_row, previous_row, growth_row.
  rewrite !lookup_cons, !list_lookup_fmap, Hj. cbn [fmap option_fmap option_map].
  rewrite E1, E2, E3. unfold value_text. rewrite !or_zero_notna.
  split; [done|]. split; [done|]. split; [done|]. unfold or_zero, Py.notna, Py.isna.
  split; by intros ->.
Qed.

(** X11: an indicator that does not name exactly one column in one of the
    frames makes [calculate_growth_rates] raise as soon as some county has
    a row in both frames. *)
Theorem missing_indicator_column_raises (L T : Frame) (indicators counties : list string)
    (indicator county : string) (last_year_row this_year_row : list (list cell)) :
  indicator ∈ indicators -> county ∈ counties ->
  rows_where L county = Some last_year_row -> last_year_row <> [] ->
  rows_where T county = Some this_year_row -> this_year_row <> [] ->
  column_index L indicator = None \/ column_index T indicator = None ->
  calculate_growth_rates L T indicators counties = None.
Proof.
  intros Hi Hc HL HLn HT HTn Hcol. unfold calculate_growth_rates.
  apply (foldM_None _ _ indicator Hi). intros acc. unfold indicator_step.
  rewrite (foldM_None _ _ county Hc); [done|].
  intros d. unfold county_step. rewrite HL, HT. cbn [mbind option_bind].
  destruct last_year_row as [|lrow lrows]; [done|].
  destruct this_year_row as [|trow trows]; [done|].
  unfold first_value. destruct Hcol as [-> | ->]; [done|].
  by destruct (column_index L indicator).
Qed.

Lemma county_step_name (L T : Frame) (indicator county : string) (d d' : indicator_data) :
  county_step L T indicator d county = Some d' -> name d' = name d.
Proof.
  unfold county_step. intros H.
  destruct (rows_where L county) as [lrows|]; [|discriminate].
  destruct (rows_where T county) as [trows|]; [|discriminate].
  cbn [mbind option_bind] in H.
  destruct lrows as [|lrow lrows]; [by injection H as <-|].
  destruct trows as [|trow trows]; [by injection H as <-|].
  destruct (first_value L _ indicator) as [lv|]; [|discriminate].
  destruct (first_value T _ indicator) as [tv|]; [|discriminate].
  cbn [mbind option_bind] in H. by injection H as <-.
Qed.

Lemma county_loop_name (L T : Frame) (indicator : string) (counties : list string) :
  forall d d', foldM (county_step L T indicator) d counties = Some d' -> name d' = name d.
Proof.
  induction counties as [|c counties IH]; intros d d' H; [by injection H as <-|].
  cbn [foldM] in H. destruct (county_step L T indicator d c) as [d1|] eqn:E; [|discriminate].
  cbn [mbind option_bind] in H. rewrite (IH _ _ H). by eapply county_step_name.
Qed.

Lemma indicator_loop_keys_eq (L T : Frame) (counties indicators : list string) :
  forall acc result,
    foldM (indicator_step L T counties) acc indicators = Some result ->
    NoDup (acc.*1 ++ indicators) ->
    result.*1 = acc.*1 ++ indicators /\
    (Forall (fun item => name item.2 = item.1) acc ->
     Forall (fun item => name item.2 = item.1) result).
Proof.
  induction indicators as [|a indicators IH]; intros acc result H Hnd.
  - injection H as <-. by rewrite app_nil_r.
  - cbn [foldM] in H.
    destruct (indicator_step L T counties acc a) as [acc1|] eqn:Hstep; [|discriminate].
    cbn [mbind option_bind] in H. unfold indicator_step in Hstep.
    destruct (foldM _ _ counties) as [d|] eqn:Hd; [|discriminate].
    cbn [mbind option_bind] in Hstep. injection Hstep as <-.
    assert (a ∉ acc.*1) as Ha.
    { apply NoDup_app in Hnd as (_ & Hnd & _). intros Hin. apply (Hnd a Hin), list_elem_of_here. }
    assert ((dict_set a d acc).*1 = acc.*1 ++ [a]) as Hkeys
      by (rewrite dict_set_keys; by rewrite decide_False).
    destruct (IH _ _ H) as [E Hname].
    { by rewrite Hkeys, <- app_assoc. }
    split; [by rewrite E, Hkeys, <- app_assoc|].
    intros Hacc. apply Hname.
    assert (name d = a) as Hn by apply (county_loop_name _ _ _ _ _ _ Hd).
    clear -Hacc Hn Ha. induction acc as [|[k v] acc IHa]; simpl.
    + by repeat constructor.
    + apply Forall_cons in Hacc as [Hk Hacc]. rewrite fmap_cons, not_elem_of_cons in Ha.
      destruct Ha as [Hne Ha]. rewrite decide_False by done. constructor; [done | by apply IHa].
Qed.

(** X12: for indicator names that are pairwise distinct, the result holds
    one entry per indicator, under its name and in the order of the list;
    so the comparison table has three rows per indicator in that order,
    the first of each labelled with the name up to its unit. *)
Theorem growth_data_follows_indicators (L T : Frame) (indicators counties : list string)
    (result_data : list (string * indicator_data)) :
  NoDup indicators ->
  calculate_growth_rates L T indicators counties = Some result_data ->
  result_data.*1 = indicators /\
  Forall (fun item => name item.2 = item.1) result_data /\
  length (output_rows result_data counties) = 3 * length indicators /\
  forall k indicator, indicators !! k = Some indicator ->
    exists row, output_rows result_data counties !! (3 * k) = Some row /\
      head row = Some (row_label indicator).
Proof.
  intros Hnd Hcalc.
  destruct (indicator_loop_keys_eq L T counties indicators [] result_data Hcalc Hnd)
    as [Hkeys Hname].
  change ([].*1 ++ indicators) with indicators in Hkeys.
  split; [done|]. split; [by apply Hname|]. split.
  { by rewrite output_rows_length, <- Hkeys, length_fmap. }
  intros k indicator Hk. rewrite <- Hkeys, list_lookup_fmap in Hk.
  destruct (result_data !! k) as [[n d]|] eqn:E; [|done]. injection Hk as ->.
  destruct (output_rows_lookup counties result_data k indicator d E) as (E1 & _).
  by exists (current_row counties indicator d).
Qed.


(** ** The row label *)

Lemma prefix_refl (s : string) : String.prefix s s = true.
Proof. induction s as [|a s IH]; [done|]. simpl. by destruct (ascii_dec a a). Qed.

Lemma prefix_trans (s1 s2 s3 : string) :
  String.prefix s1 s2 = true -> String.prefix s2 s3 = true -> String.prefix s1 s3 = true.
Proof.
  revert s1 s2. induction s3 as [|c s3 IH]; intros s1 s2 H12 H23.
  - destruct s2; [done | discriminate].
  - destruct s1 as [|a s1]; [done|]. destruct s2 as [|b s2]; [done|].
    simpl in *. destruct (ascii_dec a b) as [->|]; [|done].
    destruct (ascii_dec b c) as [->|]; [|done]. by eapply IH.
Qed.

Lemma split_head_prefix (sep s : string) : String.prefix (Py.split_head sep s) s = true.
Proof.
  induction s as [|a s IH]; cbn [Py.split_head].
  - by destruct (String.prefix sep "").
  - destruct (String.prefix sep (String a s)); [done|].
    simpl. by destruct (ascii_dec a a).
Qed.

Lemma split_head_no_sep (sep s : string) :
  sep <> "" -> Py.contains sep (Py.split_head sep s) = false.
Proof.
  intros Hsep.
  assert (String.prefix sep "" = false) as H0 by (by destruct sep).
  induction s as [|a s IH].
  - cbn [Py.split_head]. rewrite H0. cbn [Py.contains]. by rewrite H0.
  - cbn [Py.split_head]. destruct (String.prefix sep (String a s)) eqn:E.
    + cbn [Py.contains]. by rewrite H0.
    + cbn [Py.contains]. rewrite IH, orb_false_r.
      destruct (String.prefix sep (String a (Py.split_head sep s))) eqn:E'; [|done].
      rewrite (prefix_trans sep (String a (Py.split_head sep s)) (String a s)) in E; [done|done|].
      simpl. destruct (ascii_dec a a); [apply split_head_prefix | done].
Qed.

(** X14: the label of an indicator's first row is the beginning of its
    name and holds no full-width opening parenthesis; a name without one is
    the label as it is.  A name that starts with the parenthesis gets the
    empty label, the text after a first unit is dropped as well, and an
    ASCII parenthesis does not start a unit. *)
Theorem row_label_is_name_before_unit :
  (forall indicator_name : string,
     String.prefix (row_label indicator_name) indicator_name = true /\
     Py.contains "（" (row_label indicator_name) = false /\
     (Py.contains "（" indicator_name = false -> row_label indicator_name = indicator_name)) /\
  row_label "销量（件）" = "销量" /\
  row_label "（件）销量" = "" /\
  row_label "销量（件）合计（万）" = "销量" /\
  row_label "销量(件)" = "销量(件)".
Proof.
  split; [|by repeat split].
  intros s. unfold row_label. destruct (Py.contains "（" s) eqn:E.
  - split; [apply split_head_prefix|]. split; [by apply split_head_no_sep | done].
  - split; [apply prefix_refl|]. by split.
Qed.

(** ** From the extracted frames to the comparison *)

Lemma singleton_list {A : Type} (l : list A) (j : A) :
  NoDup l -> j ∈ l -> (forall x, x ∈ l -> x = j) -> l = [j].
Proof.
  intros Hnd Hj Hall. destruct l as [|x l]; [by apply elem_of_nil in Hj|].
  rewrite (Hall x) by apply list_elem_of_here. f_equal.
  destruct l as [|y l]; [done|]. exfalso.
  apply NoDup_cons in Hnd as [Hx _]. apply Hx.
  rewrite (Hall x), <- (Hall y); [apply list_elem_of_here| |apply list_elem_of_here].
  apply list_elem_of_further, list_elem_of_here.
Qed.

(** A label at exactly one position names that column. *)
Lemma column_index_unique (df : Frame) (label : string) (j : nat) :
  (forall k, columns df !! k = Some label <-> k = j) -> column_index df label = Some j.
Proof.
  intros H. unfold column_index.
  rewrite (singleton_list (label_positions df label) j); [done| | |].
  - unfold label_positions. apply NoDup_ListNoDup, List.NoDup_filter, List.seq_NoDup.
  - apply label_positions_elem. by apply H.
  - intros k Hk. apply label_positions_elem in Hk. by apply H.
Qed.

Lemma column_index_NoDup (df : Frame) (label : string) :
  NoDup (columns df) -> label ∈ columns df -> is_Some (column_index df label).
Proof.
  intros Hnd Hin. apply list_elem_of_lookup in Hin as [j Hj]. exists j.
  apply column_index_unique. intros k. split; [|by intros ->].
  intros Hk. by eapply NoDup_lookup.
Qed.

(** The frame a successful call returns, read off the sheet. *)
Lemma process_excel_file_frame (df_input : RawTable) (save : io unit)
    (input_path output_path city_filter file_type_label : string) (status_var log_func : bool)
    (df_output : Frame) (indicators : list string) (ev : list event) :
  process_excel_file (Done df_input) save input_path output_path city_filter file_type_label
    status_var log_func = ((Some df_output, indicators), ev) ->
  indicators = (extract_indicators_from_template df_input 1).1 /\
  columns df_output = OUTPUT_CITY_COL_NAME :: OUTPUT_COUNTY_COL_NAME :: indicators /\
  body df_output
  = (fun row_idx =>
       row_data df_input city_filter (county_name_of df_input row_idx)
         (extract_indicators_from_template df_input 1).2 row_idx)
      <$> List.filter (collected df_input city_filter) (seq 0 (shape0 df_input)).
Proof.
  intros H. apply process_excel_file_success in H as (df & [= <-] & Hi & Hc & Hb & _).
  split; [done|]. split; [done|]. by rewrite Hb, scan_rows_collected.
Qed.

Lemma extract_of_extracted_frame (df_input : RawTable) (save : io unit)
    (input_path output_path city_filter file_type_label : string) (status_var log_func : bool)
    (df_last_year df_this_year : Frame) (indicators : list string) (ev : list event) :
  process_excel_file (Done df_input) save input_path output_path city_filter file_type_label
    status_var log_func = ((Some df_last_year, indicators), ev) ->
  OUTPUT_COUNTY_COL_NAME ∉ indicators ->
  extract_indicators_and_counties df_last_year df_this_year
  = Some (filter (fun col => col ∉ [OUTPUT_CITY_COL_NAME; OUTPUT_COUNTY_COL_NAME]) indicators,
          county_name_of df_input
            <$> List.filter (collected df_input city_filter) (seq 0 (shape0 df_input))).
Proof.
  intros H Hout. apply process_excel_file_frame in H as (_ & Hcols & Hbody).
  unfold extract_indicators_and_counties, get_column.
  rewrite (column_index_unique df_last_year OUTPUT_COUNTY_COL_NAME 1).
  2:{ intros k. rewrite Hcols. destruct k as [|[|k]]; simpl; [done|done|].
      split; [|lia]. intros Hk. destruct Hout. by eapply list_elem_of_lookup_2. }
  cbn [mbind option_bind]. rewrite Hbody, <- list_fmap_compose.
  assert (mapM cell_text
            ((fun row => cell_at row 1) ∘ (fun row_idx =>
               row_data df_input city_filter (county_name_of df_input row_idx)
                 (extract_indicators_from_template df_input 1).2 row_idx)
             <$> List.filter (collected df_input city_filter) (seq 0 (shape0 df_input)))
          = Some (county_name_of df_input
                    <$> List.filter (collected df_input city_filter)
                          (seq 0 (shape0 df_input)))) as ->.
  { apply mapM_Some. generalize (List.filter (collected df_input city_filter)
                                   (seq 0 (shape0 df_input))).
    intros l. induction l as [|i l IH]; [constructor|].
    rewrite !fmap_cons. by constructor. }
  cbn [mbind option_bind]. by rewrite Hcols.
Qed.

(** X15: on the frame [process_excel_file] returns,
    [extract_indicators_and_counties] gives the indicators of the sheet
    without those named like one of the two fixed columns, and the
    stripped county names of the collected rows in the order of the sheet,
    repetitions included.  An indicator named like the county column makes
    it raise. *)
Theorem indicators_and_counties_of_extracted_frame (df_input : RawTable) (save : io unit)
    (input_path output_path city_filter file_type_label : string) (status_var log_func : bool)
    (df_last_year df_this_year : Frame) (indicators : list string) (ev : list event) :
  process_excel_file (Done df_input) save input_path output_path city_filter file_type_label
    status_var log_func = ((Some df_last_year, indicators), ev) ->
  (OUTPUT_COUNTY_COL_NAME ∉ indicators ->
   extract_indicators_and_counties df_last_year df_this_year
   = Some (filter (fun col => col ∉ [OUTPUT_CITY_COL_NAME; OUTPUT_COUNTY_COL_NAME]) indicators,
           county_name_of df_input
             <$> List.filter (collected df_input city_filter) (seq 0 (shape0 df_input)))) /\
  (OUTPUT_COUNTY_COL_NAME ∈ indicators ->
   extract_indicators_and_counties df_last_year df_this_year = None).
Proof.
  intros H. split.
  - by eapply extract_of_extracted_frame.
  - apply process_excel_file_frame in H as (_ & Hcols & Hbody).
    intros Hin. unfold extract_indicators_and_counties, get_column.
    destruct (column_index df_last_year OUTPUT_COUNTY_COL_NAME) as [j|] eqn:Hj; [|done].
    exfalso. pose proof (column_index_Some _ _ _ Hj) as Hu.
    apply list_elem_of_lookup in Hin as [k Hk].
    assert (1 = j) as <- by (apply Hu; by rewrite Hcols).
    assert (S (S k) = 1) by (apply Hu; by rewrite Hcols). lia.
Qed.

(** ** When a run completes *)

Lemma invert_column_total (df : Frame) (indicator : string) :
  NoDup (columns df) -> is_Some (invert_column df indicator).
Proof.
  intros Hnd. unfold invert_column. case_bool_decide as Hin; [|by eexists].
  destruct (column_index_NoDup df indicator Hnd Hin) as [j Hj].
  unfold get_column, set_column. rewrite Hj. cbn [mbind option_bind].
  rewrite (column_index_columns df) by done. rewrite Hj. cbn [mbind option_bind].
  by eexists.
Qed.

Lemma invert_negative_indicators_total (negative_indicators : list string) :
  forall df_this_year df_last_year,
    NoDup (columns df_this_year) -> NoDup (columns df_last_year) ->
    is_Some (invert_negative_indicators negative_indicators df_this_year df_last_year).
Proof.
  unfold invert_negative_indicators.
  induction negative_indicators as [|a l IH]; intros T L HT HL; [by eexists|].
  cbn [foldM invert_step].
  destruct (invert_column_total T a HT) as [T1 ET].
  destruct (invert_column_total L a HL) as [L1 EL].
  rewrite ET, EL. cbn [mbind option_bind].
  apply invert_column_spec in ET as ->. apply invert_column_spec in EL as ->.
  by apply IH.
Qed.

(** X16: a run on two files that both yield a frame completes when the
    column labels of each frame are pairwise distinct, every indicator of
    the prior year is an indicator of the current year and the comparison
    can be saved, whatever the operator ticks.  The result holds the
    indicators of the prior year in their order, and the table has a
    column per collected county row and three rows per indicator. *)
Theorem well_formed_run_completes (df_last df_this : RawTable) (save_last save_this : io unit)
    (last_year_path current_year_path output_dir_path : string) (d : dialog)
    (df_last_year df_this_year : Frame) (inds_last inds_this : list string)
    (ev_last ev_this : list event) :
  process_excel_file (Done df_last) save_last last_year_path
    (path_join output_dir_path "忻州_指标数据_去年.xlsx") CITY "去年" true true
  = ((Some df_last_year, inds_last), ev_last) ->
  process_excel_file (Done df_this) save_this current_year_path
    (path_join output_dir_path "忻州_指标数据_今年.xlsx") CITY "今年" true true
  = ((Some df_this_year, inds_this), ev_this) ->
  NoDup (OUTPUT_CITY_COL_NAME :: OUTPUT_COUNTY_COL_NAME :: inds_last) ->
  NoDup (OUTPUT_CITY_COL_NAME :: OUTPUT_COUNTY_COL_NAME :: inds_this) ->
  (forall i, i ∈ inds_last -> i ∈ inds_this) ->
  exists result_data df_output ev,
    run_processing (Done df_last) (Done df_this) save_last save_this (Done tt)
      last_year_path current_year_path output_dir_path d
    = (Completed result_data df_output, ev) /\
    result_data.*1 = inds_last /\
    columns df_output
    = "指标名称" :: (county_name_of df_last
                       <$> List.filter (collected df_last CITY) (seq 0 (shape0 df_last))) /\
    length (body df_output) = 3 * length inds_last.
Proof.
  intros P1 P2 N1 N2 Hsub.
  destruct (process_excel_file_frame _ _ _ _ _ _ _ _ _ _ _ P1) as (_ & C1 & _).
  destruct (process_excel_file_frame _ _ _ _ _ _ _ _ _ _ _ P2) as (_ & C2 & _).
  assert ((OUTPUT_CITY_COL_NAME ∉ inds_last) /\ (OUTPUT_COUNTY_COL_NAME ∉ inds_last) /\
          NoDup inds_last) as (Hcity & Hcounty & Hnd).
  { apply NoDup_cons in N1 as [Ha N1]. apply NoDup_cons in N1 as [Hb N1].
    split; [|done]. intros Hin. apply Ha. by apply list_elem_of_further. }
  pose proof (extract_of_extracted_frame _ _ _ _ _ _ _ _ _ df_this_year _ _ P1 Hcounty) as E.
  assert (filter (fun col => col ∉ [OUTPUT_CITY_COL_NAME; OUTPUT_COUNTY_COL_NAME]) inds_last
          = inds_last) as Hf.
  { clear -Hcity Hcounty. induction inds_last as [|a l IH]; [done|].
    rewrite not_elem_of_cons in Hcity, Hcounty.
    destruct Hcity as [? Hcity], Hcounty as [? Hcounty].
    rewrite filter_cons, decide_True.
    - by rewrite IH.
    - rewrite !not_elem_of_cons. split; [done|]. split; [done | apply not_elem_of_nil]. }
  rewrite Hf in E.
  set (counties := county_name_of df_last
                     <$> List.filter (collected df_last CITY) (seq 0 (shape0 df_last))) in *.
  set (selected := select_negative_indicators inds_last d).
  rewrite <- C1 in N1. rewrite <- C2 in N2.
  destruct (invert_negative_indicators_total selected df_this_year df_last_year N2 N1)
    as [[T' L'] I].
  destruct (invert_loop_spec selected (select_NoDup inds_last d) _ _ _ _ I) as [ET EL].
  destruct (calculate_growth_rates_total L' T' inds_last counties) as [result_data C].
  { subst L'. apply column_index_NoDup; [done|]. cbn [negate_selected columns]. rewrite C1.
    apply list_elem_of_further, list_elem_of_here. }
  { subst T'. apply column_index_NoDup; [done|]. cbn [negate_selected columns]. rewrite C2.
    apply list_elem_of_further, list_elem_of_here. }
  { intros i Hi. subst L' T'. split; (apply column_index_NoDup; [done|]);
      cbn [negate_selected columns]; rewrite ?C1, ?C2; do 2 apply list_elem_of_further;
      [done | by apply Hsub]. }
  exists result_data, {| columns := "指标名称" :: counties;
                         body := (fun row : list string => CStr <$> row)
                                   <$> output_rows result_data counties |}.
  eexists. split.
  - unfold run_processing. rewrite P1, P2, E. fold selected. rewrite I, C.
    rewrite generate_output_table_spec. reflexivity.
  - destruct (indicator_loop_keys_eq L' T' counties inds_last [] result_data C Hnd)
      as [Hkeys _].
    change ([].*1 ++ inds_last) with inds_last in Hkeys.
    split; [done|]. split; [done|]. cbn [body].
    by rewrite length_fmap, output_rows_length, <- Hkeys, length_fmap.
Qed.

Lemma column_index_absent (df : Frame) (label : string) :
  label ∉ columns df -> column_index df label = None.
Proof.
  intros Hout. unfold column_index, label_positions.
  rewrite filter_nil_false; [done|]. intros j _.
  apply bool_decide_eq_false_2. intros Hj. apply Hout. by eapply list_elem_of_lookup_2.
Qed.

Lemma filter_nonempty {A : Type} (P : A -> bool) (l : list A) (x : A) :
  x ∈ l -> P x = true -> List.filter P l <> [].
Proof.
  intros Hx HP E. assert (In x (List.filter P l)) as Hin.
  { apply List.filter_In. split; [by apply list_elem_of_In | done]. }
  rewrite E in Hin. destruct Hin.
Qed.

(** A collected row of the sheet is a row of the frame under its county. *)
Lemma rows_where_extracted_frame (df_input : RawTable) (save : io unit)
    (input_path output_path city_filter file_type_label : string) (status_var log_func : bool)
    (df_output : Frame) (indicators : list string) (ev : list event) (row_idx : nat)
    (rows : list (list cell)) :
  process_excel_file (Done df_input) save input_path output_path city_filter file_type_label
    status_var log_func = ((Some df_output, indicators), ev) ->
  row_idx < shape0 df_input -> collected df_input city_filter row_idx = true ->
  rows_where df_output (county_name_of df_input row_idx) = Some rows ->
  rows <> [].
Proof.
  intros H Hlt Hc. apply process_excel_file_frame in H as (_ & Hcols & Hbody).
  unfold rows_where.
  destruct (column_index df_output OUTPUT_COUNTY_COL_NAME) as [j|] eqn:Hj; [|done].
  assert (1 = j) as <- by (apply (column_index_Some _ _ _ Hj); by rewrite Hcols).
  cbn [mbind option_bind]. intros [= <-].
  apply (filter_nonempty _ _
           (row_data df_input city_filter (county_name_of df_input row_idx)
              (extract_indicators_from_template df_input 1).2 row_idx)).
  - rewrite Hbody. apply list_elem_of_fmap. exists row_idx. split; [done|].
    apply list_elem_of_In, List.filter_In. split; [apply List.in_seq; lia | done].
  - cbn. by apply bool_decide_eq_true_2.
Qed.

(** X17: the run does not check that the two files have the same
    indicators.  When the prior-year sheet has an indicator that the
    current-year sheet lacks, and some county is collected from both
    sheets, the run raises: the two year files have been written by then,
    and nothing else is. *)
Theorem mismatched_indicators_crash_the_run (df_last df_this : RawTable)
    (save_last save_this save_comparison : io unit)
    (last_year_path current_year_path output_dir_path : string) (d : dialog)
    (df_last_year df_this_year : Frame) (inds_last inds_this : list string)
    (ev_last ev_this : list event) (indicator : string) (r1 r2 : nat) :
  process_excel_file (Done df_last) save_last last_year_path
    (path_join output_dir_path "忻州_指标数据_去年.xlsx") CITY "去年" true true
  = ((Some df_last_year, inds_last), ev_last) ->
  process_excel_file (Done df_this) save_this current_year_path
    (path_join output_dir_path "忻州_指标数据_今年.xlsx") CITY "今年" true true
  = ((Some df_this_year, inds_this), ev_this) ->
  indicator ∈ inds_last -> indicator ∉ inds_this ->
  indicator <> OUTPUT_CITY_COL_NAME -> indicator <> OUTPUT_COUNTY_COL_NAME ->
  r1 < shape0 df_last -> collected df_last CITY r1 = true ->
  r2 < shape0 df_this -> collected df_this CITY r2 = true ->
  county_name_of df_last r1 = county_name_of df_this r2 ->
  let r := run_processing (Done df_last) (Done df_this) save_last save_this save_comparison
             last_year_path current_year_path output_dir_path d in
  r.1 = Crashed /\
  forall path df,
    SaveExcel path df ∈ r.2 <->
    (path = path_join output_dir_path "忻州_指标数据_去年.xlsx" /\ df = df_last_year) \/
    (path = path_join output_dir_path "忻州_指标数据_今年.xlsx" /\ df = df_this_year).
Proof.
  intros P1 P2 Hi Hni Hcity Hcounty Hr1 Hc1 Hr2 Hc2 Hsame. cbv zeta.
  pose proof (process_excel_file_frame _ _ _ _ _ _ _ _ _ _ _ P1) as (_ & C1 & B1).
  pose proof (process_excel_file_frame _ _ _ _ _ _ _ _ _ _ _ P2) as (_ & C2 & B2).
  assert (Hcrash : forall pre mid post : list event,
            Forall is_notice pre -> Forall is_notice mid -> Forall is_notice post ->
            let r := (Crashed, pre ++ ev_last ++ mid ++ ev_this ++ post) in
            r.1 = Crashed /\
            forall path df,
              SaveExcel path df ∈ r.2 <->
              (path = path_join output_dir_path "忻州_指标数据_去年.xlsx" /\ df = df_last_year) \/
              (path = path_join output_dir_path "忻州_指标数据_今年.xlsx" /\ df = df_this_year)).
  { intros pre mid post Hpre Hmid Hpost. cbv zeta. cbn [fst snd]. split; [done|].
    intros path df.
    pose proof (process_excel_file_saves (Done df_last) save_last last_year_path
                  (path_join output_dir_path "忻州_指标数据_去年.xlsx") CITY "去年" true true
                  path df) as S1.
    pose proof (process_excel_file_saves (Done df_this) save_this current_year_path
                  (path_join output_dir_path "忻州_指标数据_今年.xlsx") CITY "今年" true true
                  path df) as S2.
    cbv zeta in S1, S2. rewrite P1 in S1. rewrite P2 in S2. cbn [fst snd] in S1, S2.
    assert (forall l, Forall is_notice l -> SaveExcel path df ∉ l) as Hno.
    { intros l Hl Hin. rewrite Forall_forall in Hl. apply (Hl _ Hin). }
    rewrite !elem_of_app, S1, S2. split.
    - intros [H|[[-> [= <-]]|[H|[[-> [= <-]]|H]]]]; try (by apply Hno in H);
        [by left | by right].
    - intros [[-> ->]|[-> ->]]; [right; by left | do 3 right; by left]. }
  assert (Hup : forall msg, Forall is_notice (update_progress msg))
    by (intros msg; repeat constructor).
  unfold run_processing. rewrite P1, P2. cbn [fst snd].
  destruct (extract_indicators_and_counties df_last_year df_this_year)
    as [[indicators counties]|] eqn:E.
  2:{ rewrite <- !app_assoc. apply Hcrash; auto. }
  pose proof (extract_indicators_and_counties_spec _ _ _ _ E) as (Hinds & j & Hj & Hcol).
  assert (1 = j) as <- by (apply (column_index_Some _ _ _ Hj); by rewrite C1).
  assert (indicator ∈ indicators) as Hin.
  { rewrite Hinds, C1. apply list_elem_of_filter. split.
    - rewrite !not_elem_of_cons. split; [done|]. split; [done | apply not_elem_of_nil].
    - by do 2 apply list_elem_of_further. }
  assert (county_name_of df_last r1 ∈ counties) as Hcin.
  { assert (CStr (county_name_of df_last r1) ∈ CStr <$> counties) as H.
    { rewrite <- Hcol, B1, <- list_fmap_compose. apply list_elem_of_fmap. exists r1.
      split; [done|]. apply list_elem_of_In, List.filter_In.
      split; [apply List.in_seq; lia | done]. }
    apply list_elem_of_fmap in H as (c & [= ->] & H). done. }
  set (selected := select_negative_indicators indicators d).
  assert (OUTPUT_COUNTY_COL_NAME ∉ selected) as Hout.
  { intros H. apply select_subset in H. rewrite Hinds in H.
    apply list_elem_of_filter in H as [H _]. apply H.
    apply list_elem_of_further, list_elem_of_here. }
  destruct (invert_negative_indicators selected df_this_year df_last_year)
    as [[T' L']|] eqn:I.
  2:{ rewrite <- !app_assoc. apply Hcrash; auto.
      repeat (apply Forall_app_2 || apply Hup); repeat constructor. }
  destruct (invert_loop_spec selected (select_NoDup indicators d) _ _ _ _ I) as [-> ->].
  assert (calculate_growth_rates (negate_selected selected df_last_year)
            (negate_selected selected df_this_year) indicators counties = None) as C.
  { unfold calculate_growth_rates. apply (foldM_None _ _ indicator Hin). intros acc.
    unfold indicator_step.
    rewrite (foldM_None _ _ (county_name_of df_last r1) Hcin); [done|].
    intros d0. unfold county_step. rewrite !rows_where_negate_selected by done.
    destruct (rows_where df_last_year (county_name_of df_last r1)) as [lrows|] eqn:RL; [|done].
    destruct (rows_where df_this_year (county_name_of df_last r1)) as [trows|] eqn:RT; [|done].
    pose proof (rows_where_extracted_frame _ _ _ _ _ _ _ _ _ _ _ r1 lrows P1 Hr1 Hc1 RL) as NL.
    rewrite Hsame in RT.
    pose proof (rows_where_extracted_frame _ _ _ _ _ _ _ _ _ _ _ r2 trows P2 Hr2 Hc2 RT) as NT.
    cbn [mbind option_bind fmap option_fmap option_map].
    destruct lrows as [|lrow lrows]; [done|]. destruct trows as [|trow trows]; [done|].
    rewrite !first_value_negate_selected, !fmap_cons. cbv iota.
    assert (first_value df_this_year (trow :: trows) indicator = None) as ->.
    { unfold first_value. rewrite column_index_absent; [done|].
      rewrite C2, !not_elem_of_cons. auto. }
    by destruct (first_value df_last_year (lrow :: lrows) indicator). }
  rewrite C. rewrite <- !app_assoc. apply Hcrash; auto.
  repeat (apply Forall_app_2 || apply Hup); repeat constructor.
Qed.

(** ** More on the selection *)

Lemma last_occurrence (l : list string) (x : string) :
  x ∈ l -> exists i, l !! i = Some x /\ forall k, i < k -> l !! k <> Some x.
Proof.
  induction l as [|a l IH]; intros Hx; [by apply elem_of_nil in Hx|].
  destruct (decide (x ∈ l)) as [Hin|Hout].
  - destruct (IH Hin) as (i & Hi & Hlast). exists (S i). split; [done|].
    intros [|k] Hk; [lia|]. apply Hlast. lia.
  - apply elem_of_cons in Hx as [->|Hx]; [|done]. exists 0. split; [done|].
    intros [|k] Hk Hl; [lia|]. apply Hout. by eapply list_elem_of_lookup_2.
Qed.

(** The variable kept for a name is the one of its last box. *)
Lemma indicator_vars_get (indicators : list string) (ticks : list bool) (x : string) (i : nat) :
  indicators !! i = Some x ->
  (forall k, i < k -> indicators !! k <> Some x) ->
  dict_get x (indicator_vars indicators ticks) = Some (default false (ticks !! i)).
Proof.
  revert i. induction indicators as [|a indicators IH] using rev_ind; intros i Hi Hlast.
  - done.
  - rewrite indicator_vars_snoc. destruct (decide (i = length indicators)) as [->|Hne].
    + rewrite lookup_app_r, Nat.sub_diag in Hi by lia. injection Hi as ->.
      by rewrite dict_get_set_eq.
    + assert (i < length indicators) as Hlt.
      { apply lookup_lt_Some in Hi. rewrite length_app in Hi. simpl in Hi. lia. }
      rewrite lookup_app_l in Hi by done.
      assert (a <> x) as Hax.
      { intros ->. apply (Hlast (length indicators)); [lia|].
        by rewrite lookup_app_r, Nat.sub_diag by lia. }
      rewrite dict_get_set_ne by done. apply IH; [done|].
      intros k Hk Hl. apply (Hlast k Hk). rewrite lookup_app_l; [done|].
      by eapply lookup_lt_Some.
Qed.

Lemma dict_get_elem_NoDup {V : Type} (k : string) (v : V) (d : list (string * V)) :
  NoDup d.*1 -> (k, v) ∈ d -> dict_get k d = Some v.
Proof.
  induction d as [|[k' v'] d IH]; intros Hnd Hin; [by apply elem_of_nil in Hin|].
  rewrite fmap_cons in Hnd. apply NoDup_cons in Hnd as [Hk' Hnd]. simpl.
  apply elem_of_cons in Hin as [[= -> ->]|Hin]; [by rewrite decide_True|].
  rewrite decide_False; [by apply IH|]. intros ->. apply Hk'.
  apply list_elem_of_fmap. by exists (k', v).
Qed.

(** X18: a name is selected exactly when the box of its last occurrence in
    the indicator list is ticked; the boxes of earlier occurrences of the
    same name do not count.  Closing the dialog selects nothing. *)
Theorem selection_reads_last_box :
  (forall (indicators : list string) (ticks : list bool) (x : string),
     x ∈ select_negative_indicators indicators (Confirmed ticks) <->
     exists i, indicators !! i = Some x /\
       (forall k, i < k -> indicators !! k <> Some x) /\ ticks !! i = Some true) /\
  (forall indicators : list string, select_negative_indicators indicators Closed = []) /\
  select_negative_indicators ["a"; "b"; "a"] (Confirmed [true; true; false]) = ["b"] /\
  select_negative_indicators ["a"; "b"; "a"] (Confirmed [false; true; true]) = ["a"; "b"].
Proof.
  split; [|by repeat split].
  intros indicators ticks x. cbn [select_negative_indicators]. rewrite on_confirm_spec. split.
  - intros H. apply list_elem_of_fmap in H as ([k v] & -> & Hp).
    apply list_elem_of_filter in Hp as [Hv Hp]. cbn in Hv. subst v. cbn [fst].
    assert (k ∈ indicators) as Hk.
    { apply (indicator_vars_keys indicators ticks), list_elem_of_fmap. by exists (k, true). }
    destruct (last_occurrence indicators k Hk) as (i & Hi & Hlast).
    exists i. split; [done|]. split; [done|].
    pose proof (indicator_vars_get indicators ticks k i Hi Hlast) as G.
    rewrite (dict_get_elem_NoDup k true _ (indicator_vars_NoDup indicators ticks) Hp) in G.
    injection G as G. by destruct (ticks !! i) as [[]|].
  - intros (i & Hi & Hlast & Ht).
    pose proof (indicator_vars_get indicators ticks x i Hi Hlast) as G. rewrite Ht in G.
    apply list_elem_of_fmap. exists (x, true). split; [done|].
    apply list_elem_of_filter. split; [done|]. by apply dict_get_Some_elem.
Qed.

(** ** The checks on the form *)

Lemma nonempty_true (s : string) : nonempty s = true <-> s <> "".
Proof.
  unfold nonempty. rewrite negb_true_iff. split.
  - intros H ->. by rewrite String.eqb_refl in H.
  - intros H. by apply String.eqb_neq.
Qed.

(** X19: a run starts only when the number of rows to skip reads as an
    integer that is not negative, the output directory is given and
    exists, and both input files are given.  Otherwise the operator sees
    one error dialog (and at most a status line), there is no result, and
    nothing depends on the files; with exactly one input file the dialog
    asks for both. *)
Theorem form_is_checked_before_the_run (read_excel : string -> Z -> io RawTable)
    (save_last save_this save_comparison : io unit)
    (last_year_path current_year_path output_dir_path skip_rows : string) (d : dialog) :
  let r := run_from_form read_excel save_last save_this save_comparison
             last_year_path current_year_path output_dir_path skip_rows d in
  let accepted (n : Z) :=
    int_of_text skip_rows = Some n /\ (0 <= n)%Z /\
    output_dir_path <> "" /\ isdir output_dir_path = true /\
    last_year_path <> "" /\ current_year_path <> "" in
  (forall n, accepted n ->
     r = (Some (run_processing (read_excel last_year_path n) (read_excel current_year_path n)
                  save_last save_this save_comparison
                  last_year_path current_year_path output_dir_path d).1,
          (run_processing (read_excel last_year_path n) (read_excel current_year_path n)
             save_last save_this save_comparison
             last_year_path current_year_path output_dir_path d).2)) /\
  ((forall n, ~ accepted n) ->
   r.1 = None /\
   (forall read_excel' save_last' save_this' save_comparison' d',
      run_from_form read_excel' save_last' save_this' save_comparison'
        last_year_path current_year_path output_dir_path skip_rows d' = r) /\
   exists title msg,
     r.2 = [ShowError title msg] \/ exists status, r.2 = [ShowError title msg; SetStatus status]) /\
  (forall n, int_of_text skip_rows = Some n -> (0 <= n)%Z -> output_dir_path <> "" ->
     isdir output_dir_path = true ->
     (last_year_path = "" /\ current_year_path <> "") \/
     (last_year_path <> "" /\ current_year_path = "") ->
     r = (None, [ShowError "输入错误" "需要同时选择去年和今年的数据文件才能计算增幅。";
                 SetStatus "错误: 请同时选择去年和今年的数据文件。"])).
Proof.
  cbv zeta. unfold run_from_form, check_form. split; [|split].
  - intros n (Hn & H0 & Ho & Hd & Hl & Hc). rewrite Hn.
    apply Z.ltb_ge in H0. rewrite H0.
    apply nonempty_true in Ho, Hl, Hc. rewrite Ho, Hd, Hl, Hc. simpl.
    by destruct (run_processing _ _ _ _ _ _ _ _ _).
  - intros Hrej.
    destruct (int_of_text skip_rows) as [n|] eqn:Hn.
    2:{ split; [done|]. split; [by intros|]. eexists _, _. by left. }
    destruct (n <? 0)%Z eqn:H0.
    { split; [done|]. split; [by intros|]. eexists _, _. by left. }
    destruct (nonempty output_dir_path) eqn:Ho; simpl.
    2:{ split; [done|]. split; [by intros|]. eexists _, _. right. by eexists. }
    destruct (isdir output_dir_path) eqn:Hd; simpl.
    2:{ split; [done|]. split; [by intros|]. eexists _, _. right. by eexists. }
    destruct (nonempty last_year_path) eqn:Hl, (nonempty current_year_path) eqn:Hc; simpl.
    + exfalso. apply (Hrej n). apply Z.ltb_ge in H0.
      by rewrite <- !nonempty_true.
    + split; [done|]. split; [by intros|]. eexists _, _. right. by eexists.
    + split; [done|]. split; [by intros|]. eexists _, _. right. by eexists.
    + split; [done|]. split; [by intros|]. eexists _, _. right. by eexists.
  - intros n Hn H0 Ho Hd Hone. rewrite Hn. apply Z.ltb_ge in H0. rewrite H0.
    apply nonempty_true in Ho. rewrite Ho, Hd. simpl.
    destruct Hone as [[-> Hc]|[Hl ->]].
    + apply nonempty_true in Hc. by rewrite Hc.
    + apply nonempty_true in Hl. by rewrite Hl.
Qed.

(** ** The styling of the comparison sheet *)

Lemma range_unit (start stop : nat) : Py.range start stop 1 = seq start (stop - start).
Proof.
  unfold Py.range. change (1 - 1) with 0. rewrite Nat.add_0_r, Nat.div_1_r.
  transitivity (Nat.add start <$> seq 0 (stop - start)).
  - apply list_fmap_ext. intros _ k _. lia.
  - by rewrite fmap_add_seq, Nat.add_0_r.
Qed.

Lemma restyle_row_loop (row : nat) (cols : list nat) :
  NoDup cols ->
  forall ws,
    row <= max_row ws -> (forall c, c ∈ cols -> c <= max_column ws) ->
    let ws' := fold_left
                 (fun ws col => set_cell_style ws row col (restyle row (cell_style ws row col)))
                 cols ws in
    max_row ws' = max_row ws /\ max_column ws' = max_column ws /\
    column_widths ws' = column_widths ws /\
    forall r c,
      cells ws' !! (r, c)
      = if bool_decide (r = row /\ c ∈ cols)
        then Some (restyle row (cell_style ws row c))
        else cells ws !! (r, c).
Proof.
  induction 1 as [|col cols Hcol Hnd IH]; intros ws Hrow Hcols; cbv zeta.
  - split; [done|]. split; [done|]. split; [done|]. intros r c.
    rewrite bool_decide_eq_false_2; [done|]. intros [_ Hc]. by apply elem_of_nil in Hc.
  - cbn [fold_left].
    set (ws1 := set_cell_style ws row col (restyle row (cell_style ws row col))).
    assert (max_row ws1 = max_row ws) as M1 by (cbn; lia).
    assert (max_column ws1 = max_column ws) as M2.
    { cbn. pose proof (Hcols col (list_elem_of_here _ _)). lia. }
    destruct (IH ws1) as (R1 & R2 & R3 & R4).
    { by rewrite M1. }
    { intros c Hc. rewrite M2. by apply Hcols, list_elem_of_further. }
    split; [by rewrite R1|]. split; [by rewrite R2|]. split; [by rewrite R3|].
    intros r c. rewrite R4.
    assert (forall c', c' <> col -> cell_style ws1 row c' = cell_style ws row c') as Hother.
    { intros c' Hc'. unfold cell_style. cbn [ws1 set_cell_style cells].
      rewrite lookup_insert_ne; [done|]. intros [= E]. by apply Hc'. }
    destruct (decide (r = row /\ c ∈ cols)) as [[-> Hc]|Hn].
    + assert (c <> col) as Hne by (by intros ->).
      rewrite !bool_decide_eq_true_2;
        [|split; [done | by apply list_elem_of_further] | done].
      by rewrite Hother.
    + rewrite (bool_decide_eq_false_2 (r = row /\ c ∈ cols)) by done.
      cbn [ws1 set_cell_style cells].
      destruct (decide (r = row /\ c = col)) as [[-> ->]|Hne].
      * rewrite lookup_insert_eq, bool_decide_eq_true_2; [done|].
        split; [done | apply list_elem_of_here].
      * rewrite lookup_insert_ne by (intros [= E1 E2]; by apply Hne).
        rewrite bool_decide_eq_false_2; [done|].
        intros [-> Hc]. apply elem_of_cons in Hc as [->|Hc]; [by apply Hne | by apply Hn].
Qed.

Lemma restyle_loop (rows : list nat) (width : nat) :
  NoDup rows ->
  forall ws,
    max_column ws = width ->
    (forall r, r ∈ rows -> r <= max_row ws) ->
    let ws' := fold_left
                 (fun ws row =>
                    fold_left
                      (fun ws col =>
                         set_cell_style ws row col (restyle row (cell_style ws row col)))
                      (Py.range 1 (max_column ws + 1) 1) ws)
                 rows ws in
    max_row ws' = max_row ws /\ max_column ws' = max_column ws /\
    column_widths ws' = column_widths ws /\
    forall r c,
      cells ws' !! (r, c)
      = if bool_decide (r ∈ rows /\ 1 <= c <= width)
        then Some (restyle r (cell_style ws r c))
        else cells ws !! (r, c).
Proof.
  induction 1 as [|row rows Hrow Hnd IH]; intros ws Hw Hrows; cbv zeta.
  - split; [done|]. split; [done|]. split; [done|]. intros r c.
    rewrite bool_decide_eq_false_2; [done|]. intros [Hr _]. by apply elem_of_nil in Hr.
  - cbn [fold_left].
    destruct (restyle_row_loop row (Py.range 1 (max_column ws + 1) 1)) with (ws := ws)
      as (S1 & S2 & S3 & S4).
    { rewrite range_unit. apply NoDup_seq. }
    { apply Hrows, list_elem_of_here. }
    { intros c Hc. rewrite range_unit in Hc. apply elem_of_seq in Hc. lia. }
    set (ws1 := fold_left _ (Py.range 1 (max_column ws + 1) 1) ws) in *.
    destruct (IH ws1) as (R1 & R2 & R3 & R4).
    { by rewrite S2. }
    { intros r Hr. rewrite S1. by apply Hrows, list_elem_of_further. }
    split; [by rewrite R1|]. split; [by rewrite R2|]. split; [by rewrite R3|].
    intros r c. rewrite R4. unfold cell_style. rewrite !S4.
    assert (forall c', c' ∈ Py.range 1 (max_column ws + 1) 1 <-> 1 <= c' <= width) as Hin.
    { intros c'. rewrite range_unit, elem_of_seq. lia. }
    destruct (decide (r = row)) as [->|Hne].
    + rewrite (bool_decide_eq_false_2 (row ∈ rows /\ _)) by (by intros [? _]).
      destruct (decide (1 <= c <= width)) as [Hc|Hc].
      * rewrite !bool_decide_eq_true_2; [done| |].
        -- split; [apply list_elem_of_here | done].
        -- split; [done | by apply Hin].
      * rewrite !bool_decide_eq_false_2; [done| |].
        -- by intros [_ ?].
        -- intros [_ ?]. by apply Hc, Hin.
    + rewrite (bool_decide_eq_false_2 (r = row /\ _)) by (by intros [? _]).
      destruct (decide (r ∈ rows /\ 1 <= c <= width)) as [[Hr Hc]|Hn].
      * rewrite !bool_decide_eq_true_2; [done| |done]. split; [by apply list_elem_of_further|done].
      * rewrite !bool_decide_eq_false_2; [done| |done].
        intros [Hr Hc]. apply elem_of_cons in Hr as [->|Hr]; [done|]. by apply Hn.
Qed.

Lemma width_loop (cols : list nat) :
  NoDup cols ->
  forall ws,
    1 <= max_row ws -> (forall c, c ∈ cols -> c <= max_column ws) ->
    let ws' := fold_left
                 (fun ws col =>
                    set_column_width (set_cell_style ws 1 col (cell_style ws 1 col)) col 10)
                 cols ws in
    max_row ws' = max_row ws /\ max_column ws' = max_column ws /\
    (forall r c, cell_style ws' r c = cell_style ws r c) /\
    (forall r c, ~ (r = 1 /\ c ∈ cols) -> cells ws' !! (r, c) = cells ws !! (r, c)) /\
    forall c,
      column_widths ws' !! c
      = if bool_decide (c ∈ cols) then Some 10 else column_widths ws !! c.
Proof.
  induction 1 as [|col cols Hcol Hnd IH]; intros ws Hrow Hcols; cbv zeta.
  - split; [done|]. split; [done|]. split; [done|]. split; [done|]. intros c.
    rewrite bool_decide_eq_false_2; [done | apply not_elem_of_nil].
  - cbn [fold_left].
    set (ws1 := set_column_width (set_cell_style ws 1 col (cell_style ws 1 col)) col 10).
    assert (max_row ws1 = max_row ws) as M1 by (cbn; lia).
    assert (max_column ws1 = max_column ws) as M2.
    { cbn. pose proof (Hcols col (list_elem_of_here _ _)). lia. }
    destruct (IH ws1) as (R1 & R2 & R3 & R4 & R5).
    { by rewrite M1. }
    { intros c Hc. rewrite M2. by apply Hcols, list_elem_of_further. }
    split; [by rewrite R1|]. split; [by rewrite R2|].
    assert (forall r c, cell_style ws1 r c = cell_style ws r c) as Hsame.
    { intros r c. unfold cell_style. cbn [ws1 set_column_width set_cell_style cells].
      destruct (decide ((1, col) = (r, c))) as [[= <- <-]|Hne].
      - by rewrite lookup_insert_eq.
      - by rewrite lookup_insert_ne. }
    split; [intros r c; by rewrite R3|]. split.
    + intros r c Hn. rewrite R4.
      * cbn [ws1 set_column_width set_cell_style cells]. rewrite lookup_insert_ne; [done|].
        intros [= <- <-]. apply Hn. split; [done | apply list_elem_of_here].
      * intros [-> Hc]. apply Hn. split; [done | by apply list_elem_of_further].
    + intros c. rewrite R5. cbn [ws1 set_column_width set_cell_style column_widths].
      destruct (decide (c = col)) as [->|Hne].
      * rewrite bool_decide_eq_false_2 by done.
        rewrite bool_decide_eq_true_2 by apply list_elem_of_here.
        by rewrite lookup_insert_eq.
      * rewrite lookup_insert_ne by done.
        destruct (decide (c ∈ cols)) as [Hc|Hc].
        -- rewrite !bool_decide_eq_true_2; [done | by apply list_elem_of_further | done].
        -- rewrite !bool_decide_eq_false_2; [done| |done].
           rewrite elem_of_cons. by intros [?|?].
Qed.

Lemma style_sheet_spec (ws : Worksheet) :
  1 <= max_row ws ->
  max_row (style_sheet ws) = max_row ws /\
  max_column (style_sheet ws) = max_column ws /\
  (forall row col,
     1 <= row <= max_row ws -> 1 <= col <= max_column ws ->
     cells (style_sheet ws) !! (row, col) = Some (restyle row (cell_style ws row col))) /\
  (forall row col,
     ~ (1 <= row <= max_row ws /\ 1 <= col <= max_column ws) ->
     cells (style_sheet ws) !! (row, col) = cells ws !! (row, col)) /\
  forall col,
    column_widths (style_sheet ws) !! col
    = if bool_decide (col = 1) then Some 15
      else if bool_decide (2 <= col <= max_column ws) then Some 10
      else column_widths ws !! col.
Proof.
  intros Hrow. unfold style_sheet.
  set (ws0 := set_column_width ws 1 15).
  destruct (width_loop (Py.range 2 (max_column ws0 + 1) 1)) with (ws := ws0)
    as (W1 & W2 & W3 & W4 & W5).
  { rewrite range_unit. apply NoDup_seq. }
  { done. }
  { intros c Hc. rewrite range_unit in Hc. apply elem_of_seq in Hc. lia. }
  set (ws1 := fold_left _ (Py.range 2 (max_column ws0 + 1) 1) ws0) in *.
  destruct (restyle_loop (Py.range 1 (max_row ws1 + 1) 1) (max_column ws)) with (ws := ws1)
    as (R1 & R2 & R3 & R4).
  { rewrite range_unit. apply NoDup_seq. }
  { by rewrite W2. }
  { intros r Hr. rewrite range_unit in Hr. apply elem_of_seq in Hr. lia. }
  assert (forall r, r ∈ Py.range 1 (max_row ws1 + 1) 1 <-> 1 <= r <= max_row ws) as Hin.
  { intros r. rewrite range_unit, elem_of_seq, W1. cbn. lia. }
  split; [by rewrite R1, W1|]. split; [by rewrite R2, W2|]. split; [|split].
  - intros row col Hr Hc. rewrite R4, bool_decide_eq_true_2; [|split; [by apply Hin | done]].
    by rewrite W3.
  - intros row col Hn. rewrite R4, bool_decide_eq_false_2.
    + apply W4. intros [-> Hc]. rewrite range_unit in Hc. apply elem_of_seq in Hc.
      apply Hn. cbn in Hc. lia.
    + intros [Hr Hc]. apply Hn. split; [by apply Hin | done].
  - intros col. rewrite R3, W5. cbn [ws0 set_column_width column_widths max_column].
    destruct (decide (col = 1)) as [->|Hne].
    + rewrite bool_decide_eq_false_2.
      * by rewrite lookup_insert_eq.
      * rewrite range_unit, elem_of_seq. lia.
    + rewrite (bool_decide_eq_false_2 (col = 1)) by done.
      rewrite lookup_insert_ne by done.
      destruct (decide (2 <= col <= max_column ws)) as [Hc|Hc].
      * rewrite !bool_decide_eq_true_2; [done|done|]. rewrite range_unit, elem_of_seq. lia.
      * rewrite !bool_decide_eq_false_2; [done|done|]. rewrite range_unit, elem_of_seq. lia.
Qed.

Lemma restyle_fill (row : nat) (s : CellStyle) :
  fill (restyle row s) = if Nat.eqb (row mod 3) 2 then fill s else yellow_fill.
Proof.
  unfold restyle.
  pose proof (Nat.mod_upper_bound row 3 ltac:(lia)) as Hlt.
  destruct (row mod 3) as [|[|[|m]]] eqn:E; [| | |lia]; cbn [Nat.eqb orb];
    by destruct (Nat.eqb row 1).
Qed.

(** X20: the styling centres every cell of the sheet and gives it a thin
    border, sets the width of the first column to 15 and of the others to
    10, makes the header row bold, and fills the rows whose number is not
    2 modulo 3 with yellow.  With the table written below a header row,
    the header, the prior-value row and the growth row of every indicator
    are yellow, and the row of its current values keeps the fill it had.
    A sheet that cannot be loaded or saved is left as it is. *)
Theorem styled_rows_of_the_comparison (ws : Worksheet) :
  1 <= max_row ws ->
  format_excel_with_style (Done ws) (Done tt) = Some (style_sheet ws) /\
  (forall e save, format_excel_with_style (Raised e) save = None) /\
  (forall e, format_excel_with_style (Done ws) (Raised e) = None) /\
  max_row (style_sheet ws) = max_row ws /\
  max_column (style_sheet ws) = max_column ws /\
  column_widths (style_sheet ws) !! 1 = Some 15 /\
  (forall col, 2 <= col <= max_column ws -> column_widths (style_sheet ws) !! col = Some 10) /\
  (forall row col,
     1 <= row <= max_row ws -> 1 <= col <= max_column ws ->
     let s := cell_style (style_sheet ws) row col in
     alignment s = center_alignment /\ border s = thin_border /\
     fill s = (if Nat.eqb (row mod 3) 2 then fill (cell_style ws row col) else yellow_fill) /\
     font s = (if Nat.eqb row 1 then bold_font else font (cell_style ws row col))) /\
  (forall col, 1 <= col <= max_column ws ->
     fill (cell_style (style_sheet ws) 1 col) = yellow_fill) /\
  (forall k col,
     1 <= col <= max_column ws ->
     (sheet_row (3 * k) <= max_row ws ->
      fill (cell_style (style_sheet ws) (sheet_row (3 * k)) col)
      = fill (cell_style ws (sheet_row (3 * k)) col)) /\
     (sheet_row (3 * k + 1) <= max_row ws ->
      fill (cell_style (style_sheet ws) (sheet_row (3 * k + 1)) col) = yellow_fill) /\
     (sheet_row (3 * k + 2) <= max_row ws ->
      fill (cell_style (style_sheet ws) (sheet_row (3 * k + 2)) col) = yellow_fill)) /\
  (forall row col,
     ~ (1 <= row <= max_row ws /\ 1 <= col <= max_column ws) ->
     cells (style_sheet ws) !! (row, col) = cells ws !! (row, col)).
Proof.
  intros Hrow. destruct (style_sheet_spec ws Hrow) as (M1 & M2 & Hin & Hout & Hw).
  assert (Hs : forall row col,
            1 <= row <= max_row ws -> 1 <= col <= max_column ws ->
            cell_style (style_sheet ws) row col = restyle row (cell_style ws row col)).
  { intros row col Hr Hc. unfold cell_style at 1. by rewrite Hin. }
  assert (Hf : forall row col,
            1 <= row <= max_row ws -> 1 <= col <= max_column ws ->
            fill (cell_style (style_sheet ws) row col)
            = if Nat.eqb (row mod 3) 2 then fill (cell_style ws row col) else yellow_fill).
  { intros row col Hr Hc. by rewrite Hs, restyle_fill. }
  split; [done|]. split; [done|]. split; [done|]. split; [done|]. split; [done|].
  split; [by rewrite Hw|]. split.
  { intros col Hc. rewrite Hw, bool_decide_eq_false_2 by lia.
    by rewrite bool_decide_eq_true_2. }
  split.
  { intros row col Hr Hc. cbv zeta. split; [|split; [|split]].
    - rewrite Hs by done. unfold restyle.
      by destruct (Nat.eqb (row mod 3) 1 || Nat.eqb (row mod 3) 0), (Nat.eqb row 1).
    - rewrite Hs by done. unfold restyle.
      by destruct (Nat.eqb (row mod 3) 1 || Nat.eqb (row mod 3) 0), (Nat.eqb row 1).
    - by apply Hf.
    - rewrite Hs by done. unfold restyle.
      by destruct (Nat.eqb (row mod 3) 1 || Nat.eqb (row mod 3) 0), (Nat.eqb row 1). }
  split.
  { intros col Hc. by rewrite Hf by lia. }
  split; [|exact Hout].
  intros k col Hc. unfold sheet_row. split; [|split]; intros Hk; rewrite Hf by lia.
  - replace ((3 * k + 2) mod 3) with 2; [done|].
    rewrite Nat.add_comm, Nat.mul_comm, Nat.Div0.mod_add. done.
  - replace ((3 * k + 1 + 2) mod 3) with 0; [done|].
    replace (3 * k + 1 + 2) with (0 + (k + 1) * 3) by lia. by rewrite Nat.Div0.mod_add.
  - replace ((3 * k + 2 + 2) mod 3) with 1; [done|].
    replace (3 * k + 2 + 2) with (1 + (k + 1) * 3) by lia. by rewrite Nat.Div0.mod_add.
Qed.

(** X21: the error dialog 处理错误, shown for an exception, only comes from
    the files: it ends the call exactly when the sheet cannot be read, or
    when there are indicators and collected rows and the output cannot be
    saved.  Building the frame never fails, since every collected row has
    one cell per label. *)
Theorem processing_error_only_from_files (sheet : io RawTable) (save : io unit)
    (input_path output_path city_filter file_type_label : string) (status_var log_func : bool) :
  let r := process_excel_file sheet save input_path output_path city_filter
             file_type_label status_var log_func in
  (exists msg, last r.2 = Some (ShowError "处理错误" msg)) <->
  (exists e, sheet = Raised e) \/
  (exists df_input e,
     sheet = Done df_input /\
     (extract_indicators_from_template df_input 1).1 <> [] /\
     (exists row_idx, row_idx < shape0 df_input /\
        collected df_input city_filter row_idx = true) /\
     save = Raised e).
Proof.
  cbv zeta.
  assert (Hfailed : forall before e,
            exists msg,
              last (failed input_path file_type_label status_var log_func before e).2
              = Some (ShowError "处理错误" msg)).
  { intros before e. unfold failed. cbn [snd]. eexists. rewrite !app_assoc. apply last_snoc. }
  destruct sheet as [df_input|e].
  2:{ split; [intros _; left; by exists e | intros _; apply Hfailed]. }
  pose proof (extract_lengths df_input 1) as Hlen.
  pose proof (scan_rows_collected df_input city_filter
                (extract_indicators_from_template df_input 1).2 (shape0 df_input)) as Hrows.
  pose proof (scan_rows_width df_input city_filter
                (extract_indicators_from_template df_input 1).2 (shape0 df_input)) as Hwidth.
  unfold process_excel_file.
  destruct (extract_indicators_from_template df_input 1) as [[|ind inds] vcs] eqn:Hext;
    cbn [fst snd] in *.
  { split.
    - cbn [snd]. rewrite !app_assoc, last_snoc. intros [msg [= H]].
    - intros [[e [=]]|(df & e & [= <-] & Hne & _)]. by rewrite Hext in Hne. }
  destruct (scan_rows df_input city_filter vcs (shape0 df_input)) as [cc city_data]
    eqn:Hscan. cbn [snd] in Hrows, Hwidth.
  destruct city_data as [|row0 city_data].
  { split.
    - cbn [snd]. rewrite !app_assoc, last_snoc. intros [msg [= H]].
    - intros [[e [=]]|(df & e & [= <-] & _ & (i & Hi & Hc) & _)]. exfalso.
      symmetry in Hrows. apply fmap_nil_inv in Hrows.
      assert (In i (List.filter (collected df_input city_filter) (seq 0 (shape0 df_input))))
        as Hin by (apply List.filter_In; split; [apply List.in_seq; lia | done]).
      rewrite Hrows in Hin. destruct Hin. }
  rewrite (make_frame_full _ _ _ Hwidth) by (cbn [length app] in *; lia).
  assert (exists row_idx, row_idx < shape0 df_input /\
            collected df_input city_filter row_idx = true) as Hcollected.
  { destruct (List.filter (collected df_input city_filter) (seq 0 (shape0 df_input)))
      as [|i l] eqn:E; [done|].
    assert (In i (List.filter (collected df_input city_filter) (seq 0 (shape0 df_input))))
      as Hin by (rewrite E; by left).
    apply List.filter_In in Hin as [Hin Hc]. apply List.in_seq in Hin.
    exists i. split; [lia | done]. }
  destruct save as [[]|e].
  - split.
    + cbn [snd]. destruct status_var, log_func; cbn [set_status log app];
        rewrite ?app_nil_r, ?app_assoc, ?last_snoc; intros [msg [= H]].
    + intros [[e [=]]|(df & e & _ & _ & _ & [=])].
  - split; [|intros _; apply Hfailed].
    intros _. right. exists df_input, e. split; [done|]. split; [by rewrite Hext|]. by split.
Qed.

End Pipeline.

(** * The properties on the sample data *)

(** The sample frames: 10 then 15 in the first county. *)
Lemma growth_rate_of_pair_witness :
  exists result_data d previous current,
    calculate_growth_rates Sample.parse_number Sample.frame_last Sample.frame_this
      ["销量（件）"] ["甲县"; "乙县"] = Some result_data /\
    dict_get "销量（件）" result_data = Some d /\
    previous = 10%float /\ current = 15%float /\
    growth_rates d !! "甲县" = Some ((current - previous) / previous * 100)%float.
Proof.
  destruct (proj1 (proj2 (growth_rate_of_pair Sample.parse_number))
              Sample.frame_last Sample.frame_this ["销量（件）"] ["甲县"; "乙县"]
              (default [] (calculate_growth_rates Sample.parse_number Sample.frame_last
                             Sample.frame_this ["销量（件）"] ["甲县"; "乙县"]))
              "销量（件）" "甲县"
              [ [CStr "X"; CStr "甲县"; CNum 10] ] [ [CStr "X"; CStr "甲县"; CNum 15] ])
    as (d & previous & current & growth & Hd & Hp & Hq & Hg & _ & _ & Hf).
  - vm_compute. reflexivity.
  - apply list_elem_of_here.
  - apply list_elem_of_here.
  - vm_compute. reflexivity.
  - discriminate.
  - vm_compute. reflexivity.
  - discriminate.
  - exists (default [] (calculate_growth_rates Sample.parse_number Sample.frame_last
                             Sample.frame_this ["销量（件）"] ["甲县"; "乙县"])), d, previous, current.
    assert (previous = 10%float) as Ep by (vm_compute in Hp; congruence).
    assert (current = 15%float) as Eq by (vm_compute in Hq; congruence).
    split; [vm_compute; reflexivity|]. split; [done|]. split; [done|]. split; [done|].
    rewrite Hg. f_equal. apply Hf. subst previous. vm_compute. reflexivity.
Defined.

(** The first county has the previous value 10, present and not zero, and
    no current value: its growth rate is NaN all the same. *)
Lemma growth_undefined_though_previous_present :
  exists result_data d growth,
    calculate_growth_rates Sample.parse_number Sample.frame_last Sample.frame_this_gap
      ["销量（件）"] ["甲县"; "乙县"] = Some result_data /\
    dict_get "销量（件）" result_data = Some d /\
    first_value Sample.parse_number Sample.frame_last
      [ [CStr "X"; CStr "甲县"; CNum 10] ] "销量（件）" = Some 10%float /\
    absent_or_zero 10 = false /\
    growth_rates d !! "甲县" = Some growth /\
    Py.isna growth = true.
Proof.
  eexists _, _, _. repeat split; vm_compute; reflexivity.
Qed.

(** A sheet without a header row and a sheet of another city. *)
Lemma failures_told_apart_by_message_only_witness :
  let r1 := process_excel_file Sample.parse_number Sample.str_of_float Sample.basename Sample.frame_error
              (Done Sample.sheet_no_header) (Done tt) "in.xlsx" "out.xlsx" "忻州" "去年"
              true true in
  let r2 := process_excel_file Sample.parse_number Sample.str_of_float Sample.basename Sample.frame_error
              (Done Sample.sheet_other_city) (Done tt) "in.xlsx" "out.xlsx" "忻州" "去年"
              true true in
  r1.1 = r2.1 /\ last r1.2 <> last r2.2.
Proof.
  destruct (failures_told_apart_by_message_only Sample.parse_number Sample.str_of_float
              Sample.basename Sample.frame_error Sample.sheet_no_header Sample.sheet_other_city (Done tt) (Done tt)
              "in.xlsx" "out.xlsx" "忻州" "去年" true true)
    as (H1 & H2 & _ & _ & Hne).
  - reflexivity.
  - vm_compute. discriminate.
  - vm_compute. reflexivity.
  - split; [by rewrite H1, H2 | exact Hne].
Defined.

(** The sheet without a header row has no indicators; the sheet of another
    city has one, and no row of the wanted city; the caller gets
    [(None, [])] from both. *)
Lemma failures_share_the_returned_value :
  (extract_indicators_from_template Sample.str_of_float Sample.sheet_no_header 1).1 = [] /\
  (extract_indicators_from_template Sample.str_of_float Sample.sheet_other_city 1).1
  = ["销量（件）"] /\
  (scan_rows Sample.parse_number Sample.str_of_float Sample.sheet_other_city "忻州" [4] 3).2
  = [] /\
  (process_excel_file Sample.parse_number Sample.str_of_float Sample.basename Sample.frame_error
     (Done Sample.sheet_no_header) (Done tt) "in.xlsx" "out.xlsx" "忻州" "去年" true true).1
  = (None, []) /\
  (process_excel_file Sample.parse_number Sample.str_of_float Sample.basename Sample.frame_error
     (Done Sample.sheet_other_city) (Done tt) "in.xlsx" "out.xlsx" "忻州" "去年" true true).1
  = (None, []).
Proof. repeat split; vm_compute; reflexivity. Qed.

(** City cells A, empty, empty, B, empty: the second and third rows
    resolve to A, the fifth to B. *)
Lemma city_forward_fill_witness :
  (scan_rows Sample.parse_number Sample.str_of_float Sample.sheet_cities "A" [] 2).1
  = Some "A" /\
  (scan_rows Sample.parse_number Sample.str_of_float Sample.sheet_cities "A" [] 3).1
  = Some "A" /\
  (scan_rows Sample.parse_number Sample.str_of_float Sample.sheet_cities "A" [] 5).1
  = Some "B" /\
  (scan_rows Sample.parse_number Sample.str_of_float Sample.sheet_cities "A" [] 3).2
  = (scan_rows Sample.parse_number Sample.str_of_float Sample.sheet_cities "A" [] 2).2
    ++ [[CStr "A"; CStr "c3"]] /\
  (scan_rows Sample.parse_number Sample.str_of_float Sample.sheet_cities "A" [] 5).2
  = (scan_rows Sample.parse_number Sample.str_of_float Sample.sheet_cities "A" [] 4).2.
Proof.
  pose proof (city_forward_fill Sample.parse_number Sample.str_of_float Sample.sheet_cities
                "A" [] 0 1) as H01.
  pose proof (city_forward_fill Sample.parse_number Sample.str_of_float Sample.sheet_cities
                "A" [] 0 2) as H02.
  pose proof (city_forward_fill Sample.parse_number Sample.str_of_float Sample.sheet_cities
                "A" [] 3 4) as H34.
  assert (forall k, 0 < k <= 2 ->
            city_name_of Sample.str_of_float Sample.sheet_cities k = "") as Hblank.
  { intros [|[|[|k]]] ?; try lia; reflexivity. }
  destruct H01 as [A1 _]; [lia | reflexivity | intros k ?; apply Hblank; lia |].
  destruct H02 as [A2 B2]; [lia | reflexivity | exact Hblank |].
  destruct H34 as [A4 B4]; [lia | reflexivity | |].
  { intros [|[|[|[|[|k]]]]] ?; try lia; reflexivity. }
  split; [exact A1|]. split; [exact A2|]. split; [exact A4|].
  split; [exact B2|]. rewrite B4. apply app_nil_r.
Defined.

(** Empty header cells and a name off the stride are skipped. *)
Lemma header_indicators_witness :
  let r := extract_indicators_from_template Sample.str_of_float Sample.sheet_header_gaps 1 in
  8 ∈ r.2 /\ ~ 6 ∈ r.2 /\ ~ 7 ∈ r.2 /\ length r.1 = length r.2.
Proof.
  destruct (header_indicators Sample.str_of_float Sample.sheet_header_gaps 1)
    as (Hin & _ & _ & Hlen & _).
  - vm_compute. lia.
  - cbv zeta. split; [|split; [|split; [|exact Hlen]]].
    + apply Hin. vm_compute. repeat split; lia.
    + intros H. apply Hin in H as (_ & _ & H). vm_compute in H. discriminate.
    + intros H. apply Hin in H as (_ & H & _). vm_compute in H. discriminate.
Defined.


(** The sheet with a text, an empty cell and a short row. *)
Lemma extracted_row_invariant_witness :
  exists values v,
    [CStr "X"; CStr "甲县"; CNum nan; CNum nan; CNum 12]
    = CStr "X" :: CStr "甲县" :: (CNum <$> values) /\
    length values = 3 /\
    values !! 0 = Some v /\ Py.isna v = true /\ Py.is_zero v = false.
Proof.
  destruct (extracted_row_invariant Sample.parse_number Sample.str_of_float Sample.basename Sample.frame_error
              Sample.sheet_mixed (Done tt) "in.xlsx" "out.xlsx" "X" "去年" false false
              {| columns := ["地市"; "县级市、区"; "销量"; "产值"; "户数"];
                 body := [ [CStr "X"; CStr "甲县"; CNum nan; CNum nan; CNum 12];
                           [CStr "X"; CStr "乙县"; CNum 0; CNum 7; CNum nan] ] |}
              ["销量"; "产值"; "户数"]
              [SaveExcel "out.xlsx"
                 {| columns := ["地市"; "县级市、区"; "销量"; "产值"; "户数"];
                    body := [ [CStr "X"; CStr "甲县"; CNum nan; CNum nan; CNum 12];
                              [CStr "X"; CStr "乙县"; CNum 0; CNum 7; CNum nan] ] |}])
    as (_ & _ & Hrows).
  - vm_compute. reflexivity.
  - destruct (Hrows [CStr "X"; CStr "甲县"; CNum nan; CNum nan; CNum 12])
      as (i & county & values & Hi & Hcounty & Hr & Hl & Hvalues);
      [apply list_elem_of_here|].
    injection Hr as <- Hr. destruct (Hvalues 0 4 eq_refl) as [Hv Hnan].
    assert (i = 2) as ->.
    { destruct i as [|[|[|[|i]]]]; try reflexivity;
        vm_compute in Hcounty; discriminate Hcounty. }
    exists values, (value_at Sample.parse_number Sample.sheet_mixed 2 4).
    split; [by rewrite <- Hr|]. split; [exact Hl|]. split; [exact Hv|].
    apply Hnan. right. right. by exists "未报".
Defined.


(** A sheet of one row has no header row at index 1. *)
Lemma missing_header_row_is_fatal_witness :
  extract_indicators_from_template Sample.str_of_float Sample.sheet_no_header 1 = ([], []) /\
  (run_processing Sample.parse_number Sample.str_of_float Sample.basename Sample.path_join Sample.frame_error
     (Done Sample.sheet_no_header) (Done (Sample.sheet_this CITY)) (Done tt) (Done tt) (Done tt)
     "去年.xlsx" "今年.xlsx" "out" Closed).1 = Aborted.
Proof.
  pose proof (missing_header_row_is_fatal Sample.parse_number Sample.str_of_float
                Sample.basename Sample.path_join Sample.frame_error) as (Hextract & _ & Hrun).
  split.
  - apply Hextract. vm_compute. lia.
  - apply (Hrun Sample.sheet_no_header (Done (Sample.sheet_this CITY))). reflexivity.
Defined.

(** The counties of the sample come from the prior-year frame. *)
Lemma comparison_built_from_prior_year_witness :
  exists j row,
    column_index Sample.frame_last OUTPUT_COUNTY_COL_NAME = Some j /\
    row ∈ body Sample.frame_last /\ cell_at row j = CStr "乙县".
Proof.
  pose proof (comparison_built_from_prior_year Sample.parse_number Sample.str_of_float
                Sample.basename Sample.path_join Sample.frame_error) as (_ & Hfrom & _).
  destruct (Hfrom Sample.frame_last Sample.frame_this_gap ["销量（件）"] ["甲县"; "乙县"])
    as [_ Hc]; [reflexivity|].
  apply Hc. apply list_elem_of_further, list_elem_of_here.
Defined.

(** The runs of the sample sheets for the city of the program, with
    nothing and with the one indicator ticked. *)
Lemma growth_rows_independent_of_selection_witness :
  exists result_data df_output ev result_data' df_output' ev',
    run_processing Sample.parse_number Sample.str_of_float Sample.basename Sample.path_join
      Sample.frame_error (Done (Sample.sheet_last CITY)) (Done (Sample.sheet_this CITY))
      (Done tt) (Done tt) (Done tt) "去年.xlsx" "今年.xlsx" "out" Closed
    = (Completed result_data df_output, ev) /\
    run_processing Sample.parse_number Sample.str_of_float Sample.basename Sample.path_join
      Sample.frame_error (Done (Sample.sheet_last CITY)) (Done (Sample.sheet_this CITY))
      (Done tt) (Done tt) (Done tt) "去年.xlsx" "今年.xlsx" "out" (Confirmed [true])
    = (Completed result_data' df_output', ev') /\
    body df_output !! 0 = Some [CStr "销量"; CStr "15.00"; CStr "8.00"] /\
    body df_output' !! 0 = Some [CStr "销量"; CStr "-15.00"; CStr "-8.00"] /\
    body df_output !! 2 = Some [CStr "同比增幅%"; CStr "50.00%"; CStr "-60.00%"] /\
    exists texts',
      body df_output' !! 2 = Some (CStr <$> texts') /\
      Forall2 same_text ["同比增幅%"; "50.00%"; "-60.00%"] texts'.
Proof.
  destruct (run_processing Sample.parse_number Sample.str_of_float Sample.basename
              Sample.path_join Sample.frame_error (Done (Sample.sheet_last CITY))
              (Done (Sample.sheet_this CITY)) (Done tt) (Done tt) (Done tt)
              "去年.xlsx" "今年.xlsx" "out" Closed)
    as [[| |result_data df_output] ev] eqn:H; try (vm_compute in H; discriminate H).
  destruct (run_processing Sample.parse_number Sample.str_of_float Sample.basename
              Sample.path_join Sample.frame_error (Done (Sample.sheet_last CITY))
              (Done (Sample.sheet_this CITY)) (Done tt) (Done tt) (Done tt)
              "去年.xlsx" "今年.xlsx" "out" (Confirmed [true]))
    as [[| |result_data' df_output'] ev'] eqn:H'; try (vm_compute in H'; discriminate H').
  destruct (growth_rows_independent_of_selection _ _ _ _ _ _ _ _ _ _ _ _ _ _ _ _ _ _ _ _ _
              H H') as (_ & _ & Hrows).
  exists result_data, df_output, ev, result_data', df_output', ev'.
  split; [reflexivity|]. split; [reflexivity|].
  assert (body df_output !! 0 = Some [CStr "销量"; CStr "15.00"; CStr "8.00"] /\
          body df_output !! 2 = Some [CStr "同比增幅%"; CStr "50.00%"; CStr "-60.00%"])
    as [E0 E2].
  { vm_compute in H. injection H as _ <- _. split; reflexivity. }
  assert (body df_output' !! 0 = Some [CStr "销量"; CStr "-15.00"; CStr "-8.00"] /\
          exists row', body df_output' !! 2 = Some row') as [E0' [row' E2']].
  { vm_compute in H'. injection H' as _ <- _. split; [reflexivity | by eexists]. }
  split; [exact E0|]. split; [exact E0'|]. split; [exact E2|].
  destruct (Hrows 0 _ _ E2 E2') as (texts & texts' & Ht & -> & Hsame).
  exists texts'. split; [exact E2'|].
  assert (texts = ["同比增幅%"; "50.00%"; "-60.00%"]) as <-; [|exact Hsame].
  destruct texts as [|a [|b [|c [|? ?]]]]; try discriminate Ht.
  by injection Ht as <- <- <-.
Defined.

(** The third indicator column of the mixed sheet, in its short row. *)
Lemma value_columns_inside_sheet_witness :
  (extract_indicators_from_template Sample.str_of_float Sample.sheet_mixed 1).2 = [4; 6; 8] /\
  8 < shape1 Sample.sheet_mixed /\
  value_at Sample.parse_number Sample.sheet_mixed 3 8
  = to_numeric Sample.parse_number (iloc Sample.sheet_mixed 3 8).
Proof.
  assert ((extract_indicators_from_template Sample.str_of_float Sample.sheet_mixed 1).2
          = [4; 6; 8]) as E by (vm_compute; reflexivity).
  split; [exact E|].
  destruct (value_columns_inside_sheet Sample.parse_number Sample.str_of_float
              Sample.sheet_mixed 1 3 8) as [[_ Hlt] Hv].
  - rewrite E. do 2 apply list_elem_of_further. apply list_elem_of_here.
  - split; [exact Hlt | exact Hv].
Defined.

(** The sheet of the city Y, asked for 忻州. *)
Lemma unmatched_city_gives_no_frame_witness :
  (process_excel_file Sample.parse_number Sample.str_of_float Sample.basename
     Sample.frame_error (Done Sample.sheet_other_city) (Done tt) "in.xlsx" "out.xlsx"
     "忻州" "去年" true true).1 = (None, []).
Proof.
  apply (unmatched_city_gives_no_frame Sample.parse_number Sample.str_of_float
           Sample.basename Sample.frame_error Sample.sheet_other_city (Done tt)
           "in.xlsx" "out.xlsx" "忻州" "去年" true true).
  left. intros [|[|[|j]]] Hj; vm_compute; discriminate.
Defined.

(** The second county has the prior value 20 and no row in the current
    year: its three cells read N/A. *)
Lemma county_without_row_reads_NA_witness :
  exists result_data d,
    calculate_growth_rates Sample.parse_number Sample.frame_last Sample.frame_this_short
      ["销量（件）"] ["甲县"; "乙县"] = Some result_data /\
    dict_get "销量（件）" result_data = Some d /\
    first_value Sample.parse_number Sample.frame_last
      [ [CStr "X"; CStr "乙县"; CNum 20] ] "销量（件）" = Some 20%float /\
    current_row ["甲县"; "乙县"] "销量（件）" d = ["销量"; "15.00"; "N/A"] /\
    previous_row ["甲县"; "乙县"] d !! 2 = Some "N/A" /\
    growth_row ["甲县"; "乙县"] d !! 2 = Some "N/A".
Proof.
  destruct (calculate_growth_rates Sample.parse_number Sample.frame_last
              Sample.frame_this_short ["销量（件）"] ["甲县"; "乙县"])
    as [result_data|] eqn:H; [|vm_compute in H; discriminate H].
  destruct (dict_get "销量（件）" result_data) as [d|] eqn:Hd.
  2:{ vm_compute in H. injection H as <-. vm_compute in Hd. discriminate Hd. }
  destruct (county_without_row_reads_NA Sample.parse_number Sample.frame_last
              Sample.frame_this_short ["销量（件）"] ["甲县"; "乙县"] result_data
              "销量（件）" "乙县" d 1 H Hd eq_refl)
    as (_ & _ & _ & _ & Hp & Hg).
  - right. vm_compute. reflexivity.
  - exists result_data, d. split; [reflexivity|]. split; [exact Hd|].
    split; [vm_compute; reflexivity|]. split; [|split; [exact Hp | exact Hg]].
    vm_compute in H. injection H as <-. vm_compute in Hd. injection Hd as <-.
    vm_compute. reflexivity.
Defined.

(** The first county has lost its current value: the cell reads 0.00 and
    the growth cell N/A. *)
Lemma absent_value_reads_zero_witness :
  exists result_data d,
    calculate_growth_rates Sample.parse_number Sample.frame_last Sample.frame_this_gap
      ["销量（件）"] ["甲县"; "乙县"] = Some result_data /\
    dict_get "销量（件）" result_data = Some d /\
    current_row ["甲县"; "乙县"] "销量（件）" d !! 1 = Some "0.00" /\
    previous_row ["甲县"; "乙县"] d !! 1 = Some "10.00" /\
    growth_row ["甲县"; "乙县"] d !! 1 = Some "N/A".
Proof.
  destruct (calculate_growth_rates Sample.parse_number Sample.frame_last
              Sample.frame_this_gap ["销量（件）"] ["甲县"; "乙县"])
    as [result_data|] eqn:H; [|vm_compute in H; discriminate H].
  destruct (dict_get "销量（件）" result_data) as [d|] eqn:Hd.
  2:{ vm_compute in H. injection H as <-. vm_compute in Hd. discriminate Hd. }
  destruct (absent_value_reads_zero Sample.parse_number Sample.frame_last
              Sample.frame_this_gap ["销量（件）"] ["甲县"; "乙县"] result_data
              "销量（件）" "甲县" d 0
              [ [CStr "X"; CStr "甲县"; CNum 10] ] [ [CStr "X"; CStr "甲县"; CNum Py.np_nan] ]
              H Hd eq_refl)
    as (previous & current & Hp & Hq & _ & Hprev & Hgrowth & Hzero & _).
  - vm_compute. reflexivity.
  - discriminate.
  - vm_compute. reflexivity.
  - discriminate.
  - exists result_data, d. split; [reflexivity|]. split; [exact Hd|].
    assert (previous = 10%float) as Ep by (vm_compute in Hp; congruence).
    assert (current = Py.np_nan) as Ec by (vm_compute in Hq; by injection Hq as <-).
    split; [apply Hzero; by rewrite Ec|].
    split; [rewrite Hprev, Ep; reflexivity|].
    rewrite Hgrowth, Ep, Ec. reflexivity.
Defined.

(** The current-year frame names its indicator 产量（件）. *)
Lemma missing_indicator_column_raises_witness :
  column_index Sample.frame_this_renamed "销量（件）" = None /\
  calculate_growth_rates Sample.parse_number Sample.frame_last Sample.frame_this_renamed
    ["销量（件）"] ["甲县"; "乙县"] = None.
Proof.
  split; [reflexivity|].
  apply (missing_indicator_column_raises Sample.parse_number Sample.frame_last
           Sample.frame_this_renamed ["销量（件）"] ["甲县"; "乙县"] "销量（件）" "甲县"
           [ [CStr "X"; CStr "甲县"; CNum 10] ] [ [CStr "X"; CStr "甲县"; CNum 15] ]).
  - apply list_elem_of_here.
  - apply list_elem_of_here.
  - vm_compute. reflexivity.
  - discriminate.
  - vm_compute. reflexivity.
  - discriminate.
  - right. reflexivity.
Defined.

(** The sample frames and their one indicator. *)
Lemma growth_data_follows_indicators_witness :
  exists result_data,
    calculate_growth_rates Sample.parse_number Sample.frame_last Sample.frame_this
      ["销量（件）"] ["甲县"; "乙县"] = Some result_data /\
    result_data.*1 = ["销量（件）"] /\
    length (output_rows result_data ["甲县"; "乙县"]) = 3.
Proof.
  destruct (calculate_growth_rates Sample.parse_number Sample.frame_last Sample.frame_this
              ["销量（件）"] ["甲县"; "乙县"])
    as [result_data|] eqn:H; [|vm_compute in H; discriminate H].
  destruct (growth_data_follows_indicators Sample.parse_number Sample.frame_last
              Sample.frame_this ["销量（件）"] ["甲县"; "乙县"] result_data)
    as (Hkeys & _ & Hlen & _).
  - apply NoDup_singleton.
  - exact H.
  - exists result_data. split; [reflexivity|]. split; [exact Hkeys | exact Hlen].
Defined.

(** The prior-year sample sheet, read for the city X. *)
Lemma indicators_and_counties_of_extracted_frame_witness :
  exists df_last_year indicators ev,
    process_excel_file Sample.parse_number Sample.str_of_float Sample.basename
      Sample.frame_error (Done (Sample.sheet_last "X")) (Done tt) "in.xlsx" "out.xlsx"
      "X" "去年" false false
    = ((Some df_last_year, indicators), ev) /\
    extract_indicators_and_counties df_last_year Sample.frame_this
    = Some (["销量（件）"], ["甲县"; "乙县"]).
Proof.
  destruct (process_excel_file Sample.parse_number Sample.str_of_float Sample.basename
              Sample.frame_error (Done (Sample.sheet_last "X")) (Done tt) "in.xlsx"
              "out.xlsx" "X" "去年" false false)
    as [[[df_last_year|] indicators] ev] eqn:H; [|vm_compute in H; discriminate H].
  destruct (indicators_and_counties_of_extracted_frame Sample.parse_number
              Sample.str_of_float Sample.basename Sample.frame_error _ _ _ _ _ _ _ _
              df_last_year Sample.frame_this indicators ev H) as [Hok _].
  exists df_last_year, indicators, ev. split; [reflexivity|].
  assert (indicators = ["销量（件）"]) as Ei by (vm_compute in H; by injection H as _ <- _).
  rewrite Hok.
  - rewrite Ei. vm_compute. reflexivity.
  - rewrite Ei. vm_compute. intros Hin. inversion Hin as [|? ? ? Hin']; subst.
    inversion Hin'.
Defined.

(** The two sample sheets for the city of the program. *)
Lemma well_formed_run_completes_witness :
  exists result_data df_output ev,
    run_processing Sample.parse_number Sample.str_of_float Sample.basename Sample.path_join
      Sample.frame_error (Done (Sample.sheet_last CITY)) (Done (Sample.sheet_this CITY))
      (Done tt) (Done tt) (Done tt) "去年.xlsx" "今年.xlsx" "out" (Confirmed [true])
    = (Completed result_data df_output, ev) /\
    result_data.*1 = ["销量（件）"] /\
    columns df_output = ["指标名称"; "甲县"; "乙县"] /\
    length (body df_output) = 3.
Proof.
  destruct (process_excel_file Sample.parse_number Sample.str_of_float Sample.basename
              Sample.frame_error (Done (Sample.sheet_last CITY)) (Done tt) "去年.xlsx"
              (Sample.path_join "out" "忻州_指标数据_去年.xlsx") CITY "去年" true true)
    as [[[df_last_year|] inds_last] ev_last] eqn:P1; [|vm_compute in P1; discriminate P1].
  destruct (process_excel_file Sample.parse_number Sample.str_of_float Sample.basename
              Sample.frame_error (Done (Sample.sheet_this CITY)) (Done tt) "今年.xlsx"
              (Sample.path_join "out" "忻州_指标数据_今年.xlsx") CITY "今年" true true)
    as [[[df_this_year|] inds_this] ev_this] eqn:P2; [|vm_compute in P2; discriminate P2].
  assert (inds_last = ["销量（件）"]) as E1 by (vm_compute in P1; by injection P1 as _ <- _).
  assert (inds_this = ["销量（件）"]) as E2 by (vm_compute in P2; by injection P2 as _ <- _).
  destruct (well_formed_run_completes Sample.parse_number Sample.str_of_float
              Sample.basename Sample.path_join Sample.frame_error
              (Sample.sheet_last CITY) (Sample.sheet_this CITY) (Done tt) (Done tt)
              "去年.xlsx" "今年.xlsx" "out" (Confirmed [true])
              df_last_year df_this_year inds_last inds_this ev_last ev_this P1 P2)
    as (result_data & df_output & ev & Hrun & Hkeys & Hcols & Hlen).
  - rewrite E1.
    apply (bool_decide_unpack
             (NoDup [OUTPUT_CITY_COL_NAME; OUTPUT_COUNTY_COL_NAME; "销量（件）"])).
    vm_compute. exact I.
  - rewrite E2.
    apply (bool_decide_unpack
             (NoDup [OUTPUT_CITY_COL_NAME; OUTPUT_COUNTY_COL_NAME; "销量（件）"])).
    vm_compute. exact I.
  - intros i. by rewrite E1, E2.
  - exists result_data, df_output, ev. split; [exact Hrun|].
    split; [by rewrite Hkeys, E1|]. split; [rewrite Hcols; vm_compute; reflexivity|].
    by rewrite Hlen, E1.
Defined.

(** The accepted form, and a form with the prior-year file only. *)
Lemma form_is_checked_before_the_run_witness :
  (run_from_form Sample.parse_number Sample.str_of_float Sample.basename Sample.path_join
     Sample.frame_error Sample.int_of_text Sample.isdir
     (fun _ _ => Done Sample.sheet_no_header) (Done tt) (Done tt) (Done tt)
     "去年.xlsx" "今年.xlsx" "out" "0" Closed).1 = Some Aborted /\
  run_from_form Sample.parse_number Sample.str_of_float Sample.basename Sample.path_join
    Sample.frame_error Sample.int_of_text Sample.isdir
    (fun _ _ => Done Sample.sheet_no_header) (Done tt) (Done tt) (Done tt)
    "去年.xlsx" "" "out" "0" Closed
  = (None, [ShowError "输入错误" "需要同时选择去年和今年的数据文件才能计算增幅。";
            SetStatus "错误: 请同时选择去年和今年的数据文件。"]).
Proof.
  split.
  - rewrite (proj1 (form_is_checked_before_the_run Sample.parse_number Sample.str_of_float
                      Sample.basename Sample.path_join Sample.frame_error Sample.int_of_text
                      Sample.isdir (fun _ _ => Done Sample.sheet_no_header)
                      (Done tt) (Done tt) (Done tt) "去年.xlsx" "今年.xlsx" "out" "0" Closed)
               0%Z).
    + vm_compute. reflexivity.
    + repeat split; (reflexivity || discriminate || lia).
  - apply (proj2 (proj2 (form_is_checked_before_the_run Sample.parse_number
                           Sample.str_of_float Sample.basename Sample.path_join
                           Sample.frame_error Sample.int_of_text Sample.isdir
                           (fun _ _ => Done Sample.sheet_no_header)
                           (Done tt) (Done tt) (Done tt) "去年.xlsx" "" "out" "0" Closed))
             0%Z); try reflexivity; try lia; try discriminate.
    right. split; [discriminate | reflexivity].
Defined.

(** A sheet of a header and one indicator, three columns wide and
    without styles. *)
Lemma styled_rows_of_the_comparison_witness :
  let ws := {| max_row := 4; max_column := 3; cells := ∅; column_widths := ∅ |} in
  fill (cell_style (style_sheet ws) 1 2) = yellow_fill /\
  fill (cell_style (style_sheet ws) 2 2) = fill default_style /\
  fill (cell_style (style_sheet ws) 3 2) = yellow_fill /\
  fill (cell_style (style_sheet ws) 4 2) = yellow_fill.
Proof.
  cbv zeta.
  destruct (styled_rows_of_the_comparison
              {| max_row := 4; max_column := 3; cells := ∅; column_widths := ∅ |})
    as (_ & _ & _ & _ & _ & _ & _ & _ & Hhead & Hrows & _).
  - simpl. lia.
  - destruct (Hrows 0 2) as (H2 & H3 & H4); [simpl; lia|].
    split; [apply Hhead; simpl; lia|].
    split; [apply H2; unfold sheet_row; simpl; lia|].
    split; [apply H3; unfold sheet_row; simpl; lia | apply H4; unfold sheet_row; simpl; lia].
Defined.

(** The prior-year sample sheet with a current-year sheet of another
    city. *)
Lemma aborted_run_keeps_prior_year_output_witness :
  exists df_last_year,
    let r := run_processing Sample.parse_number Sample.str_of_float Sample.basename
               Sample.path_join Sample.frame_error (Done (Sample.sheet_last CITY))
               (Done Sample.sheet_other_city) (Done tt) (Done tt) (Done tt)
               "去年.xlsx" "今年.xlsx" "out" Closed in
    r.1 = Aborted /\ SaveExcel "out/忻州_指标数据_去年.xlsx" df_last_year ∈ r.2.
Proof.
  destruct (process_excel_file Sample.parse_number Sample.str_of_float Sample.basename
              Sample.frame_error (Done (Sample.sheet_last CITY)) (Done tt) "去年.xlsx"
              (Sample.path_join "out" "忻州_指标数据_去年.xlsx") CITY "去年" true true)
    as [[[df_last_year|] inds_last] ev_last] eqn:P1; [|vm_compute in P1; discriminate P1].
  destruct (process_excel_file Sample.parse_number Sample.str_of_float Sample.basename
              Sample.frame_error (Done Sample.sheet_other_city) (Done tt) "今年.xlsx"
              (Sample.path_join "out" "忻州_指标数据_今年.xlsx") CITY "今年" true true)
    as [[[df_this_year|] inds_this] ev_this] eqn:P2; [vm_compute in P2; discriminate P2|].
  destruct (aborted_run_keeps_prior_year_output Sample.parse_number Sample.str_of_float
              Sample.basename Sample.path_join Sample.frame_error
              (Done (Sample.sheet_last CITY)) (Done Sample.sheet_other_city)
              (Done tt) (Done tt) (Done tt) "去年.xlsx" "今年.xlsx" "out" Closed
              df_last_year inds_last inds_this ev_last ev_this P1 P2)
    as (Hr & Hsave & _).
  exists df_last_year. cbv zeta. split; [exact Hr|]. apply Hsave. split; reflexivity.
Defined.

(** The prior-year sample sheet with a current-year sheet whose
    indicator has another name. *)
Lemma mismatched_indicators_crash_the_run_witness :
  (run_processing Sample.parse_number Sample.str_of_float Sample.basename
     Sample.path_join Sample.frame_error (Done (Sample.sheet_last CITY))
     (Done (Sample.sheet_this_renamed CITY)) (Done tt) (Done tt) (Done tt)
     "去年.xlsx" "今年.xlsx" "out" Closed).1 = Crashed.
Proof.
  destruct (process_excel_file Sample.parse_number Sample.str_of_float Sample.basename
              Sample.frame_error (Done (Sample.sheet_last CITY)) (Done tt) "去年.xlsx"
              (Sample.path_join "out" "忻州_指标数据_去年.xlsx") CITY "去年" true true)
    as [[[df_last_year|] inds_last] ev_last] eqn:P1; [|vm_compute in P1; discriminate P1].
  destruct (process_excel_file Sample.parse_number Sample.str_of_float Sample.basename
              Sample.frame_error (Done (Sample.sheet_this_renamed CITY)) (Done tt) "今年.xlsx"
              (Sample.path_join "out" "忻州_指标数据_今年.xlsx") CITY "今年" true true)
    as [[[df_this_year|] inds_this] ev_this] eqn:P2; [|vm_compute in P2; discriminate P2].
  assert (inds_last = ["销量（件）"]) as E1 by (vm_compute in P1; by injection P1 as _ <- _).
  assert (inds_this = ["产量（件）"]) as E2 by (vm_compute in P2; by injection P2 as _ <- _).
  apply (mismatched_indicators_crash_the_run Sample.parse_number Sample.str_of_float
           Sample.basename Sample.path_join Sample.frame_error
           (Sample.sheet_last CITY) (Sample.sheet_this_renamed CITY) (Done tt) (Done tt)
           (Done tt) "去年.xlsx" "今年.xlsx" "out" Closed
           df_last_year df_this_year inds_last inds_this ev_last ev_this "销量（件）" 2 2
           P1 P2).
  - rewrite E1. apply list_elem_of_here.
  - rewrite E2. intros Hin. apply list_elem_of_singleton in Hin. discriminate Hin.
  - discriminate.
  - discriminate.
  - vm_compute. lia.
  - vm_compute. reflexivity.
  - vm_compute. lia.
  - vm_compute. reflexivity.
  - vm_compute. reflexivity.
Defined.

